(** * hydpy.core.sequencetools: storage backend, mode transitions and
      value slots of sequences, embedded from the Python source.

    Python objects are modelled by records, raised exceptions by an error
    result that keeps every mutation done before the raise, and numpy
    arrays by their shape and their flat, row-major data. *)

From Stdlib Require Import ZArith Lia.
From Stdlib Require Import Strings.Byte.
From stdpp Require Import base tactics option list gmap strings.

Local Open Scope Z_scope.

(** ** 8-byte floating-point values

    A float is its IEEE-754 binary64 bit pattern, an integer below 2^64;
    values are only copied, packed and unpacked by the code modelled here,
    never computed with.  Two floats are bit-identical when the patterns
    are equal. *)
Module Float64.

Definition float64 := Z.

Definition wf (x : float64) : Prop := 0 <= x < 2 ^ 64.

(** [0.], [1.] and [numpy.nan] (the quiet NaN of numpy). *)
Definition zero : float64 := 0.
Definition one : float64 := 0x3FF0000000000000.
Definition nan : float64 := 0x7FF8000000000000.

Definition Z_of_byte (b : byte) : Z := Z.of_N (Byte.to_N b).

Definition byte_of_Z (z : Z) : byte :=
  match Byte.of_N (Z.to_N z) with
  | Some b => b
  | None => x00
  end.

(** Little-endian bytes of an integer, as [struct.pack('d', x)] lays out
    the pattern of [x] in native order on the usual platforms. *)
Fixpoint le_bytes (n : nat) (x : Z) : list byte :=
  match n with
  | O => []
  | S n' => byte_of_Z (x mod 256) :: le_bytes n' (x / 256)
  end.

Fixpoint le_value (bs : list byte) : Z :=
  match bs with
  | [] => 0
  | b :: bs' => Z_of_byte b + 256 * le_value bs'
  end.

Definition pack_d (x : float64) : list byte := le_bytes 8 x.
Definition unpack_d (bs : list byte) : float64 := le_value bs.

(** [*values] packed one after the other. *)
Fixpoint pack_seq (xs : list float64) : list byte :=
  match xs with
  | [] => []
  | x :: xs' => pack_d x ++ pack_seq xs'
  end.

(** [n] doubles read from the front of [raw]. *)
Fixpoint unpack_seq (n : nat) (raw : list byte) : list float64 :=
  match n with
  | O => []
  | S n' => unpack_d (take 8 raw) :: unpack_seq n' (drop 8 raw)
  end.

End Float64.
Export Float64.

(** ** Exceptions and results *)

(** What a [RuntimeError] of the module complains about. *)
Inductive complaint :=
  | NoValue            (* no value/values defined so far *)
  | NoShape            (* shape information not retrievable *)
  | FlagNotSet         (* diskflag / ramflag has not been set yet *)
  | ArrayNotSet        (* the ram array has not been set yet *)
  | NoInternalData     (* not requested to make internal data available *)
  | ShapeOfFile        (* shape differs from the external file's *)
  | StepSize           (* external step size differs from the simulation's *)
  | Coverage           (* init time grid is no subset of the file's grid *)
  | PathUnknown        (* a file name, type or directory is undeterminable *)
  | NoReplacement.     (* members of a subgroup cannot be replaced *)

Inductive exn :=
  | RuntimeError (c : complaint)
  | ValueError
  | TypeError
  | IndexError
  | AttributeError
  | NotImplementedError
  | IOError
  | OSError
  | StructError.

Inductive result (A : Type) :=
  | Ok (a : A)
  | Raise (e : exn).
Arguments Ok {A} a.
Arguments Raise {A} e.

Definition rbind {A B} (r : result A) (k : A -> result B) : result B :=
  match r with
  | Ok a => k a
  | Raise e => Raise e
  end.

Declare Scope res_scope.
Delimit Scope res_scope with res.
Notation "x <- r ; k" := (rbind r (fun x => k))
  (at level 100, r at next level, right associativity) : res_scope.

(** ** numpy arrays

    An array is its shape and its elements in row-major order; only the
    operations used by the module are modelled.  Where numpy would
    broadcast a source of another shape, the model accepts a scalar source
    and a source of exactly the target's shape and reports [ValueError]
    otherwise. *)
Module Numpy.

Record ndarray := { shape : list nat; data : list float64 }.

(** Number of elements of a shape. *)
Definition size_of (shp : list nat) : nat := foldr Nat.mul 1%nat shp.

Definition wf_array (a : ndarray) : Prop := length (data a) = size_of (shape a).

Definition full (shp : list nat) (v : float64) : ndarray :=
  {| shape := shp; data := replicate (size_of shp) v |}.

Definition zeros (shp : list nat) : ndarray := full shp zero.

Definition reshape (a : ndarray) (shp : list nat) : result ndarray :=
  if decide (size_of shp = length (data a))
  then Ok {| shape := shp; data := data a |}
  else Raise ValueError.

(** [a.tofile(path)] writes these bytes; [numpy.fromfile(path)] reads the
    whole items of a file as a 1-dimensional array. *)
Definition tofile (a : ndarray) : list byte := pack_seq (data a).

Definition fromfile (raw : list byte) : ndarray :=
  let n := (length raw / 8)%nat in
  {| shape := [n]; data := unpack_seq n raw |}.

End Numpy.
Export Numpy.

(** Modelled from the spec: [hydpy.cythons.pointer] is not part of the
    sources at hand.  A [Double] is a shared mutable scalar cell, here the
    float it holds; [cell[0] = x] puts [x] into it, and it gives its float
    where a float is asked for.  A [PPDouble] is the vector of cell
    references of a 1-dimensional link sequence, here its shape. *)
Inductive pointer :=
  | Double (x : float64)
  | PPDouble (shp : list nat).

(** A value as a fast-access attribute holds it: [None], a Python float, a
    numpy array, or an object of the pointer module. *)
Inductive pyvalue :=
  | PyNone
  | PyFloat (x : float64)
  | PyArray (a : ndarray)
  | PyPointer (p : pointer).

Abbreviation PyDouble x := (PyPointer (Double x)).
Abbreviation PyPPDouble shp := (PyPointer (PPDouble shp)).

(** [seq[i]] for an index [i] on a sequence of [n] items. *)
Definition py_index (n : nat) (i : Z) : result nat :=
  if decide (0 <= i < Z.of_nat n) then Ok (Z.to_nat i)
  else if decide (- Z.of_nat n <= i < 0) then Ok (Z.to_nat (i + Z.of_nat n))
  else Raise IndexError.

(** A bound of a slice [seq[lo:hi]] on [n] items. *)
Definition py_clip (n : nat) (i : Z) : nat :=
  if decide (i < 0) then Z.to_nat (Z.max 0 (i + Z.of_nat n))
  else Z.to_nat (Z.min i (Z.of_nat n)).

(** [len(a)] *)
Definition np_len (a : ndarray) : result nat :=
  match shape a with
  | [] => Raise TypeError
  | n :: _ => Ok n
  end.

(** [a[i]]: an element of a 1-dimensional array, else the [i]-th block
    along the first axis. *)
Definition np_getitem (a : ndarray) (i : Z) : result pyvalue :=
  match shape a with
  | [] => Raise IndexError
  | n :: rest =>
      match py_index n i with
      | Raise e => Raise e
      | Ok k =>
          let r := size_of rest in
          let seg := take r (drop (k * r) (data a)) in
          match rest, seg with
          | [], x :: _ => Ok (PyFloat x)
          | [], [] => Raise IndexError
          | _ :: _, _ => Ok (PyArray {| shape := rest; data := seg |})
          end
      end
  end.

(** The elements a value contributes when it is written to a target of
    shape [shp]. *)
Definition np_source (shp : list nat) (v : pyvalue) : result (list float64) :=
  match v with
  | PyFloat x | PyDouble x => Ok (replicate (size_of shp) x)
  | PyArray s => if decide (shape s = shp) then Ok (data s) else Raise ValueError
  | PyNone | PyPPDouble _ => Raise TypeError
  end.

(** [a[i] = v] *)
Definition np_setitem (a : ndarray) (i : Z) (v : pyvalue) : result ndarray :=
  match shape a with
  | [] => Raise IndexError
  | n :: rest =>
      match py_index n i with
      | Raise e => Raise e
      | Ok k =>
          match np_source rest v with
          | Raise e => Raise e
          | Ok row =>
              let r := size_of rest in
              Ok {| shape := shape a;
                    data := take (k * r) (data a) ++ row
                            ++ drop ((k + 1) * r) (data a) |}
          end
      end
  end.

(** [a[:] = v] *)
Definition np_assign_all (a : ndarray) (v : pyvalue) : result ndarray :=
  match shape a with
  | [] => Raise IndexError
  | _ :: _ =>
      match np_source (shape a) v with
      | Raise e => Raise e
      | Ok d => Ok {| shape := shape a; data := d |}
      end
  end.

(** [a[lo:hi]] along the first axis. *)
Definition np_getslice (a : ndarray) (lo hi : Z) : result ndarray :=
  match shape a with
  | [] => Raise IndexError
  | n :: rest =>
      let l := py_clip n lo in
      let h := py_clip n hi in
      let r := size_of rest in
      Ok {| shape := (h - l)%nat :: rest;
            data := take ((h - l) * r) (drop (l * r) (data a)) |}
  end.

(** [a[lo:hi] = src] along the first axis. *)
Definition np_setslice (a : ndarray) (lo hi : Z) (src : ndarray) : result ndarray :=
  match shape a with
  | [] => Raise IndexError
  | n :: rest =>
      let l := py_clip n lo in
      let h := py_clip n hi in
      let r := size_of rest in
      if decide (shape src = (h - l)%nat :: rest)
      then Ok {| shape := shape a;
                 data := take (l * r) (data a) ++ data src
                         ++ drop ((l + (h - l)) * r) (data a) |}
      else Raise ValueError
  end.

(** ** State with exceptions

    A computation changes a state and returns or raises; what was changed
    before a raise stays changed. *)
Definition M (S A : Type) : Type := S -> S * result A.

Definition ret {S A} (a : A) : M S A := fun s => (s, Ok a).
Definition raise {S A} (e : exn) : M S A := fun s => (s, Raise e).
Definition lift {S A} (r : result A) : M S A := fun s => (s, r).
Definition bind {S A B} (m : M S A) (k : A -> M S B) : M S B :=
  fun s => match m s with
           | (s', Ok a) => k a s'
           | (s', Raise e) => (s', Raise e)
           end.
Definition get {S} : M S S := fun s => (s, Ok s).
Definition gets {S A} (f : S -> A) : M S A := fun s => (s, Ok (f s)).
Definition modify {S} (f : S -> S) : M S unit := fun s => (f s, Ok tt).

(** [try: m  except <caught>: handler] *)
Definition try_except {S A} (m : M S A) (caught : exn -> bool)
    (handler : exn -> M S A) : M S A :=
  fun s => match m s with
           | (s', Ok a) => (s', Ok a)
           | (s', Raise e) => if caught e then handler e s' else (s', Raise e)
           end.

Declare Scope mon_scope.
Delimit Scope mon_scope with mon.
Notation "x <- m ; k" := (bind m (fun x => k))
  (at level 100, m at next level, right associativity) : mon_scope.
Notation "m ;; k" := (bind m (fun _ => k))
  (at level 100, right associativity) : mon_scope.

(** ** Files

    A file system maps a path to the bytes of the file; an open file
    object knows its path and its position. *)
Abbreviation files := (gmap string (list byte)).

Record handle := { h_path : string; h_pos : nat; h_closed : bool }.

(** [open(path, 'rb+')]: the file must exist. *)
Definition open_rbplus (path : option string) (fs : files) : result handle :=
  match path with
  | None => Raise TypeError
  | Some p =>
      match fs !! p with
      | None => Raise IOError
      | Some _ => Ok {| h_path := p; h_pos := 0; h_closed := false |}
      end
  end.

(** [file_.seek(position)]; a negative position is refused, with an
    [IOError] by Python 2 and an [OSError] by Python 3. *)
Definition file_seek (py3 : bool) (h : handle) (position : Z) : result handle :=
  if h_closed h then Raise ValueError
  else if decide (position < 0)
  then Raise (if py3 then OSError else IOError)
  else Ok {| h_path := h_path h; h_pos := Z.to_nat position;
             h_closed := h_closed h |}.

(** [file_.read(n)]: the bytes from the position on, fewer than [n] at the
    end of the file; the position moves behind what was read. *)
Definition file_read (n : nat) : M (handle * files) (list byte) :=
  fun '(h, fs) =>
    if h_closed h then ((h, fs), Raise ValueError)
    else match fs !! h_path h with
         | None => ((h, fs), Raise IOError)
         | Some content =>
             let raw := take n (drop (h_pos h) content) in
             (({| h_path := h_path h; h_pos := h_pos h + length raw;
                  h_closed := false |}, fs), Ok raw)
         end.

(** [file_.write(raw)]: overwrites from the position on and grows the
    file, a gap behind its end being filled with zero bytes. *)
Definition file_write (raw : list byte) : M (handle * files) unit :=
  fun '(h, fs) =>
    if h_closed h then ((h, fs), Raise ValueError)
    else match fs !! h_path h with
         | None => ((h, fs), Raise IOError)
         | Some content =>
             let padded := content ++ replicate (h_pos h - length content) x00 in
             let content' := take (h_pos h) padded ++ raw
                             ++ drop (h_pos h + length raw) content in
             (({| h_path := h_path h; h_pos := h_pos h + length raw;
                  h_closed := false |}, <[h_path h := content']> fs), Ok tt)
         end.

(** ** FastAccess

    The dynamically set members of a [FastAccess] object, gathered per
    sequence name: [<name>], [_<name>_ndim], [_<name>_length],
    [_<name>_length_0] ..., [_<name>_ramflag], [_<name>_diskflag],
    [_<name>_path], [_<name>_file] and [_<name>_array].  A flag that was
    never set is [None]; so is a path, a file or an array that is unset
    or Python's [None]. *)
Module FastAccess.

Record slot := {
  f_value : pyvalue;
  f_ndim : nat;
  f_length : nat;
  f_lengths : list nat;
  f_ramflag : option bool;
  f_diskflag : option bool;
  f_path : option string;
  f_file : option handle;
  f_array : option ndarray
}.

Definition set_value (v : pyvalue) (s : slot) : slot :=
  {| f_value := v; f_ndim := f_ndim s; f_length := f_length s;
     f_lengths := f_lengths s; f_ramflag := f_ramflag s;
     f_diskflag := f_diskflag s; f_path := f_path s; f_file := f_file s;
     f_array := f_array s |}.

Definition set_file (h : option handle) (s : slot) : slot :=
  {| f_value := f_value s; f_ndim := f_ndim s; f_length := f_length s;
     f_lengths := f_lengths s; f_ramflag := f_ramflag s;
     f_diskflag := f_diskflag s; f_path := f_path s; f_file := h;
     f_array := f_array s |}.

Definition set_array (a : option ndarray) (s : slot) : slot :=
  {| f_value := f_value s; f_ndim := f_ndim s; f_length := f_length s;
     f_lengths := f_lengths s; f_ramflag := f_ramflag s;
     f_diskflag := f_diskflag s; f_path := f_path s; f_file := f_file s;
     f_array := a |}.

Definition set_ramflag (b : bool) (s : slot) : slot :=
  {| f_value := f_value s; f_ndim := f_ndim s; f_length := f_length s;
     f_lengths := f_lengths s; f_ramflag := Some b;
     f_diskflag := f_diskflag s; f_path := f_path s; f_file := f_file s;
     f_array := f_array s |}.

Definition set_diskflag (b : bool) (s : slot) : slot :=
  {| f_value := f_value s; f_ndim := f_ndim s; f_length := f_length s;
     f_lengths := f_lengths s; f_ramflag := f_ramflag s;
     f_diskflag := Some b; f_path := f_path s; f_file := f_file s;
     f_array := f_array s |}.

Definition set_path (p : option string) (s : slot) : slot :=
  {| f_value := f_value s; f_ndim := f_ndim s; f_length := f_length s;
     f_lengths := f_lengths s; f_ramflag := f_ramflag s;
     f_diskflag := f_diskflag s; f_path := p; f_file := f_file s;
     f_array := f_array s |}.

Definition set_lengths (n : nat) (lens : list nat) (s : slot) : slot :=
  {| f_value := f_value s; f_ndim := f_ndim s; f_length := n;
     f_lengths := lens; f_ramflag := f_ramflag s;
     f_diskflag := f_diskflag s; f_path := f_path s; f_file := f_file s;
     f_array := f_array s |}.

(** [getattr(self, '_%s_diskflag' % name)] and the like. *)
Definition getattr {A} (o : option A) : result A :=
  match o with
  | Some a => Ok a
  | None => Raise AttributeError
  end.

(** The lengths [_<name>_length_0 .. _<name>_length_(ndim-1)], read one
    after the other. *)
Definition axis_lengths (s : slot) : result (list nat) :=
  if decide (f_ndim s <= length (f_lengths s))%nat
  then Ok (take (f_ndim s) (f_lengths s))
  else Raise AttributeError.

(** The running variable after [for idx in range(ndim)]: the loop rebinds
    the method's argument [idx]. *)
Definition idx_after_range (ndim : nat) (idx : Z) : Z :=
  match ndim with
  | O => idx
  | S n => Z.of_nat n
  end.

(** [position = 8*idx], then [position *= length] for every axis. *)
Definition seek_position (idx : Z) (lens : list nat) : Z :=
  fold_left (fun position len => position * Z.of_nat len) lens (8 * idx).

(** [length_tot = 1], then [length_tot *= length] for every axis. *)
Definition length_tot (lens : list nat) : nat :=
  fold_left (fun tot len => (tot * len)%nat) lens 1%nat.

(** The number of bytes [loaddata] reads and [savedata] writes per step. *)
Definition record_size (lens : list nat) : nat := (length_tot lens * 8)%nat.

(** The body of the loop of [openfiles] for one name. *)
Definition openfiles_body (py3 : bool) (idx : Z) (fs : files) (s : slot)
    : result slot :=
  match getattr (f_diskflag s) with
  | Raise e => Raise e
  | Ok false => Ok s
  | Ok true =>
      match open_rbplus (f_path s) fs with
      | Raise e => Raise e
      | Ok file_ =>
          match axis_lengths s with
          | Raise e => Raise e
          | Ok lens =>
              match file_seek py3 file_ (seek_position idx lens) with
              | Raise e => Raise e
              | Ok file_ => Ok (set_file (Some file_) s)
              end
          end
      end
  end.

(** The body of the loop of [closefiles] for one name. *)
Definition closefiles_body (s : slot) : result slot :=
  match getattr (f_diskflag s) with
  | Raise e => Raise e
  | Ok false => Ok s
  | Ok true =>
      match getattr (f_file s) with
      | Raise e => Raise e
      | Ok file_ =>
          Ok (set_file (Some {| h_path := h_path file_; h_pos := h_pos file_;
                                h_closed := true |}) s)
      end
  end.

(** What [loaddata] assigns: [setattr(self, name, values)] for a scalar,
    [getattr(self, name)[:] = values] otherwise. *)
Definition store_loaded (s : slot) (values : pyvalue) : result slot :=
  match f_ndim s with
  | O => Ok (set_value values s)
  | S _ =>
      match f_value s with
      | PyArray a =>
          match np_assign_all a values with
          | Raise e => Raise e
          | Ok a' => Ok (set_value (PyArray a') s)
          end
      | _ => Raise TypeError
      end
  end.

(** The body of the loop of [loaddata] for one name; the state is the
    slot and the files, the result the value of [idx] afterwards. *)
Definition loaddata_body (idx : Z) : M (slot * files) Z :=
  fun '(s, fs) =>
    match getattr (f_diskflag s), getattr (f_ramflag s) with
    | Raise e, _ | Ok _, Raise e => ((s, fs), Raise e)
    | Ok true, Ok _ =>
        match getattr (f_file s) with
        | Raise e => ((s, fs), Raise e)
        | Ok file_ =>
            match axis_lengths s with
            | Raise e => ((s, fs), Raise e)
            | Ok lens =>
                let idx := idx_after_range (f_ndim s) idx in
                match file_read (length_tot lens * 8) (file_, fs) with
                | (_, Raise e) => ((s, fs), Raise e)
                | ((file_, fs), Ok raw) =>
                    let s := set_file (Some file_) s in
                    if decide (length raw = length_tot lens * 8)%nat
                    then
                      let values := unpack_seq (length_tot lens) raw in
                      let loaded :=
                        match f_ndim s, values with
                        | O, x :: _ => Ok (PyFloat x)
                        | O, [] => Raise IndexError
                        | S _, _ => Ok (PyArray {| shape := lens; data := values |})
                        end in
                      match rbind loaded (store_loaded s) with
                      | Raise e => ((s, fs), Raise e)
                      | Ok s => ((s, fs), Ok idx)
                      end
                    else ((s, fs), Raise StructError)
                end
            end
        end
    | Ok false, Ok true =>
        match f_array s with
        | None => ((s, fs), Raise TypeError)
        | Some array =>
            match rbind (np_getitem array idx) (store_loaded s) with
            | Raise e => ((s, fs), Raise e)
            | Ok s => ((s, fs), Ok idx)
            end
        end
    | Ok false, Ok false => ((s, fs), Ok idx)
    end.

(** The bytes [savedata] packs from the actual value. *)
Definition pack_actual (ndim : nat) (tot : nat) (actual : pyvalue)
    : result (list byte) :=
  match ndim, actual with
  | O, (PyFloat x | PyDouble x) => Ok (pack_d x)
  | O, PyArray a =>
      match data a with
      | [x] => Ok (pack_d x)
      | _ => Raise StructError
      end
  | O, (PyNone | PyPPDouble _) => Raise StructError
  | S _, PyArray a =>
      if decide (length (data a) = tot) then Ok (pack_seq (data a))
      else Raise StructError
  | S _, _ => Raise AttributeError
  end.

(** The body of the loop of [savedata] for one name. *)
Definition savedata_body (idx : Z) : M (slot * files) Z :=
  fun '(s, fs) =>
    let actual := f_value s in
    match getattr (f_diskflag s), getattr (f_ramflag s) with
    | Raise e, _ | Ok _, Raise e => ((s, fs), Raise e)
    | Ok true, Ok _ =>
        match getattr (f_file s) with
        | Raise e => ((s, fs), Raise e)
        | Ok file_ =>
            match axis_lengths s with
            | Raise e => ((s, fs), Raise e)
            | Ok lens =>
                let idx := idx_after_range (f_ndim s) idx in
                match pack_actual (f_ndim s) (length_tot lens) actual with
                | Raise e => ((s, fs), Raise e)
                | Ok raw =>
                    match file_write raw (file_, fs) with
                    | (_, Raise e) => ((s, fs), Raise e)
                    | ((file_, fs), Ok _) =>
                        ((set_file (Some file_) s, fs), Ok idx)
                    end
                end
            end
        end
    | Ok false, Ok true =>
        match f_array s with
        | None => ((s, fs), Raise TypeError)
        | Some array =>
            match np_setitem array idx actual with
            | Raise e => ((s, fs), Raise e)
            | Ok array => ((set_array (Some array) s, fs), Ok idx)
            end
        end
    | Ok false, Ok false => ((s, fs), Ok idx)
    end.

(** A [FastAccess] object: its sequence names in the order of iteration
    ([vars(self)] without the names starting with an underscore), each
    with its members. *)
Definition fastaccess := list (string * slot).

(** [for name in self: ...] with a body that changes a slot and the files
    and rebinds [idx]; a raise ends the loop, the work done so far stays. *)
Fixpoint for_names (body : Z -> M (slot * files) Z) (idx : Z)
    (fa : fastaccess) (fs : files) : (fastaccess * files) * result unit :=
  match fa with
  | [] => (([], fs), Ok tt)
  | (name, s) :: rest =>
      match body idx (s, fs) with
      | ((s', fs'), Raise e) => (((name, s') :: rest, fs'), Raise e)
      | ((s', fs'), Ok idx') =>
          let '((rest', fs''), r) := for_names body idx' rest fs' in
          (((name, s') :: rest', fs''), r)
      end
  end.

Definition pure_body (f : files -> slot -> result slot) (idx : Z)
    : M (slot * files) Z :=
  fun '(s, fs) =>
    match f fs s with
    | Raise e => ((s, fs), Raise e)
    | Ok s' => ((s', fs), Ok idx)
    end.

Definition openfiles (py3 : bool) (idx : Z) (fa : fastaccess) (fs : files) :=
  for_names (pure_body (openfiles_body py3 idx)) idx fa fs.

Definition closefiles (fa : fastaccess) (fs : files) :=
  for_names (pure_body (fun _ => closefiles_body)) 0 fa fs.

Definition loaddata (idx : Z) (fa : fastaccess) (fs : files) :=
  for_names loaddata_body idx fa fs.

Definition savedata (idx : Z) (fa : fastaccess) (fs : files) :=
  for_names savedata_body idx fa fs.

(** [getattr(self, name)] and the members that go with the name. *)
Fixpoint slot_of (name : string) (fa : fastaccess) : option slot :=
  match fa with
  | [] => None
  | (n, s) :: rest => if decide (n = name) then Some s else slot_of name rest
  end.

Definition value_of (name : string) (fa : fastaccess) : option pyvalue :=
  option_map f_value (slot_of name fa).

End FastAccess.

(** ** pub: options and time grids *)

(** Modelled from the spec: [timetools.Timegrid] is not part of the
    sources at hand.  A time grid is the triple of first date, last date
    and step size; dates and step sizes are counted in a common unit
    (days in the examples).  [len(timegrid)] is the number of steps, and
    [timegrid[date]] the index of the step that starts at [date]. *)
Record Timegrid := { firstdate : Z; lastdate : Z; stepsize : Z }.

Definition tg_len (tg : Timegrid) : nat :=
  Z.to_nat ((lastdate tg - firstdate tg) / stepsize tg).

Definition tg_index (tg : Timegrid) (date : Z) : Z :=
  (date - firstdate tg) / stepsize tg.

(** [inner in outer]: the coverage of [outer] is a superset of [inner]'s. *)
Definition tg_contains (outer inner : Timegrid) : bool :=
  bool_decide (firstdate outer <= firstdate inner)
  && bool_decide (lastdate inner <= lastdate outer).

Record Options := {
  usedefaultvalues : bool;
  checkseries : bool;
  warnmissingobsfile : bool;
  warnmissingsimfile : bool
}.

(** [pub.options] and [pub.timegrids.init]. *)
Record Pub := { options : Options; timegrids_init : Timegrid }.

(** ** Sequence objects *)

(** The concrete kinds of sequences: [AideSequence] and [LogSequence]
    derive from [Sequence] only; [InputSequence], [FluxSequence] and
    [StateSequence] from [ModelIOSequence]; [Sim] and [Obs] from
    [NodeSequence]; all five of these from [IOSequence]. *)
Inductive seqclass :=
  | AideSeq | LogSeq | LinkSeq | InputSeq | FluxSeq | StateSeq | SimSeq | ObsSeq.

Definition is_IOSequence (c : seqclass) : bool :=
  match c with
  | InputSeq | FluxSeq | StateSeq | SimSeq | ObsSeq => true
  | _ => false
  end.

Definition is_InputSequence (c : seqclass) : bool :=
  match c with InputSeq => true | _ => false end.

Definition is_NodeSequence (c : seqclass) : bool :=
  match c with SimSeq | ObsSeq => true | _ => false end.

(** A sequence object with its members in [self.fastaccess] and, for
    states, [fastaccess_old.<name>].  The external file type and the two
    file paths are held as they resolve ([None]: not set and not
    determinable from [pub.sequencemanager], a [RuntimeError]). *)
Record seqobj := {
  o_class : seqclass;
  o_NDIM : nat;
  o_INIT : option float64;
  o_fast : FastAccess.slot;
  o_old : pyvalue;
  o_use_ext : bool;
  o_filetype_ext : option string;
  o_filepath_ext : option string;
  o_filepath_int : option string
}.

(** What an external data file gives when it is loaded: the time grid of
    its header and the values behind it, or an exception for a file that
    cannot be interpreted.  A path without entry is a missing file. *)
Inductive extcontent :=
  | Readable (tg : Timegrid) (values : ndarray)
  | Malformed (e : exn).

Inductive warning :=
  | WarnSimFlag (disk : bool)   (* diskflag / ramflag of a Sim had to be reset *)
  | WarnObsFlag (disk : bool)   (* diskflag / ramflag of an Obs had to be reset *)
  | WarnTrim.

(** The state the methods of a sequence work on: the object, the
    internal (run-scratch) files, the external files and the warnings
    issued so far. *)
Record world := {
  w_seq : seqobj;
  w_int : files;
  w_ext : gmap string extcontent;
  w_warnings : list warning
}.

Definition with_fast (f : FastAccess.slot -> FastAccess.slot) (o : seqobj) : seqobj :=
  {| o_class := o_class o; o_NDIM := o_NDIM o; o_INIT := o_INIT o;
     o_fast := f (o_fast o); o_old := o_old o; o_use_ext := o_use_ext o;
     o_filetype_ext := o_filetype_ext o; o_filepath_ext := o_filepath_ext o;
     o_filepath_int := o_filepath_int o |}.

Definition with_old (v : pyvalue) (o : seqobj) : seqobj :=
  {| o_class := o_class o; o_NDIM := o_NDIM o; o_INIT := o_INIT o;
     o_fast := o_fast o; o_old := v; o_use_ext := o_use_ext o;
     o_filetype_ext := o_filetype_ext o; o_filepath_ext := o_filepath_ext o;
     o_filepath_int := o_filepath_int o |}.

Definition with_seq (f : seqobj -> seqobj) (w : world) : world :=
  {| w_seq := f (w_seq w); w_int := w_int w; w_ext := w_ext w;
     w_warnings := w_warnings w |}.

Definition with_int (f : files -> files) (w : world) : world :=
  {| w_seq := w_seq w; w_int := f (w_int w); w_ext := w_ext w;
     w_warnings := w_warnings w |}.

Definition warn (x : warning) : M world unit :=
  modify (fun w => {| w_seq := w_seq w; w_int := w_int w; w_ext := w_ext w;
                      w_warnings := w_warnings w ++ [x] |}).

Definition self : M world seqobj := gets w_seq.
Definition fast : M world FastAccess.slot := gets (fun w => o_fast (w_seq w)).
Definition upd_fast (f : FastAccess.slot -> FastAccess.slot) : M world unit :=
  modify (with_seq (with_fast f)).

Local Open Scope mon_scope.

(** What is assigned to [value], [values], [new] or [old], or passed to
    a sequence when it is called: a number, a tuple or list of numbers,
    or an array. *)
Inductive pyarg :=
  | ArgFloat (x : float64)
  | ArgSeq (xs : list float64)
  | ArgArray (a : ndarray).

(** [Sequence.initvalue] *)
Definition initvalue (pub : Pub) (o : seqobj) : float64 :=
  if usedefaultvalues (options pub)
  then match o_INIT o with
       | Some v => v
       | None => zero
       end
  else nan.

(** [numpy.asarray(value)] for [NDIM > 0]. *)
Definition asarray (ndim : nat) (v : pyvalue) : pyvalue :=
  match ndim, v with
  | S _, PyFloat x => PyArray {| shape := []; data := [x] |}
  | _, _ => v
  end.

(** [Sequence._getvalue] *)
Definition Sequence_getvalue : M world pyvalue :=
  o <- self;
  match FastAccess.f_value (o_fast o) with
  | PyNone => raise (RuntimeError NoValue)
  | value => ret (asarray (o_NDIM o) value)
  end.

(** [LinkSequence._getvalue] *)
Definition LinkSequence_getvalue : M world pyvalue :=
  raise NotImplementedError.

(** [NodeSequence._getvalues]; the attribute exists once the sequence is
    connected. *)
Definition NodeSequence_getvalues : M world pyvalue :=
  o <- self;
  match FastAccess.f_value (o_fast o) with
  | PyNone => raise AttributeError
  | value => ret value
  end.

(** Reading [self.value] or [self.values]: the property of the class. *)
Definition getvalue : M world pyvalue :=
  o <- self;
  match o_class o with
  | LinkSeq => LinkSequence_getvalue
  | SimSeq | ObsSeq => NodeSequence_getvalues
  | _ => Sequence_getvalue
  end.

(** [Sequence._getshape] *)
Definition Sequence_getshape : M world (list nat) :=
  o <- self;
  match o_NDIM o with
  | O => ret []
  | S _ =>
      values <- getvalue;
      match values with
      | PyArray a => ret (shape a)
      | _ => raise (RuntimeError NoShape)
      end
  end.

(** [LinkSequence._getshape]; nothing is returned for more than one
    dimension. *)
Definition LinkSequence_getshape : M world (list nat) :=
  o <- self;
  match o_NDIM o with
  | O => ret []
  | 1%nat =>
      match FastAccess.f_value (o_fast o) with
      | PyPPDouble shp => ret shp
      | _ => ret (take 1 (FastAccess.f_lengths (o_fast o)))
      end
  | _ => raise TypeError
  end.

(** Reading [self.shape]. *)
Definition getshape : M world (list nat) :=
  o <- self;
  match o_class o with
  | LinkSeq => LinkSequence_getshape
  | _ => Sequence_getshape
  end.

(** The float a value assigned to a 0-dimensional sequence stands for:
    the single item of a container, the number itself otherwise. *)
Definition scalar_of (value : pyarg) : result float64 :=
  match value with
  | ArgFloat x => Ok x
  | ArgSeq [] => Raise TypeError
  | ArgSeq [x] => Ok x
  | ArgSeq (_ :: _ :: _) => Raise ValueError
  | ArgArray a =>
      match shape a, data a with
      | [], [x] => Ok x
      | n :: _, [x] => if decide (n = 1%nat) then Ok x else Raise ValueError
      | n :: _, _ => if decide (1 < n)%nat then Raise ValueError else Raise TypeError
      | _, _ => Raise TypeError
      end
  end.

(** Broadcasting a source to a target shape, as [numpy.copyto] does for
    [numpy.full]: unit axes are stripped from the left of the source
    while it has more axes than the target; then the shapes are aligned
    at the right, and every axis of the source has the length of the
    axis of the target or the length 1. *)
Fixpoint strip_ones (k : nat) (ss : list nat) : list nat :=
  match k, ss with
  | S k', 1%nat :: ss' => strip_ones k' ss'
  | _, _ => ss
  end.

Fixpoint compatible (ss ts : list nat) : bool :=
  match ss, ts with
  | [], [] => true
  | n :: ss', m :: ts' =>
      (bool_decide (n = 1%nat) || bool_decide (n = m)) && compatible ss' ts'
  | _, _ => false
  end.

(** The [n] blocks of [r] items of [d]. *)
Definition chunks (r n : nat) (d : list float64) : list (list float64) :=
  map (fun k => take r (drop (k * r) d)) (seq 0 n).

(** The items of the target, for a source of the shape [ss] with the
    items [d]; [ss] and [ts] have the same number of axes. *)
Fixpoint expand (ss ts : list nat) (d : list float64) : list float64 :=
  match ss, ts with
  | n :: ss', m :: ts' =>
      if decide (n = 1%nat) then concat (replicate m (expand ss' ts' d))
      else concat (map (expand ss' ts') (chunks (size_of ss') n d))
  | _, _ => d
  end.

Definition broadcast (src : ndarray) (shp : list nat) : result ndarray :=
  let ss := strip_ones (length (shape src) - length shp) (shape src) in
  if decide (length ss <= length shp)%nat
  then
    let ss := replicate (length shp - length ss) 1%nat ++ ss in
    if compatible ss shp
    then Ok {| shape := shp; data := expand ss shp (data src) |}
    else Raise ValueError
  else Raise ValueError.

(** [numpy.full(shape, value, dtype=float)]; a tuple or list of numbers
    is an array of one axis. *)
Definition full_of (shp : list nat) (value : pyarg) : result ndarray :=
  match value with
  | ArgFloat x => Ok (full shp x)
  | ArgSeq xs => broadcast {| shape := [length xs]; data := xs |} shp
  | ArgArray a => broadcast a shp
  end.

(** The value [_setvalue] and [_setold] store for an assigned one. *)
Definition coerce (value : pyarg) : M world pyvalue :=
  o <- self;
  match o_NDIM o with
  | O =>
      match scalar_of value with
      | Ok x => ret (PyFloat x)
      | Raise e => raise e
      end
  | S _ =>
      shp <- getshape;
      match full_of shp value with
      | Ok a => ret (PyArray a)
      | Raise e => raise e
      end
  end.

(** [Sequence._setvalue] *)
Definition Sequence_setvalue (value : pyarg) : M world unit :=
  v <- coerce value;
  upd_fast (FastAccess.set_value v).

(** [LinkSequence._setvalue] *)
Definition LinkSequence_setvalue (value : pyarg) : M world unit :=
  raise NotImplementedError.

(** [NodeSequence._setvalues]: [getattr(self.fastaccess, self.name)[0] =
    values] writes into the cell. *)
Definition NodeSequence_setvalues (values : pyarg) : M world unit :=
  o <- self;
  match FastAccess.f_value (o_fast o), values with
  | PyNone, _ => raise AttributeError
  | PyDouble _, ArgFloat x => upd_fast (FastAccess.set_value (PyDouble x))
  | PyArray a, ArgFloat x =>
      match np_setitem a 0 (PyFloat x) with
      | Ok a' => upd_fast (FastAccess.set_value (PyArray a'))
      | Raise e => raise e
      end
  | _, _ => raise TypeError
  end.

(** Assigning to [self.value] or [self.values]. *)
Definition setvalue (value : pyarg) : M world unit :=
  o <- self;
  match o_class o with
  | LinkSeq => LinkSequence_setvalue value
  | SimSeq | ObsSeq => NodeSequence_setvalues value
  | _ => Sequence_setvalue value
  end.

(** [Sequence.__call__]: [self.values = args]. *)
Definition Sequence_call (args : list float64) : M world unit :=
  setvalue (ArgSeq args).

(** [SubSequences.__setattr__] for the name of a sequence of the group:
    [attr.values = value]; only an [AttributeError] is turned into the
    [RuntimeError] on replacing members. *)
Definition SubSequences_setattr (value : pyarg) : M world unit :=
  try_except (setvalue value)
    (fun e => match e with AttributeError => true | _ => false end)
    (fun _ => raise (RuntimeError NoReplacement)).

(** [Sequence._setshape] *)
Definition Sequence_setshape (pub : Pub) (shp : list nat) : M world unit :=
  o <- self;
  match o_NDIM o with
  | S _ =>
      let array := full shp (initvalue pub o) in
      if decide (length (shape array) = o_NDIM o)
      then upd_fast (FastAccess.set_value (PyArray array))
      else raise ValueError
  | O =>
      match shp with
      | _ :: _ => raise ValueError
      | [] => setvalue (ArgFloat zero)
      end
  end.

(** ** IOSequence: flags, series and mode transitions *)

(** [filepath_int], [filepath_ext] and [filetype_ext] *)
Definition resolve {A} (x : option A) : M world A :=
  match x with
  | Some a => ret a
  | None => raise (RuntimeError PathUnknown)
  end.

Definition filepath_int : M world string := o <- self; resolve (o_filepath_int o).
Definition filepath_ext : M world string := o <- self; resolve (o_filepath_ext o).
Definition filetype_ext : M world string := o <- self; resolve (o_filetype_ext o).

(** [IOSequence._getdiskflag] and [_getramflag] *)
Definition getflag (flag : option bool) : M world bool :=
  match flag with
  | Some b => ret b
  | None => raise (RuntimeError FlagNotSet)
  end.

Definition getdiskflag : M world bool :=
  s <- fast; getflag (FastAccess.f_diskflag s).
Definition getramflag : M world bool :=
  s <- fast; getflag (FastAccess.f_ramflag s).

Definition setdiskflag (b : bool) : M world unit := upd_fast (FastAccess.set_diskflag b).
Definition setramflag (b : bool) : M world unit := upd_fast (FastAccess.set_ramflag b).

(** [IOSequence.update_fastaccess] *)
Definition update_fastaccess : M world unit :=
  o <- self;
  d <- getdiskflag;
  path <- (if d then (p <- filepath_int; ret (Some p)) else ret None);
  upd_fast (FastAccess.set_path path);;
  match o_NDIM o with
  | O => upd_fast (fun s => FastAccess.set_lengths 1 (FastAccess.f_lengths s) s)
  | S _ =>
      shp <- getshape;
      if decide (o_NDIM o <= length shp)%nat
      then
        let lens := take (o_NDIM o) shp in
        upd_fast (fun s =>
          FastAccess.set_lengths (size_of lens)
            (lens ++ drop (o_NDIM o) (FastAccess.f_lengths s)) s)
      else raise IndexError
  end.

(** [IOSequence._getarray] *)
Definition IOSequence_getarray : M world ndarray :=
  s <- fast;
  match FastAccess.f_array s with
  | Some array => ret array
  | None => raise (RuntimeError ArrayNotSet)
  end.

(** [IOSequence._setarray] *)
Definition IOSequence_setarray (values : ndarray) : M world unit :=
  upd_fast (FastAccess.set_array (Some values)).

(** [IOSequence.seriesshape] *)
Definition seriesshape (pub : Pub) : M world (list nat) :=
  shp <- getshape;
  ret (tg_len (timegrids_init pub) :: shp).

(** [IOSequence._load_int] *)
Definition IOSequence_load_int (pub : Pub) : M world ndarray :=
  o <- self;
  path <- filepath_int;
  w <- get;
  match w_int w !! path with
  | None => raise IOError
  | Some raw =>
      let values := fromfile raw in
      match o_NDIM o with
      | O => ret values
      | S _ => shp <- seriesshape pub; lift (reshape values shp)
      end
  end.

(** [IOSequence._save_int] *)
Definition IOSequence_save_int (values : ndarray) : M world unit :=
  path <- filepath_int;
  modify (with_int (fun fs => <[path := tofile values]> fs)).

(** [IOSequence._getseries] *)
Definition IOSequence_getseries (pub : Pub) : M world ndarray :=
  d <- getdiskflag;
  if d then IOSequence_load_int pub
  else
    r <- getramflag;
    if r then IOSequence_getarray
    else raise (RuntimeError NoInternalData).

(** [os.remove(path)] *)
Definition os_remove (path : string) : M world unit :=
  w <- get;
  match w_int w !! path with
  | None => raise OSError
  | Some _ => modify (with_int (fun fs => delete path fs))
  end.

(** [IOSequence._delseries] *)
Definition IOSequence_delseries : M world unit :=
  d <- getdiskflag;
  if d then (path <- filepath_int; os_remove path)
  else
    r <- getramflag;
    if r then upd_fast (FastAccess.set_array None)
    else ret tt.

(** Storing a series where the active mode keeps it, the tail of
    [load_ext] and [zero_int]. *)
Definition store_series (values : ndarray) : M world unit :=
  d <- getdiskflag;
  if d then IOSequence_save_int values
  else
    r <- getramflag;
    if r then IOSequence_setarray values
    else raise (RuntimeError NoInternalData).

(** [IOSequence.zero_int] *)
Definition zero_int (pub : Pub) : M world unit :=
  shp <- seriesshape pub;
  store_series (zeros shp).

(** [IOSequence._load_npy] and [_load_asc]: both give the time grid and
    the values of the file at [filepath_ext]. *)
Definition load_file : M world (Timegrid * ndarray) :=
  _ <- filetype_ext;
  path <- filepath_ext;
  w <- get;
  match w_ext w !! path with
  | None => raise IOError
  | Some (Malformed e) => raise e
  | Some (Readable tg values) => ret (tg, values)
  end.

(** [IOSequence.adjust_short_series] *)
Definition adjust_short_series (pub : Pub) (timegrid : Timegrid)
    (values : ndarray) : M world ndarray :=
  o <- self;
  let idxs0 := tg_index timegrid (firstdate (timegrids_init pub)) in
  let idxs1 := tg_index timegrid (lastdate (timegrids_init pub)) in
  let valcopy := values in
  shp <- seriesshape pub;
  let values := full shp (initvalue pub o) in
  len_ <- lift (np_len valcopy);
  let clip idx :=
    if decide (idx < 0) then 0
    else if decide (idx <= Z.of_nat len_) then idx
    else Z.of_nat len_ in
  let jdxs0 := clip idxs0 in
  let jdxs1 := clip idxs1 in
  valcopy <- lift (np_getslice valcopy jdxs0 jdxs1);
  let zdx1 := Z.max (- idxs0) 0 in
  let zdx2 := zdx1 + jdxs1 - jdxs0 in
  lift (np_setslice values zdx1 zdx2 valcopy).

(** [IOSequence.load_ext] *)
Definition load_ext (pub : Pub) : M world unit :=
  loaded <- load_file;
  let '(timegrid_data, values) := loaded in
  shp <- getshape;
  if decide (shp <> tail (shape values))
  then raise (RuntimeError ShapeOfFile)
  else
    values <-
      (if decide (stepsize (timegrids_init pub) <> stepsize timegrid_data)
       then raise (RuntimeError StepSize)
       else if negb (tg_contains timegrid_data (timegrids_init pub))
       then
         if checkseries (options pub)
         then raise (RuntimeError Coverage)
         else adjust_short_series pub timegrid_data values
       else
         let idx1 := tg_index timegrid_data (firstdate (timegrids_init pub)) in
         let idx2 := tg_index timegrid_data (lastdate (timegrids_init pub)) in
         lift (np_getslice values idx1 idx2));
    store_series values.

(** [IOSequence.deactivate_disk] and [deactivate_ram] *)
Definition deactivate_disk : M world unit :=
  d <- getdiskflag;
  if d then (IOSequence_delseries;; setdiskflag false) else ret tt.

Definition deactivate_ram : M world unit :=
  r <- getramflag;
  if r then (IOSequence_delseries;; setramflag false) else ret tt.

(** [isinstance(self, InputSequence) or (isinstance(self, NodeSequence)
    and self.use_ext)] *)
Definition loads_ext (o : seqobj) : bool :=
  is_InputSequence (o_class o) || (is_NodeSequence (o_class o) && o_use_ext o).

(** [IOSequence.activate_disk] and [activate_ram] *)
Definition IOSequence_activate_disk (pub : Pub) : M world unit :=
  deactivate_ram;;
  setdiskflag true;;
  o <- self;
  (if loads_ext o then load_ext pub else zero_int pub);;
  update_fastaccess.

Definition IOSequence_activate_ram (pub : Pub) : M world unit :=
  deactivate_disk;;
  setramflag true;;
  o <- self;
  (if loads_ext o then load_ext pub else zero_int pub);;
  update_fastaccess.

(** [IOSequence.disk2ram] and [ram2disk] *)
Definition disk2ram (pub : Pub) : M world unit :=
  values <- IOSequence_getseries pub;
  deactivate_disk;;
  setramflag true;;
  IOSequence_setarray values;;
  update_fastaccess.

Definition ram2disk (pub : Pub) : M world unit :=
  values <- IOSequence_getseries pub;
  deactivate_ram;;
  setdiskflag true;;
  IOSequence_save_int values;;
  update_fastaccess.

(** [except IOError]: Python 3 made [OSError] and [IOError] one class. *)
Definition is_IOError (py3 : bool) (e : exn) : bool :=
  match e with
  | IOError => true
  | OSError => py3
  | _ => false
  end.

(** [Sim.activate_disk] and [Sim.activate_ram] *)
Definition Sim_activate_disk (py3 : bool) (pub : Pub) : M world unit :=
  try_except (IOSequence_activate_disk pub) (is_IOError py3)
    (fun _ =>
       setdiskflag false;;
       if warnmissingsimfile (options pub) then warn (WarnSimFlag true)
       else ret tt).

Definition Sim_activate_ram (py3 : bool) (pub : Pub) : M world unit :=
  try_except (IOSequence_activate_ram pub) (is_IOError py3)
    (fun _ =>
       setramflag false;;
       if warnmissingsimfile (options pub) then warn (WarnSimFlag false)
       else ret tt).

(** [Obs.activate_disk] and [Obs.activate_ram] *)
Definition Obs_activate_disk (py3 : bool) (pub : Pub) : M world unit :=
  try_except (IOSequence_activate_disk pub) (is_IOError py3)
    (fun _ =>
       setdiskflag false;;
       if warnmissingobsfile (options pub) then warn (WarnObsFlag true)
       else ret tt).

Definition Obs_activate_ram (py3 : bool) (pub : Pub) : M world unit :=
  try_except (IOSequence_activate_ram pub) (is_IOError py3)
    (fun _ =>
       setramflag false;;
       if warnmissingobsfile (options pub) then warn (WarnObsFlag false)
       else ret tt).

(** Calling [seq.activate_disk()] or [seq.activate_ram()]: the method of
    the class; only IO sequences have one. *)
Definition activate_disk (py3 : bool) (pub : Pub) : M world unit :=
  o <- self;
  match o_class o with
  | SimSeq => Sim_activate_disk py3 pub
  | ObsSeq => Obs_activate_disk py3 pub
  | InputSeq | FluxSeq | StateSeq => IOSequence_activate_disk pub
  | _ => raise AttributeError
  end.

Definition activate_ram (py3 : bool) (pub : Pub) : M world unit :=
  o <- self;
  match o_class o with
  | SimSeq => Sim_activate_ram py3 pub
  | ObsSeq => Obs_activate_ram py3 pub
  | InputSeq | FluxSeq | StateSeq => IOSequence_activate_ram pub
  | _ => raise AttributeError
  end.

(** [IOSequence._setshape] *)
Definition IOSequence_setshape (pub : Pub) (shp : list nat) : M world unit :=
  Sequence_setshape pub shp;;
  update_fastaccess.

(** [StateSequence._setshape]: [new.copy()] becomes the old value. *)
Definition StateSequence_setshape (pub : Pub) (shp : list nat) : M world unit :=
  IOSequence_setshape pub shp;;
  o <- self;
  match o_NDIM o with
  | O => ret tt
  | S _ => new <- getvalue; modify (with_seq (with_old new))
  end.

(** [LinkSequence._setshape]: nothing happens for a 0-dimensional link
    sequence; the pointer vector of a 1-dimensional one takes the shape. *)
Definition LinkSequence_setshape (shp : list nat) : M world unit :=
  o <- self;
  match o_NDIM o with
  | 1%nat =>
      upd_fast (FastAccess.set_value (PyPPDouble shp));;
      match shp with
      | [] => raise IndexError
      | n :: _ =>
          upd_fast (fun s => FastAccess.set_lengths n (FastAccess.f_lengths s) s)
      end
  | _ => ret tt
  end.

(** Assigning to [self.shape]. *)
Definition setshape (pub : Pub) (shp : list nat) : M world unit :=
  o <- self;
  match o_class o with
  | LinkSeq => LinkSequence_setshape shp
  | StateSeq => StateSequence_setshape pub shp
  | InputSeq | FluxSeq | SimSeq | ObsSeq => IOSequence_setshape pub shp
  | AideSeq | LogSeq => Sequence_setshape pub shp
  end.

(** [_initvalues] of the class of the sequence. *)
Definition initvalues (pub : Pub) (o : seqobj) : pyvalue :=
  match o_class o, o_NDIM o with
  | LinkSeq, O => PyNone
  | LinkSeq, S _ => PyPPDouble []
  | (SimSeq | ObsSeq), _ => PyDouble zero
  | _, O => PyFloat (initvalue pub o)
  | _, S _ => PyNone
  end.

(** [connect]: the members of the sequence in the fast-access object are
    initialised; the two flags are members of it for IO sequences only.
    For a state sequence the old value is initialised too. *)
Definition connect (pub : Pub) (o : seqobj) : seqobj :=
  let flag := if is_IOSequence (o_class o) then Some false else None in
  {| o_class := o_class o; o_NDIM := o_NDIM o; o_INIT := o_INIT o;
     o_fast := {| FastAccess.f_value := initvalues pub o;
                  FastAccess.f_ndim := o_NDIM o;
                  FastAccess.f_length := 0;
                  FastAccess.f_lengths := replicate (o_NDIM o) 0%nat;
                  FastAccess.f_ramflag := flag;
                  FastAccess.f_diskflag := flag;
                  FastAccess.f_path := None;
                  FastAccess.f_file := None;
                  FastAccess.f_array := None |};
     o_old := match o_class o, o_NDIM o with
              | StateSeq, O => PyFloat zero
              | _, _ => PyNone
              end;
     o_use_ext := o_use_ext o;
     o_filetype_ext := o_filetype_ext o; o_filepath_ext := o_filepath_ext o;
     o_filepath_int := o_filepath_int o |}.

(** ** State sequences, their arrays held by reference

    [new2old] is about the identity of storage, so here the two value
    slots of a state sequence, [fastaccess.<name>] (new) and
    [fastaccess_old.<name>] (old), hold a reference into a store of arrays
    when they hold an array.  Of [update_fastaccess], which touches no
    value, what can make it raise is kept: it reads the disk flag, in
    disk mode the internal file path, and the axis lengths of the
    shape. *)
Module ByReference.

Definition loc := positive.

Inductive refvalue :=
  | RNone
  | RFloat (x : float64)
  | RRef (l : loc).

Record stateseq := {
  s_NDIM : nat;
  s_INIT : option float64;
  s_new : refvalue;
  s_old : refvalue;
  s_diskflag : option bool;
  s_filepath_int : option string
}.

Record rworld := { r_seq : stateseq; r_heap : gmap loc ndarray }.

Definition set_new (v : refvalue) : M rworld unit :=
  modify (fun w =>
    {| r_seq := {| s_NDIM := s_NDIM (r_seq w); s_INIT := s_INIT (r_seq w);
                   s_new := v; s_old := s_old (r_seq w);
                   s_diskflag := s_diskflag (r_seq w);
                   s_filepath_int := s_filepath_int (r_seq w) |};
       r_heap := r_heap w |}).

Definition set_old (v : refvalue) : M rworld unit :=
  modify (fun w =>
    {| r_seq := {| s_NDIM := s_NDIM (r_seq w); s_INIT := s_INIT (r_seq w);
                   s_new := s_new (r_seq w); s_old := v;
                   s_diskflag := s_diskflag (r_seq w);
                   s_filepath_int := s_filepath_int (r_seq w) |};
       r_heap := r_heap w |}).

(** A new array object. *)
Definition alloc (a : ndarray) : M rworld loc :=
  fun w =>
    let l := fresh (dom (r_heap w)) in
    ({| r_seq := r_seq w; r_heap := <[l := a]> (r_heap w) |}, Ok l).

(** The array behind a reference, and writing into it in place. *)
Definition deref (l : loc) : M rworld ndarray :=
  fun w =>
    match r_heap w !! l with
    | Some a => (w, Ok a)
    | None => (w, Raise AttributeError)
    end.


Definition initvalue (pub : Pub) (s : stateseq) : float64 :=
  if usedefaultvalues (options pub)
  then match s_INIT s with
       | Some v => v
       | None => zero
       end
  else nan.

(** The getter of [value], [values] and [new] ([Sequence._getvalue]) and
    [StateSequence._getold]: the object the slot holds; for [NDIM > 0],
    [numpy.asarray] makes an array of a float. *)
Definition get_slot (slot : stateseq -> refvalue) : M rworld refvalue :=
  w <- get;
  match slot (r_seq w), s_NDIM (r_seq w) with
  | RNone, _ => raise (RuntimeError NoValue)
  | RFloat x, S _ => l <- alloc {| shape := []; data := [x] |}; ret (RRef l)
  | v, _ => ret v
  end.

Definition getnew : M rworld refvalue := get_slot s_new.

(** [Sequence._getshape] *)
Definition getshape : M rworld (list nat) :=
  w <- get;
  match s_NDIM (r_seq w) with
  | O => ret []
  | S _ =>
      v <- getnew;
      match v with
      | RRef l => a <- deref l; ret (shape a)
      | _ => raise (RuntimeError NoShape)
      end
  end.

(** What [_setvalue] and [_setold] store: a float, or a new array made by
    [numpy.full(self.shape, value, dtype=float)]. *)
Definition coerce (value : pyarg) : M rworld refvalue :=
  w <- get;
  match s_NDIM (r_seq w) with
  | O =>
      match scalar_of value with
      | Ok x => ret (RFloat x)
      | Raise e => raise e
      end
  | S _ =>
      shp <- getshape;
      match full_of shp value with
      | Ok a => l <- alloc a; ret (RRef l)
      | Raise e => raise e
      end
  end.

(** [Sequence._setvalue], the setter of [new] *)
Definition setnew (value : pyarg) : M rworld unit :=
  v <- coerce value; set_new v.


(** [IOSequence.update_fastaccess], as far as it can raise *)
Definition update_fastaccess : M rworld unit :=
  w <- get;
  match s_diskflag (r_seq w) with
  | None => raise (RuntimeError FlagNotSet)
  | Some d =>
      match d, s_filepath_int (r_seq w) with
      | true, None => raise (RuntimeError PathUnknown)
      | _, _ =>
          match s_NDIM (r_seq w) with
          | O => ret tt
          | S _ =>
              shp <- getshape;
              if decide (s_NDIM (r_seq w) <= length shp)%nat then ret tt
              else raise IndexError
          end
      end
  end.

(** [StateSequence._setshape]: [IOSequence._setshape] assigns the new
    values and calls [update_fastaccess]; then [new.copy()] becomes the
    old value of an array-shaped sequence. *)
Definition setshape (pub : Pub) (shp : list nat) : M rworld unit :=
  w <- get;
  match s_NDIM (r_seq w) with
  | S _ =>
      let array := full shp (initvalue pub (r_seq w)) in
      if decide (length (shape array) = s_NDIM (r_seq w))
      then
        l <- alloc array;
        set_new (RRef l);;
        update_fastaccess;;
        new <- getnew;
        match new with
        | RRef ln => a <- deref ln; lo <- alloc a; set_old (RRef lo)
        | _ => raise AttributeError
        end
      else raise ValueError
  | O =>
      match shp with
      | _ :: _ => raise ValueError
      | [] => setnew (ArgFloat zero);; update_fastaccess
      end
  end.



(** What a slot shows to a reader: the float, or the content of the
    array. *)
Definition content (w : rworld) (v : refvalue) : option pyvalue :=
  match v with
  | RNone => None
  | RFloat x => Some (PyFloat x)
  | RRef l => PyArray <$> r_heap w !! l
  end.




End ByReference.

(** ** Vocabulary of the statements and concrete objects *)

Section BackendTerms.
Import FastAccess.

(** A sequence whose file [openfiles] can open: the disk flag is set and,
    if it is active, the path names a file and all axis lengths exist. *)
Definition openable (fs : files) (s : slot) : Prop :=
  exists b, f_diskflag s = Some b /\
    (b = true ->
     (exists p, f_path s = Some p /\ is_Some (fs !! p)) /\
     (f_ndim s <= length (f_lengths s))%nat).

(** What [openfiles(idx)] leaves in a slot: an inactive one is untouched,
    an active one holds an open file on its path, at [idx] records. *)
Definition opened_at (idx : Z) (s s' : slot) : Prop :=
  match f_diskflag s with
  | Some true =>
      exists h, s' = set_file (Some h) s /\ Some (h_path h) = f_path s /\
        h_closed h = false /\
        Z.of_nat (h_pos h)
        = idx * (8 * Z.of_nat (size_of (take (f_ndim s) (f_lengths s))))
  | _ => s' = s
  end.

Definition on_slots (g : slot -> slot) (fa : fastaccess) : fastaccess :=
  map (fun p => (p.1, g p.2)) fa.

(** A sequence is transient when both flags are set and inactive. *)
Definition transient (s : slot) : Prop :=
  f_diskflag s = Some false /\ f_ramflag s = Some false.

(** A sequence in RAM mode at step [i]: only the RAM flag is active, the
    RAM array has one block per step, more than [i] of them, each of the
    shape of the value, which is a float for [ndim = 0] and an array of
    [ndim] axes otherwise. *)
Definition ram_ready (i : Z) (s : slot) : Prop :=
  f_diskflag s = Some false /\ f_ramflag s = Some true /\
  exists a T row,
    f_array s = Some a /\ shape a = T :: row /\ wf_array a /\
    0 <= i < Z.of_nat T /\ length row = f_ndim s /\
    match f_ndim s with
    | O => exists x, f_value s = PyFloat x
    | S _ => exists v, f_value s = PyArray v /\ shape v = row /\ wf_array v
    end.

(** The RAM array after [array[i] = actual]. *)
Definition ram_saved (i : Z) (s : slot) : slot :=
  match f_ramflag s, f_array s with
  | Some true, Some a =>
      match np_setitem a i (f_value s) with
      | Ok a' => set_array (Some a') s
      | Raise _ => s
      end
  | _, _ => s
  end.

Definition lens_of (s : slot) : list nat := take (f_ndim s) (f_lengths s).

(** The record of the actual value of a sequence. *)
Definition record_of (s : slot) : list byte :=
  match f_value s with
  | PyFloat x => pack_d x
  | PyArray v => pack_seq (data v)
  | _ => []
  end.

(** A sequence in disk mode: the disk flag is active, the path names a
    file, and the value is a float for [ndim = 0] and an array of the
    shape given by the axis lengths otherwise. *)
Definition disk_ready (fs : files) (s : slot) : Prop :=
  f_diskflag s = Some true /\ is_Some (f_ramflag s) /\
  (f_ndim s <= length (f_lengths s))%nat /\
  (exists p, f_path s = Some p /\ is_Some (fs !! p)) /\
  match f_ndim s with
  | O => exists x, f_value s = PyFloat x /\ wf x
  | S _ => exists v, f_value s = PyArray v /\ shape v = lens_of s /\
                     wf_array v /\ Forall wf (data v)
  end.

(** The paths of the sequences with an active disk flag. *)
Fixpoint disk_paths (fa : fastaccess) : list string :=
  match fa with
  | [] => []
  | (_, s) :: rest =>
      match f_diskflag s, f_path s with
      | Some true, Some p => p :: disk_paths rest
      | _, _ => disk_paths rest
      end
  end.

Definition start_of (i : Z) (s : slot) : nat := Z.to_nat (seek_position i (lens_of s)).

(** The slot as [openfiles(i)] leaves it. *)
Definition reopened (i : Z) (s : slot) : slot :=
  match f_diskflag s, f_path s with
  | Some true, Some p =>
      set_file (Some {| h_path := p; h_pos := start_of i s; h_closed := false |}) s
  | _, _ => s
  end.

(** The slot after [savedata] or [loaddata] moved one record on. *)
Definition advanced (i : Z) (s : slot) : slot :=
  match f_diskflag s, f_path s with
  | Some true, Some p =>
      set_file (Some {| h_path := p;
                        h_pos := start_of i s + record_size (lens_of s);
                        h_closed := false |}) s
  | _, _ => s
  end.

Definition closed (i : Z) (s : slot) : slot :=
  match f_diskflag s, f_path s with
  | Some true, Some p =>
      set_file (Some {| h_path := p;
                        h_pos := start_of i s + record_size (lens_of s);
                        h_closed := true |}) s
  | _, _ => s
  end.

Definition write_at (pos : nat) (raw content : list byte) : list byte :=
  take pos (content ++ replicate (pos - length content) x00) ++ raw
  ++ drop (pos + length raw) content.

(** The files after [savedata] wrote the record of [s]. *)
Definition save_to (i : Z) (s : slot) (fs : files) : files :=
  match f_diskflag s, f_path s with
  | Some true, Some p =>
      match fs !! p with
      | Some c => <[p := write_at (start_of i s) (record_of s) c]> fs
      | None => fs
      end
  | _, _ => fs
  end.

(** The file of the sequence holds the record of its value at the start
    of record [i]. *)
Definition holds_record (i : Z) (fs : files) (s : slot) : Prop :=
  match f_diskflag s, f_path s with
  | Some true, Some p =>
      exists c, fs !! p = Some c /\
        take (record_size (lens_of s)) (drop (start_of i s) c) = record_of s
  | _, _ => True
  end.

Definition save_all (i : Z) (fa : fastaccess) (fs : files) : files :=
  foldl (fun fs p => save_to i p.2 fs) fs fa.

(** 2.0 and 3.0 *)
Definition two : float64 := 0x4000000000000000.
Definition three : float64 := 0x4008000000000000.

(** A scalar sequence [q] in disk mode, holding 1.0, whose file holds the
    records 2.0 and 3.0. *)
Definition q_disk : slot :=
  {| f_value := PyFloat one; f_ndim := 0; f_length := 1; f_lengths := [];
     f_ramflag := Some false; f_diskflag := Some true;
     f_path := Some "q.bin"%string; f_file := None; f_array := None |}.

Definition q_files : files := {[ "q.bin"%string := pack_seq [two; three] ]}.

(** A sequence [w] of shape (2,) in RAM mode with a series of 3 steps. *)
Definition w_ram : slot :=
  {| f_value := PyArray {| shape := [2%nat]; data := [one; two] |};
     f_ndim := 1; f_length := 2; f_lengths := [2%nat];
     f_ramflag := Some true; f_diskflag := Some false;
     f_path := None; f_file := None;
     f_array := Some (zeros [3%nat; 2%nat]) |}.

(** A sequence [m] of shape (2, 3) in disk mode with an empty file. *)
Definition m_disk : slot :=
  {| f_value := PyArray (zeros [2%nat; 3%nat]); f_ndim := 2; f_length := 6;
     f_lengths := [2%nat; 3%nat];
     f_ramflag := Some false; f_diskflag := Some true;
     f_path := Some "m.bin"%string; f_file := None; f_array := None |}.

Definition m_files : files := {[ "m.bin"%string := [] ]}.

End BackendTerms.

(** A sequence object as its constructor leaves it, not connected. *)
Definition blank_slot : FastAccess.slot :=
  {| FastAccess.f_value := PyNone; FastAccess.f_ndim := 0;
     FastAccess.f_length := 0; FastAccess.f_lengths := [];
     FastAccess.f_ramflag := None; FastAccess.f_diskflag := None;
     FastAccess.f_path := None; FastAccess.f_file := None;
     FastAccess.f_array := None |}.

Definition new_seq (c : seqclass) (ndim : nat) : seqobj :=
  {| o_class := c; o_NDIM := ndim; o_INIT := None; o_fast := blank_slot;
     o_old := PyNone;
     o_use_ext := match c with ObsSeq => true | _ => false end;
     o_filetype_ext := None; o_filepath_ext := None; o_filepath_int := None |}.

Definition world_of (o : seqobj) : world :=
  {| w_seq := o; w_int := ∅; w_ext := ∅; w_warnings := [] |}.

(** Dates of January 2000, in days: [jan 10] is 2000-01-10. *)
Definition jan (day : Z) : Z := day.

Definition daily (first last : Z) : Timegrid :=
  {| firstdate := jan first; lastdate := jan last; stepsize := 1 |}.

Definition pub_jan (defaults : bool) : Pub :=
  {| options := {| usedefaultvalues := defaults; checkseries := false;
                   warnmissingobsfile := true; warnmissingsimfile := true |};
     timegrids_init := daily 10 15 |}.

(** [numpy.ones(len(timegrid))] *)
Definition ones_on (tg : Timegrid) : ndarray := full [tg_len tg] one.

(** The doctest's [test(timegrid)] on an [Obs()]. *)
Definition test (defaults : bool) (tg : Timegrid) : result ndarray :=
  (adjust_short_series (pub_jan defaults) tg (ones_on tg)
     (world_of (new_seq ObsSeq 0))).2.

(** [i] held within [0 .. n]. *)
Definition clamp (n : nat) (i : Z) : nat := Z.to_nat (Z.max 0 (Z.min i (Z.of_nat n))).

(** A flux sequence of shape (2,), connected and not persisted. *)
Definition flux_2 : seqobj :=
  {| o_class := FluxSeq; o_NDIM := 1; o_INIT := None;
     o_fast := {| FastAccess.f_value := PyArray (full [2%nat] nan);
                  FastAccess.f_ndim := 1; FastAccess.f_length := 2;
                  FastAccess.f_lengths := [2%nat];
                  FastAccess.f_ramflag := Some false;
                  FastAccess.f_diskflag := Some false;
                  FastAccess.f_path := None; FastAccess.f_file := None;
                  FastAccess.f_array := None |};
     o_old := PyNone; o_use_ext := false;
     o_filetype_ext := Some "npy"%string;
     o_filepath_ext := Some "flux.npy"%string;
     o_filepath_int := Some "flux.bin"%string |}.

(** The computation leaves the world as it is. *)
Definition reads {A} (m : M world A) : Prop := forall w, (m w).1 = w.

Definition with_checkseries (b : bool) (pub : Pub) : Pub :=
  {| options := {| usedefaultvalues := usedefaultvalues (options pub);
                   checkseries := b;
                   warnmissingobsfile := warnmissingobsfile (options pub);
                   warnmissingsimfile := warnmissingsimfile (options pub) |};
     timegrids_init := timegrids_init pub |}.

Definition ramflag_of (w : world) : option bool :=
  FastAccess.f_ramflag (o_fast (w_seq w)).
Definition diskflag_of (w : world) : option bool :=
  FastAccess.f_diskflag (o_fast (w_seq w)).

(** Not both flags are true. *)
Definition exclusive (w : world) : Prop :=
  ~ (ramflag_of w = Some true /\ diskflag_of w = Some true).

(** The mode-transition operations of an IO sequence. *)
Inductive transition :=
  | ActivateRam | ActivateDisk | DeactivateRam | DeactivateDisk
  | Ram2Disk | Disk2Ram.

Definition run_transition (py3 : bool) (pub : Pub) (t : transition) : M world unit :=
  match t with
  | ActivateRam => activate_ram py3 pub
  | ActivateDisk => activate_disk py3 pub
  | DeactivateRam => deactivate_ram
  | DeactivateDisk => deactivate_disk
  | Ram2Disk => ram2disk pub
  | Disk2Ram => disk2ram pub
  end.

(** One call after the other; a call that raises leaves the world as it
    was at the raise, and the next call is made all the same. *)
Definition run_transitions (py3 : bool) (pub : Pub) (ts : list transition)
    (w : world) : world :=
  foldl (fun w t => (run_transition py3 pub t w).1) w ts.

(** The computation changes neither flag, whether it returns or raises. *)
Definition keeps_flags {A} (m : M world A) : Prop :=
  forall w, ramflag_of (m w).1 = ramflag_of w /\ diskflag_of (m w).1 = diskflag_of w.

(** The shape of the values of an IO sequence is [row]: empty for
    [NDIM = 0], the shape of the value array of [NDIM] axes otherwise. *)
Definition has_shape (o : seqobj) (row : list nat) : Prop :=
  is_IOSequence (o_class o) = true /\
  match o_NDIM o with
  | O => row = []
  | S _ => exists v, FastAccess.f_value (o_fast o) = PyArray v /\
                     shape v = row /\ length row = o_NDIM o
  end.

(** A series is established in RAM: only the RAM flag is active and the
    RAM array [a] holds one block of the shape of the values per step of
    the initialisation period. *)
Definition ram_established (pub : Pub) (w : world) (a : ndarray) : Prop :=
  ramflag_of w = Some true /\ diskflag_of w = Some false /\
  FastAccess.f_array (o_fast (w_seq w)) = Some a /\
  is_Some (o_filepath_int (w_seq w)) /\
  exists row, has_shape (w_seq w) row /\
    shape a = tg_len (timegrids_init pub) :: row /\ wf_array a.

(** A series is established on disk: only the disk flag is active and the
    internal file holds, as [raw], one record per step of the
    initialisation period. *)
Definition disk_established (pub : Pub) (w : world) (raw : list byte) : Prop :=
  diskflag_of w = Some true /\ ramflag_of w = Some false /\
  (exists p, o_filepath_int (w_seq w) = Some p /\ w_int w !! p = Some raw) /\
  exists row, has_shape (w_seq w) row /\
    length raw = (8 * size_of (tg_len (timegrids_init pub) :: row))%nat.

(** The array [numpy.fromfile] and [reshape] make of the bytes of an
    internal file. *)
Definition series_of (pub : Pub) (row : list nat) (raw : list byte) : ndarray :=
  {| shape := tg_len (timegrids_init pub) :: row;
     data := unpack_seq (length raw / 8) raw |}.

(** The members [update_fastaccess] refreshes. *)
Definition refreshed (path : option string) (row : list nat) (ndim : nat)
    (s : FastAccess.slot) : FastAccess.slot :=
  match ndim with
  | O => FastAccess.set_lengths 1 (FastAccess.f_lengths s)
           (FastAccess.set_path path s)
  | S _ =>
      FastAccess.set_lengths (size_of (take ndim row))
        (take ndim row ++ drop ndim (FastAccess.f_lengths s))
        (FastAccess.set_path path s)
  end.

(** The external file at [p] cannot be read: it is missing, which makes
    the reader raise an [IOError], or it cannot be interpreted, and the
    reader raises [e]. *)
Definition unreadable (w : world) (p : string) (e : exn) : Prop :=
  (w_ext w !! p = None /\ e = IOError) \/ w_ext w !! p = Some (Malformed e).

(** The warnings an activation of a node sequence adds when the file is
    missing. *)
Definition flag_warning (enabled : bool) (x : warning) : list warning :=
  if enabled then [x] else [].

(** The float a 0-dimensional sequence holds after 0.0 was assigned: a
    Python float, or the content of the cell of a node sequence. *)
Definition zero_value (c : seqclass) : pyvalue :=
  if is_NodeSequence c then PyDouble zero else PyFloat zero.

Section StateTerms.
Import ByReference.



End StateTerms.

(** A sequence with its file type and paths set. *)
Definition named (base : string) (o : seqobj) : seqobj :=
  {| o_class := o_class o; o_NDIM := o_NDIM o; o_INIT := o_INIT o;
     o_fast := o_fast o; o_old := o_old o; o_use_ext := o_use_ext o;
     o_filetype_ext := Some "npy"%string;
     o_filepath_ext := Some (base +:+ ".npy")%string;
     o_filepath_int := Some (base +:+ ".bin")%string |}.

(** A connected [Obs], and one whose external file holds ones every
    second day. *)
Definition obs_world : world :=
  world_of (named "obs" (connect (pub_jan false) (new_seq ObsSeq 0))).

(** The observation sequence with 1.0 in its cell. *)
Definition obs_cell_one : world :=
  with_seq (with_fast (FastAccess.set_value (PyDouble one))) obs_world.

(** The observation sequence beside an external file that is no series. *)
Definition obs_world_malformed : world :=
  {| w_seq := w_seq obs_world; w_int := ∅;
     w_ext := {[ "obs.npy"%string := Malformed ValueError ]};
     w_warnings := [] |}.

Definition obs_world_2d : world :=
  {| w_seq := w_seq obs_world; w_int := ∅;
     w_ext := {[ "obs.npy"%string :=
                 Readable {| firstdate := jan 10; lastdate := jan 16; stepsize := 2 |}
                          (full [3%nat] one) ]};
     w_warnings := [] |}.

(** A connected flux sequence of shape (2,), and the same with a series
    of five steps in RAM. *)
Definition flux_world : world := world_of flux_2.

Definition flux_series : ndarray :=
  {| shape := [5%nat; 2%nat];
     data := [one; two; two; three; one; two; two; three; zero; nan] |}.

Definition flux_in_ram : world :=
  world_of (with_fast (fun s => FastAccess.set_ramflag true
                                  (FastAccess.set_array (Some flux_series) s))
              flux_2).


Definition link_world : world := world_of (connect (pub_jan false) (new_seq LinkSeq 1)).

(** A connected 0-dimensional flux sequence with [INIT = 1.0], under the
    option to use default values. *)
Definition flux_0d : world :=
  world_of (connect (pub_jan true)
              {| o_class := FluxSeq; o_NDIM := 0; o_INIT := Some one;
                 o_fast := blank_slot; o_old := PyNone; o_use_ext := false;
                 o_filetype_ext := None; o_filepath_ext := None;
                 o_filepath_int := None |}).

(** ** Further vocabulary: streaming records *)
Section StreamTerms.
Import FastAccess.

(** The record of step [i] in the bytes of a file. *)
Definition record_at (i : Z) (s : slot) (content : list byte) : list byte :=
  take (record_size (lens_of s)) (drop (start_of i s) content).

(** The value [loaddata] makes of the bytes of a record. *)
Definition decoded (s : slot) (raw : list byte) : pyvalue :=
  match f_ndim s with
  | O => PyFloat (unpack_d (take 8 raw))
  | S _ => PyArray {| shape := lens_of s;
                      data := unpack_seq (length_tot (lens_of s)) raw |}
  end.

(** A sequence in disk mode whose file holds record [i] completely; the
    value of an array-shaped one has the shape given by the axis lengths. *)
Definition streamable (i : Z) (fs : files) (s : slot) : Prop :=
  f_diskflag s = Some true /\ is_Some (f_ramflag s) /\
  (f_ndim s <= length (f_lengths s))%nat /\
  (exists p c, f_path s = Some p /\ fs !! p = Some c /\
     (start_of i s + record_size (lens_of s) <= length c)%nat) /\
  match f_ndim s with
  | O => True
  | S _ => exists v, f_value s = PyArray v /\ shape v = lens_of s
  end.

(** The slot after [loaddata] read record [i]: the value is the decoded
    record and the file stands where [openfiles(i+1)] would put it. *)
Definition loaded (i : Z) (fs : files) (s : slot) : slot :=
  match f_diskflag s, f_path s with
  | Some true, Some p =>
      match fs !! p with
      | Some c => set_value (decoded s (record_at i s c)) (reopened (i + 1) s)
      | None => s
      end
  | _, _ => s
  end.

End StreamTerms.

Section SavingTerms.
Import FastAccess.

(** What [savedata(i)] leaves of the bytes [c] of the file of [s] in
    [c']: the record of the value at record [i], every other byte of [c]
    as it was, zero bytes in a gap behind the old end. *)
Definition only_record_written (i : Z) (s : slot) (c c' : list byte) : Prop :=
  length c' = Nat.max (length c) (start_of i s + record_size (lens_of s)) /\
  record_at i s c' = record_of s /\
  (forall k : nat,
     (k < start_of i s \/ start_of i s + record_size (lens_of s) <= k)%nat ->
     (k < length c)%nat -> c' !! k = c !! k) /\
  (forall k : nat, (length c <= k < start_of i s)%nat -> c' !! k = Some x00).

(** The slot after [savedata(i)] in an object whose sequences in disk mode
    are scalars: a file moved one record on, or row [i] of the RAM array
    set. *)
Definition saved (i : Z) (s : slot) : slot :=
  match f_diskflag s with
  | Some true => advanced i s
  | _ => ram_saved i s
  end.

End SavingTerms.

(** ** Further vocabulary: saving and loading again *)
Section RoundTripTerms.
Import FastAccess.

(** What a value is where a float is asked for: the cell of a node gives
    the float it holds; any other value is itself. *)
Definition cell_free (v : pyvalue) : pyvalue :=
  match v with
  | PyDouble x => PyFloat x
  | _ => v
  end.

(** The slot with the float of the cell in the place of the cell. *)
Definition as_float (s : slot) : slot := set_value (cell_free (f_value s)) s.

(** A sequence that takes part in saving and loading at step [i]: it is
    in RAM mode, in disk mode with its file at hand, or transient; the
    value of a scalar sequence is a float or the cell of a node. *)
Definition live (i : Z) (fs : files) (s : slot) : Prop :=
  ram_ready i (as_float s) \/ disk_ready fs (as_float s) \/ transient s.

(** A value that can take the place of [v]: an array of its shape for an
    array, any value for a float or a cell. *)
Definition same_kind (v v' : pyvalue) : Prop :=
  match v with
  | PyArray a => exists a', v' = PyArray a' /\ shape a' = shape a
  | _ => True
  end.

(** The object after the values [vs] took the place of the values of its
    sequences, in the order of the names. *)
Definition overwritten (vs : list pyvalue) (fa : fastaccess) : fastaccess :=
  zip_with (fun p v => (p.1, set_value v p.2)) fa vs.

(** The object [fa'] has the names of [fa]; every sequence with an active
    mode holds the value it had in [fa], as a float where that was a
    cell; a transient one holds the value of [vs] that took its place. *)
Definition restored (fa : fastaccess) (vs : list pyvalue) (fa' : fastaccess)
    : Prop :=
  Forall2 (fun e q =>
             q.1 = e.1.1 /\
             (transient e.1.2 -> f_value q.2 = e.2) /\
             (~ transient e.1.2 -> f_value q.2 = cell_free (f_value e.1.2)))
          (zip fa vs) fa'.

(** The argument [idx] reaches every sequence that uses it: the
    sequences in disk mode, whose axes rebind it, are scalars, or no
    sequence is in RAM mode. *)
Definition index_kept (fa : fastaccess) : Prop :=
  Forall (fun p => f_diskflag p.2 = Some true -> f_ndim p.2 = 0%nat) fa \/
  Forall (fun p => f_diskflag p.2 = Some false -> f_ramflag p.2 = Some false) fa.

(** The slot after [savedata(i)] and [closefiles()], and after the
    [openfiles(i)] that follows. *)
Definition shut (i : Z) (s : slot) : slot :=
  match f_diskflag s with
  | Some true => closed i s
  | _ => ram_saved i s
  end.

Definition again (i : Z) (s : slot) : slot :=
  match f_diskflag s with
  | Some true => reopened i s
  | _ => ram_saved i s
  end.

(** A scalar node sequence [sim] in RAM mode with a series of 3 steps;
    its cell holds 1.0. *)
Definition sim_ram : slot :=
  {| f_value := PyDouble one; f_ndim := 0; f_length := 1; f_lengths := [];
     f_ramflag := Some true; f_diskflag := Some false;
     f_path := None; f_file := None; f_array := Some (zeros [3%nat]) |}.

End RoundTripTerms.

(** ** Further methods of IOSequence *)

(** [IOSequence._setseries]: [series[:] = values] on what [self.series]
    gives, then the series is stored where the active mode keeps it. *)
Definition IOSequence_setseries (pub : Pub) (values : pyvalue) : M world unit :=
  series <- IOSequence_getseries pub;
  series <- lift (np_assign_all series values);
  store_series series.

(** The sequence computes its series: it is not loaded from an external
    file when a mode is activated. *)
Definition computed (o : seqobj) : Prop := loads_ext o = false.

(** The series of the initialisation period with all values zero. *)
Definition zero_series (pub : Pub) (row : list nat) : ndarray :=
  zeros (tg_len (timegrids_init pub) :: row).

(** The world [activate_ram] leaves for a sequence that computes its
    series, and the one [activate_disk] leaves. *)
Definition ram_activated (pub : Pub) (row : list nat) (w : world) : world :=
  with_seq (with_fast (fun s =>
    refreshed None row (o_NDIM (w_seq w))
      (FastAccess.set_array (Some (zero_series pub row))
         (FastAccess.set_ramflag true s)))) w.

Definition disk_activated (pub : Pub) (row : list nat) (p : string) (w : world)
    : world :=
  with_seq (with_fast (fun s =>
    refreshed (Some p) row (o_NDIM (w_seq w)) (FastAccess.set_diskflag true s)))
    (with_int (fun fs => <[p := tofile (zero_series pub row)]> fs) w).

(** The flux sequence of shape (2,) in RAM mode, with an external file
    that holds nine days from 2000-01-08 on; the days of the
    initialisation period hold [flux_series]. *)
Definition long_series : ndarray :=
  {| shape := [9%nat; 2%nat];
     data := replicate 4 zero ++ data flux_series ++ replicate 4 one |}.

Definition flux_with_file : world :=
  {| w_seq := w_seq flux_in_ram; w_int := ∅;
     w_ext := {[ "flux.npy"%string := Readable (daily 8 17) long_series ]};
     w_warnings := [] |}.

(** An input sequence of shape (2,), connected, no mode active and no
    external file at hand. *)
Definition input_world : world :=
  world_of {| o_class := InputSeq; o_NDIM := o_NDIM flux_2; o_INIT := None;
              o_fast := o_fast flux_2; o_old := PyNone; o_use_ext := false;
              o_filetype_ext := Some "npy"%string;
              o_filepath_ext := Some "input.npy"%string;
              o_filepath_int := Some "input.bin"%string |}.

(** A connected flux sequence of shape (2, 3). *)
Definition flux_2x3 : world :=
  world_of {| o_class := FluxSeq; o_NDIM := 2; o_INIT := None;
              o_fast := {| FastAccess.f_value := PyArray (full [2%nat; 3%nat] nan);
                           FastAccess.f_ndim := 2; FastAccess.f_length := 6;
                           FastAccess.f_lengths := [2%nat; 3%nat];
                           FastAccess.f_ramflag := Some false;
                           FastAccess.f_diskflag := Some false;
                           FastAccess.f_path := None; FastAccess.f_file := None;
                           FastAccess.f_array := None |};
              o_old := PyNone; o_use_ext := false;
              o_filetype_ext := Some "npy"%string;
              o_filepath_ext := Some "flux.npy"%string;
              o_filepath_int := Some "flux.bin"%string |}.

(** The sequence is one of a model with values of its own: neither a
    link sequence nor a node sequence. *)
Definition holds_values (c : seqclass) : bool :=
  match c with
  | LinkSeq | SimSeq | ObsSeq => false
  | _ => true
  end.

(** ** A simulation step seen from the sequence *)

(** The fast-access object of a group that holds this sequence alone,
    under [name]: a method of it works on the members of the sequence and
    on the internal files. *)
Definition on_fastaccess (name : string)
    (method : FastAccess.fastaccess -> files ->
              (FastAccess.fastaccess * files) * result unit) : M world unit :=
  fun w =>
    let '((fa, fs), r) := method [(name, o_fast (w_seq w))] (w_int w) in
    (with_int (fun _ => fs)
       (with_seq (with_fast (fun s => default s (FastAccess.slot_of name fa))) w),
     r).

(** The floats of a value. *)
Definition value_data (v : pyvalue) : list float64 :=
  match v with
  | PyFloat x => [x]
  | PyArray a => data a
  | _ => []
  end.

(** The series of zeros with the block [d] at step [i]. *)
Definition series_with_row (pub : Pub) (row : list nat) (i : Z)
    (d : list float64) : ndarray :=
  let T := tg_len (timegrids_init pub) in
  {| shape := T :: row;
     data := replicate (Z.to_nat i * size_of row) zero ++ d
             ++ replicate ((T - 1 - Z.to_nat i) * size_of row) zero |}.

(** The members of a sequence as [connect] and the assignments of shape
    and values leave them: the number of axes is that of the class, and
    the value is a 64-bit float or a well-formed array of them. *)
Definition in_step (o : seqobj) : Prop :=
  FastAccess.f_ndim (o_fast o) = o_NDIM o /\
  match o_NDIM o with
  | O => exists x, FastAccess.f_value (o_fast o) = PyFloat x /\ wf x
  | S _ => exists v, FastAccess.f_value (o_fast o) = PyArray v /\
                     wf_array v /\ Forall wf (data v)
  end.

(** An input sequence of shape (2,), no mode active, with the external
    file of nine days from 2000-01-08 on. *)
Definition input_with_file : world :=
  {| w_seq := w_seq input_world; w_int := ∅;
     w_ext := {[ "input.npy"%string := Readable (daily 8 17) long_series ]};
     w_warnings := [] |}.

(** ** The memories of the ARMA model

    [arma_model.calc_login_v1] and [calc_logout_v1] work on the members of
    three fast-access objects: the derived parameters [nmb], [ma_order]
    and [ar_order], the fluxes [qpin] and [qpout], and the logs [login]
    and [logout], 2-dimensional arrays held here as the list of their
    rows.  An index out of range raises [IndexError]. *)
Module Arma.

Record derived := { nmb : Z; ma_order : list Z; ar_order : list Z }.
Record fluxes := { qpin : list float64; qpout : list float64 }.
Abbreviation matrix := (list (list float64)).

(** [xs[i]] *)
Definition getitem1 {A} (xs : list A) (i : Z) : result A :=
  match py_index (length xs) i with
  | Raise e => Raise e
  | Ok k =>
      match xs !! k with
      | Some x => Ok x
      | None => Raise IndexError
      end
  end.

(** [m[i, j]] and [m[i, j] = x] *)
Definition getitem2 (m : matrix) (i j : Z) : result float64 :=
  rbind (getitem1 m i) (fun row => getitem1 row j).

Definition setitem2 (m : matrix) (i j : Z) (x : float64) : result matrix :=
  match py_index (length m) i with
  | Raise e => Raise e
  | Ok k =>
      match m !! k with
      | None => Raise IndexError
      | Some row =>
          match py_index (length row) j with
          | Raise e => Raise e
          | Ok l => Ok (<[k := <[l := x]> row]> m)
          end
      end
  end.

(** [range(n)] and [range(start, -1, -1)] *)
Definition py_range (n : Z) : list Z := map Z.of_nat (seq 0 (Z.to_nat n)).
Definition py_range_down (start : Z) : list Z := rev (py_range (start + 1)).

Fixpoint for_range {S} (xs : list Z) (body : Z -> M S unit) : M S unit :=
  match xs with
  | [] => ret tt
  | x :: rest => (body x;; for_range rest body)%mon
  end.

(** A statement that reads the array and writes an item of it. *)
Definition update (f : matrix -> result matrix) : M matrix unit :=
  fun m =>
    match f m with
    | Ok m' => (m', Ok tt)
    | Raise e => (m, Raise e)
    end.

(** [log[idx, jdx+1] = log[idx, jdx]] for [jdx] from [order-2] down to 0. *)
Definition shift_memory (order idx : Z) : M matrix unit :=
  for_range (py_range_down (order - 2)) (fun jdx =>
    update (fun log =>
      rbind (getitem2 log idx jdx) (fun x => setitem2 log idx (jdx + 1) x))).

(** [calc_login_v1], on [log.login] *)
Definition calc_login_v1 (der : derived) (flu : fluxes) : M matrix unit :=
  (for_range (py_range (nmb der)) (fun idx =>
     order <- lift (getitem1 (ma_order der) idx);
     shift_memory order idx);;
   for_range (py_range (nmb der)) (fun idx =>
     update (fun login =>
       rbind (getitem1 (qpin flu) idx) (fun x => setitem2 login idx 0 x))))%mon.

(** [calc_logout_v1], on [log.logout] *)
Definition calc_logout_v1 (der : derived) (flu : fluxes) : M matrix unit :=
  (for_range (py_range (nmb der)) (fun idx =>
     order <- lift (getitem1 (ar_order der) idx);
     shift_memory order idx);;
   for_range (py_range (nmb der)) (fun idx =>
     order <- lift (getitem1 (ar_order der) idx);
     if decide (order > 0)
     then update (fun logout =>
            rbind (getitem1 (qpout flu) idx) (fun x => setitem2 logout idx 0 x))
     else ret tt))%mon.

(** The memory of a process of the given order after the value [q] was
    taken in: [q] first, then the [order - 1] latest values; what lies
    behind the order stays. *)
Definition taken_in (q : float64) (order : Z) (row : list float64)
    : list float64 :=
  q :: take (Z.to_nat (order - 1)) row ++ drop (Z.to_nat (Z.max order 1)) row.

(** The row of a process after its memory was moved on, the first item
    not yet replaced. *)
Definition moved (orders : list Z) (i : nat) (row : list float64)
    : list float64 :=
  match orders !! i with
  | Some o => take 1 row ++ take (Z.to_nat (o - 1)) row
              ++ drop (Z.to_nat (o - 1) + 1) row
  | None => row
  end.

End Arma.
(** ** Lemmas on the record codec *)
Section Codec.

Lemma Z_of_byte_range b : 0 <= Z_of_byte b < 256.
Proof.
  unfold Z_of_byte. pose proof (Byte.to_N_bounded b) as H.
  split; [apply N2Z.is_nonneg | lia].
Qed.

Lemma byte_of_Z_of_byte b : byte_of_Z (Z_of_byte b) = b.
Proof.
  unfold byte_of_Z, Z_of_byte. rewrite N2Z.id.
  now rewrite Byte.of_to_N.
Qed.

Lemma Z_of_byte_of_Z z : 0 <= z < 256 -> Z_of_byte (byte_of_Z z) = z.
Proof.
  intros Hz. unfold byte_of_Z, Z_of_byte.
  destruct (Byte.of_N (Z.to_N z)) as [b|] eqn:E.
  - apply Byte.to_of_N in E. rewrite E. apply Z2N.id. lia.
  - apply Byte.of_N_None_iff in E. lia.
Qed.

Lemma length_le_bytes n x : length (le_bytes n x) = n.
Proof. revert x. induction n as [|n IH]; intros x; simpl; [done|]. by rewrite IH. Qed.

Lemma le_value_le_bytes n x : 0 <= x -> le_value (le_bytes n x) = x mod 256 ^ Z.of_nat n.
Proof.
  revert x. induction n as [|n IH]; intros x Hx.
  - simpl. by rewrite Z.mod_1_r.
  - cbn [le_bytes le_value].
    rewrite Z_of_byte_of_Z by (apply Z.mod_pos_bound; lia).
    rewrite IH by (apply Z.div_pos; lia).
    rewrite Nat2Z.inj_succ, Z.pow_succ_r by lia.
    rewrite Z.rem_mul_r by lia. lia.
Qed.

Lemma le_bytes_le_value bs : le_bytes (length bs) (le_value bs) = bs.
Proof.
  induction bs as [|b bs IH]; [done|].
  cbn [length le_bytes le_value].
  pose proof (Z_of_byte_range b) as Hb.
  assert (Hm : (Z_of_byte b + 256 * le_value bs) mod 256 = Z_of_byte b).
  { symmetry. apply Z.mod_unique with (q := le_value bs); lia. }
  assert (Hd : (Z_of_byte b + 256 * le_value bs) / 256 = le_value bs).
  { symmetry. apply Z.div_unique with (r := Z_of_byte b); lia. }
  by rewrite Hm, Hd, byte_of_Z_of_byte, IH.
Qed.

Lemma length_pack_d x : length (pack_d x) = 8%nat.
Proof. apply length_le_bytes. Qed.

Lemma unpack_pack_d x : wf x -> unpack_d (pack_d x) = x.
Proof.
  intros [H0 H1]. unfold unpack_d, pack_d.
  rewrite le_value_le_bytes by done. apply Z.mod_small. split; [done|].
  exact H1.
Qed.

Lemma length_pack_seq xs : length (pack_seq xs) = (8 * length xs)%nat.
Proof.
  induction xs as [|x xs IH]; [done|].
  cbn [pack_seq]. rewrite length_app, length_pack_d, IH. simpl. lia.
Qed.

Lemma unpack_pack_seq xs rest :
  Forall wf xs -> unpack_seq (length xs) (pack_seq xs ++ rest) = xs.
Proof.
  induction 1 as [|x xs Hx _ IH]; [done|].
  cbn [length pack_seq unpack_seq]. rewrite <- app_assoc.
  rewrite (take_app_length' (pack_d x) _ 8 (length_pack_d x)).
  rewrite (drop_app_length' (pack_d x) _ 8 (length_pack_d x)).
  by rewrite unpack_pack_d, IH.
Qed.

Lemma length_unpack_seq n raw : length (unpack_seq n raw) = n.
Proof. revert raw. induction n as [|n IH]; intros raw; simpl; [done|]. by rewrite IH. Qed.

Lemma pack_unpack_seq n raw :
  length raw = (8 * n)%nat -> pack_seq (unpack_seq n raw) = raw.
Proof.
  revert raw. induction n as [|n IH]; intros raw Hlen.
  - destruct raw; [done|simpl in Hlen; lia].
  - cbn [unpack_seq pack_seq]. rewrite IH by (rewrite length_drop; lia).
    unfold pack_d, unpack_d.
    assert (H8 : length (take 8 raw) = 8%nat) by (rewrite length_take; lia).
    rewrite <- H8 at 1. rewrite le_bytes_le_value. apply take_drop.
Qed.

End Codec.

(** ** The seek position of [openfiles] *)
Section Openfiles.
Import FastAccess.

Lemma fold_position a lens :
  fold_left (fun position len => position * Z.of_nat len) lens a
  = a * Z.of_nat (size_of lens).
Proof.
  revert a. induction lens as [|l lens IH]; intros a; cbn [fold_left].
  - unfold size_of; simpl. lia.
  - rewrite IH. unfold size_of; cbn [foldr]. lia.
Qed.

Lemma fold_length_tot n lens :
  fold_left (fun tot len => (tot * len)%nat) lens n = (n * size_of lens)%nat.
Proof.
  revert n. induction lens as [|l lens IH]; intros n; cbn [fold_left].
  - unfold size_of; simpl. lia.
  - rewrite IH. unfold size_of; cbn [foldr]. lia.
Qed.

Lemma length_tot_size lens : length_tot lens = size_of lens.
Proof. unfold length_tot. rewrite fold_length_tot. lia. Qed.

Lemma record_size_size lens : record_size lens = (8 * size_of lens)%nat.
Proof. unfold record_size. rewrite length_tot_size. lia. Qed.

Lemma seek_position_record idx lens :
  seek_position idx lens = idx * Z.of_nat (record_size lens).
Proof.
  unfold seek_position. rewrite fold_position, record_size_size.
  rewrite Nat2Z.inj_mul. lia.
Qed.

Lemma openfiles_body_spec py3 idx fs s :
  0 <= idx -> openable fs s ->
  exists s', openfiles_body py3 idx fs s = Ok s' /\ opened_at idx s s'.
Proof.
  intros Hidx (b & Hflag & Hb). unfold openfiles_body, opened_at.
  rewrite Hflag. cbn [getattr]. destruct b; [|by eexists].
  destruct (Hb eq_refl) as [(p & Hp & [c Hc]) Hlen].
  rewrite Hp. unfold open_rbplus. rewrite Hc.
  unfold axis_lengths. rewrite decide_True by done.
  unfold file_seek. cbn [h_closed].
  rewrite seek_position_record.
  rewrite decide_False by nia.
  eexists. split; [done|]. eexists. split; [done|]. cbn.
  split; [done|]. split; [done|].
  rewrite Z2Nat.id by nia. rewrite record_size_size. lia.
Qed.

End Openfiles.

(** C2: [openfiles(idx)] succeeds on sequences whose files exist and
    leaves the file of every sequence with an active disk flag at byte
    offset [idx * recordSize], where [recordSize], the number of bytes
    [loaddata] and [savedata] move per step, is 8 times the product of the
    axis lengths (8 for a scalar): every axis length enters the position
    exactly once. *)
Theorem openfiles_seeks_to_record py3 idx (fa : FastAccess.fastaccess) (fs : files) :
  0 <= idx ->
  Forall (fun p => openable fs p.2) fa ->
  (forall lens, FastAccess.seek_position idx lens
                = idx * Z.of_nat (FastAccess.record_size lens)
                /\ FastAccess.record_size lens = (8 * size_of lens)%nat) /\
  exists fa', FastAccess.openfiles py3 idx fa fs = ((fa', fs), Ok tt) /\
    Forall2 (fun p p' => p'.1 = p.1 /\ opened_at idx p.2 p'.2) fa fa'.
Proof.
  intros Hidx Hfa. split.
  { intros lens. split; [apply seek_position_record | apply record_size_size]. }
  unfold FastAccess.openfiles.
  induction Hfa as [|[name s] fa Hs _ IH].
  - exists []. split; [done|constructor].
  - destruct IH as (fa' & Hrun & Hall).
    destruct (openfiles_body_spec py3 idx fs s Hidx Hs) as (s' & Hbody & Hs').
    exists ((name, s') :: fa'). split.
    + cbn [FastAccess.for_names]. unfold FastAccess.pure_body at 1.
      rewrite Hbody. by rewrite Hrun.
    + constructor; [done|exact Hall].
Qed.

(** ** Loops over the names of a FastAccess object *)
Section Loops.
Import FastAccess.

(** A loop whose body leaves the files alone, keeps [idx] within [I] and
    turns the slot [g s] into [g' s] for every [s] satisfying [P] runs to
    its end. *)
Lemma for_names_on_slots (body : Z -> M (slot * files) Z) (I : Z -> Prop)
    (P : slot -> Prop) (g g' : slot -> slot) (fs : files) (fa : fastaccess) :
  (forall s idx, I idx -> P s ->
     exists idx', I idx' /\ body idx (g s, fs) = ((g' s, fs), Ok idx')) ->
  Forall (fun p => P p.2) fa ->
  forall idx, I idx ->
    for_names body idx (on_slots g fa) fs = ((on_slots g' fa, fs), Ok tt).
Proof.
  intros Hbody Hfa. induction Hfa as [|[name s] fa Hs _ IH]; intros idx Hidx.
  - done.
  - cbn [for_names on_slots map fst snd]. cbn [snd] in Hs.
    destruct (Hbody s idx Hidx Hs) as (idx' & Hidx' & ->).
    fold (on_slots g fa). by rewrite IH.
Qed.

Lemma on_slots_id (fa : fastaccess) : on_slots (fun s => s) fa = fa.
Proof.
  unfold on_slots. induction fa as [|[n s] fa IH]; [done|].
  cbn [map fst snd]. by rewrite IH.
Qed.

Lemma value_of_on_slots (g : slot -> slot) (fa : fastaccess) name :
  (forall s, f_value (g s) = f_value s) ->
  value_of name (on_slots g fa) = value_of name fa.
Proof.
  intros Hg. unfold value_of. induction fa as [|[n s] fa IH]; [done|].
  cbn [on_slots map slot_of fst snd]. destruct (decide (n = name)).
  - cbn. by rewrite Hg.
  - exact IH.
Qed.

End Loops.

(** ** Saving and loading in RAM mode *)
Section RamRoundTrip.
Import FastAccess.

Lemma block_of_updated (d row : list float64) (k r T : nat) :
  length d = (T * r)%nat -> (k < T)%nat -> length row = r ->
  take r (drop (k * r) (take (k * r) d ++ row ++ drop ((k + 1) * r) d)) = row.
Proof.
  intros Hd Hk Hrow.
  assert (Hle : (k * r <= length d)%nat) by nia.
  rewrite drop_app_length' by (rewrite length_take; lia).
  by rewrite take_app_length'.
Qed.

Lemma np_setitem_block (a : ndarray) (T : nat) (row : list nat) (i : Z) v d :
  shape a = T :: row -> 0 <= i < Z.of_nat T -> np_source row v = Ok d ->
  np_setitem a i v
  = Ok {| shape := T :: row;
          data := take (Z.to_nat i * size_of row) (data a) ++ d
                  ++ drop ((Z.to_nat i + 1) * size_of row) (data a) |}.
Proof.
  intros Hsh Hi Hd. unfold np_setitem. rewrite Hsh. unfold py_index.
  rewrite decide_True by done. by rewrite Hd.
Qed.

Lemma np_getitem_block (a : ndarray) (T : nat) (row : list nat) (i : Z) d :
  wf_array a -> shape a = T :: row -> 0 <= i < Z.of_nat T ->
  length d = size_of row ->
  np_getitem {| shape := T :: row;
                data := take (Z.to_nat i * size_of row) (data a) ++ d
                        ++ drop ((Z.to_nat i + 1) * size_of row) (data a) |} i
  = match row, d with
    | [], x :: _ => Ok (PyFloat x)
    | [], [] => Raise IndexError
    | _ :: _, _ => Ok (PyArray {| shape := row; data := d |})
    end.
Proof.
  intros Hwf Hsh Hi Hd. unfold np_getitem. cbn [shape data]. unfold py_index.
  rewrite decide_True by done.
  rewrite (block_of_updated _ _ _ _ T); [done| |lia|done].
  unfold wf_array in Hwf. by rewrite Hwf, Hsh.
Qed.

Lemma loaddata_body_ram i s fs :
  ram_ready i s ->
  loaddata_body i (ram_saved i s, fs) = ((ram_saved i s, fs), Ok i).
Proof.
  intros (Hd & Hr & a & T & row & Ha & Hsh & Hwf & Hi & Hlen & Hv).
  unfold ram_saved. rewrite Hr, Ha.
  destruct (f_ndim s) as [|n] eqn:En.
  - destruct Hv as [x Hx]. destruct row; [|done].
    rewrite (np_setitem_block a T [] i _ [x]); [|done|done|by rewrite Hx].
    unfold loaddata_body. cbn [set_array f_diskflag f_ramflag f_array].
    rewrite Hd, Hr. cbn [getattr].
    rewrite (np_getitem_block a T [] i [x]) by done.
    cbn [rbind]. unfold store_loaded. cbn [set_array f_ndim]. rewrite En.
    do 2 f_equal. unfold set_value, set_array; cbn.
    by rewrite Hx.
  - destruct Hv as (v & Hx & Hv & Hwv).
    destruct row as [|r0 row]; [done|].
    rewrite (np_setitem_block a T (r0 :: row) i _ (data v)); [|done|done|].
    2:{ rewrite Hx. cbn [np_source]. by rewrite decide_True. }
    unfold loaddata_body. cbn [set_array f_diskflag f_ramflag f_array].
    rewrite Hd, Hr. cbn [getattr].
    rewrite (np_getitem_block a T (r0 :: row) i (data v));
      [|done|done|done|by rewrite Hwv, Hv].
    cbn [rbind]. unfold store_loaded. cbn [set_array f_ndim f_value].
    rewrite En, Hx. unfold np_assign_all. rewrite Hv. cbn [np_source shape].
    rewrite decide_True by done.
    do 2 f_equal. unfold set_value, set_array; cbn.
    rewrite Hx. destruct v as [sv dv]; cbn in *. by subst sv.
Qed.

Lemma ram_saved_transient i s : transient s -> ram_saved i s = s.
Proof. intros [_ Hr]. unfold ram_saved. by rewrite Hr. Qed.

Lemma savedata_body_ram_or_transient i s fs idx :
  idx = i -> ram_ready i s \/ transient s ->
  exists idx', idx' = i /\
    savedata_body idx (s, fs) = ((ram_saved i s, fs), Ok idx').
Proof.
  intros -> [Hs|Hs]; exists i; (split; [done|]).
  - destruct Hs as (Hd & Hr & a & T & row & Ha & Hsh & Hwf & Hi & Hlen & Hv).
    assert (exists d, np_source row (f_value s) = Ok d) as [d Hsrc].
    { destruct (f_ndim s).
      - destruct Hv as [x ->]. by eexists.
      - destruct Hv as (v & -> & Hv & _). cbn [np_source].
        rewrite decide_True by done. by eexists. }
    unfold savedata_body, ram_saved. rewrite Hd, Hr, Ha. cbn [getattr].
    by rewrite (np_setitem_block a T row i _ d) by done.
  - rewrite ram_saved_transient by done.
    destruct Hs as [Hd Hr]. unfold savedata_body. by rewrite Hd, Hr.
Qed.

Lemma loaddata_body_ram_or_transient i s fs idx :
  idx = i -> ram_ready i s \/ transient s ->
  exists idx', idx' = i /\
    loaddata_body idx (ram_saved i s, fs) = ((ram_saved i s, fs), Ok idx').
Proof.
  intros -> [Hs|Hs]; exists i; (split; [done|]).
  - by apply loaddata_body_ram.
  - rewrite ram_saved_transient by done.
    destruct Hs as [Hd Hr]. unfold loaddata_body. by rewrite Hd, Hr.
Qed.

Lemma f_value_ram_saved i s : f_value (ram_saved i s) = f_value s.
Proof.
  unfold ram_saved. destruct (f_ramflag s) as [[|]|]; try done.
  destruct (f_array s); [|done].
  by destruct (np_setitem _ _ _).
Qed.

End RamRoundTrip.

(** ** Saving and loading in disk mode *)
Section DiskRoundTrip.
Import FastAccess.

Lemma read_write_at pos raw content :
  take (length raw) (drop pos (write_at pos raw content)) = raw.
Proof.
  unfold write_at.
  rewrite drop_app_length'.
  - by rewrite take_app_length'.
  - rewrite length_take, length_app, length_replicate. lia.
Qed.

Lemma length_record_of fs s :
  disk_ready fs s -> length (record_of s) = record_size (lens_of s).
Proof.
  intros (_ & _ & Hlen & _ & Hv). unfold record_of.
  rewrite record_size_size. destruct (f_ndim s) eqn:En.
  - destruct Hv as (x & -> & _). unfold lens_of. rewrite En. by rewrite length_pack_d.
  - destruct Hv as (v & -> & Hsh & Hwf & _).
    rewrite length_pack_seq, Hwf, Hsh. done.
Qed.

Lemma start_of_nonneg i s : 0 <= i -> 0 <= seek_position i (lens_of s).
Proof. intros Hi. rewrite seek_position_record. nia. Qed.

Lemma openfiles_body_disk py3 i fs s h :
  0 <= i -> disk_ready fs s ->
  openfiles_body py3 i fs (set_file h s) = Ok (reopened i s).
Proof.
  intros Hi (Hd & _ & Hlen & (p & Hp & [c Hc]) & _).
  unfold openfiles_body, reopened; cbn [set_file f_diskflag f_path].
  rewrite Hd; cbn [getattr].
  rewrite Hp. unfold open_rbplus. rewrite Hc.
  unfold axis_lengths. cbn [set_file f_ndim f_lengths].
  rewrite decide_True by done.
  unfold file_seek. cbn [h_closed].
  rewrite decide_False
    by (pose proof (start_of_nonneg i s Hi); unfold lens_of in *; lia).
  done.
Qed.

Lemma set_file_same s : set_file (f_file s) s = s.
Proof. by destruct s. Qed.

Lemma openfiles_body_transient py3 i fs s :
  transient s -> openfiles_body py3 i fs s = Ok s.
Proof. intros [Hd _]. unfold openfiles_body. by rewrite Hd. Qed.

Lemma reopened_transient i s : transient s -> reopened i s = s.
Proof. intros [Hd _]. unfold reopened. by rewrite Hd. Qed.

Lemma advanced_transient i s : transient s -> advanced i s = s.
Proof. intros [Hd _]. unfold advanced. by rewrite Hd. Qed.

Lemma closed_transient i s : transient s -> closed i s = s.
Proof. intros [Hd _]. unfold closed. by rewrite Hd. Qed.

Lemma openfiles_body_first py3 i fs s :
  0 <= i -> disk_ready fs s \/ transient s ->
  exists idx' : Z,
    pure_body (openfiles_body py3 i) i (s, fs) = ((reopened i s, fs), Ok idx').
Proof.
  intros Hi [Hs|Hs]; unfold pure_body.
  - pose proof (openfiles_body_disk py3 i fs s (f_file s) Hi Hs) as H.
    rewrite set_file_same in H. rewrite H. by eexists.
  - rewrite openfiles_body_transient, reopened_transient by done. by eexists.
Qed.

Lemma openfiles_body_again py3 i fs s :
  0 <= i -> disk_ready fs s \/ transient s ->
  exists idx' : Z,
    pure_body (openfiles_body py3 i) i (closed i s, fs)
    = ((reopened i s, fs), Ok idx').
Proof.
  intros Hi [Hs|Hs]; unfold pure_body.
  - assert (exists h, closed i s = set_file h s) as [h ->].
    { destruct Hs as (Hd & _ & _ & (p & Hp & _) & _).
      unfold closed. rewrite Hd, Hp. by eexists. }
    rewrite (openfiles_body_disk py3 i fs s _ Hi Hs). by eexists.
  - rewrite closed_transient, openfiles_body_transient, reopened_transient by done.
    by eexists.
Qed.

Lemma closefiles_body_advanced i fs s idx :
  disk_ready fs s \/ transient s ->
  exists idx' : Z,
    pure_body (fun _ => closefiles_body) idx (advanced i s, fs)
    = ((closed i s, fs), Ok idx').
Proof.
  intros [(Hd & _ & _ & (p & Hp & _) & _)|Hs]; unfold pure_body.
  - unfold advanced, closed, closefiles_body. rewrite Hd, Hp.
    cbn [set_file f_diskflag f_file getattr]. rewrite Hd. cbn. by eexists.
  - rewrite advanced_transient, closed_transient by done.
    destruct Hs as [Hd _]. unfold closefiles_body. rewrite Hd. by eexists.
Qed.

(** [savedata] on an opened sequence writes its record at the start of
    record [i] and moves the file one record on. *)
Lemma savedata_body_disk i fs s idx :
  disk_ready fs s \/ transient s ->
  exists idx' : Z,
    savedata_body idx (reopened i s, fs) = ((advanced i s, save_to i s fs), Ok idx').
Proof.
  intros [Hs|Hs].
  - pose proof (length_record_of fs s Hs) as Hrec.
    destruct Hs as (Hd & [b Hr] & Hlen & (p & Hp & [c Hc]) & Hv).
    unfold savedata_body, reopened, advanced, save_to. rewrite Hd, Hp, Hc.
    cbn [set_file f_diskflag f_ramflag f_file f_value f_ndim getattr].
    rewrite Hd, Hr. cbn [getattr].
    unfold axis_lengths. cbn [set_file f_ndim f_lengths].
    rewrite decide_True by done. fold (lens_of s).
    assert (Hpack : pack_actual (f_ndim s) (length_tot (lens_of s)) (f_value s)
                    = Ok (record_of s)).
    { unfold record_of. destruct (f_ndim s) eqn:En.
      - by destruct Hv as (x & -> & _).
      - destruct Hv as (v & -> & Hsh & Hwf & _). cbn [pack_actual].
        rewrite decide_True; [done|].
        by rewrite length_tot_size, Hwf, Hsh. }
    rewrite Hpack. unfold file_write. cbn [h_closed h_path h_pos].
    rewrite Hc. unfold write_at. rewrite Hrec. cbn. by eexists.
  - rewrite reopened_transient, advanced_transient by done.
    destruct Hs as [Hd Hr]. unfold savedata_body, save_to. rewrite Hd, Hr.
    by eexists.
Qed.

Lemma disk_ready_files fs fs' s :
  (forall q, is_Some (fs !! q) -> is_Some (fs' !! q)) ->
  disk_ready fs s -> disk_ready fs' s.
Proof.
  intros Hsub (Hd & Hr & Hlen & (p & Hp & Hc) & Hv).
  repeat split; try done. exists p. split; [done|]. by apply Hsub.
Qed.

Lemma save_to_keeps i s fs q : is_Some (fs !! q) -> is_Some (save_to i s fs !! q).
Proof.
  intros Hq. unfold save_to.
  destruct (f_diskflag s) as [[|]|]; try done.
  destruct (f_path s) as [p|]; try done.
  destruct (fs !! p) eqn:Ec; try done.
  destruct (decide (p = q)) as [->|Hne].
  - rewrite lookup_insert_eq. by eexists.
  - by rewrite lookup_insert_ne.
Qed.

Lemma savedata_loop_disk i fa :
  forall fs idx,
  Forall (fun p => disk_ready fs p.2 \/ transient p.2) fa ->
  savedata idx (on_slots (reopened i) fa) fs
  = ((on_slots (advanced i) fa, save_all i fa fs), Ok tt).
Proof.
  unfold savedata, save_all.
  induction fa as [|[name s] fa IH]; intros fs idx Hfa; [done|].
  apply Forall_cons in Hfa as [Hs Hfa]. cbn [snd] in Hs.
  cbn [on_slots map for_names fst snd foldl].
  destruct (savedata_body_disk i fs s idx Hs) as [idx' ->].
  fold (on_slots (reopened i) fa). rewrite IH; [done|].
  eapply Forall_impl; [exact Hfa|]. intros [n s'] [H|H]; [left|by right].
  eapply disk_ready_files; [|exact H]. intros q. apply save_to_keeps.
Qed.

Lemma save_to_other i s fs q :
  (forall p, f_diskflag s = Some true -> f_path s = Some p -> p <> q) ->
  save_to i s fs !! q = fs !! q.
Proof.
  intros Hq. unfold save_to.
  destruct (f_diskflag s) as [[|]|]; try done.
  destruct (f_path s) as [p|]; try done.
  destruct (fs !! p); try done.
  rewrite lookup_insert_ne; [done|]. by apply Hq.
Qed.

Lemma save_all_other i fa fs q :
  q ∉ disk_paths fa -> save_all i fa fs !! q = fs !! q.
Proof.
  unfold save_all. revert fs. induction fa as [|[name s] fa IH]; intros fs Hq; [done|].
  cbn [foldl snd]. cbn [disk_paths] in Hq.
  rewrite IH.
  - apply save_to_other. intros p Hd Hp ->. rewrite Hd, Hp in Hq.
    apply Hq. by left.
  - destruct (f_diskflag s) as [[|]|]; try done.
    destruct (f_path s); try done. intros H. apply Hq. by right.
Qed.

Lemma save_all_holds i fa :
  forall fs,
  NoDup (disk_paths fa) ->
  Forall (fun p => disk_ready fs p.2 \/ transient p.2) fa ->
  Forall (fun p => holds_record i (save_all i fa fs) p.2) fa.
Proof.
  induction fa as [|[name s] fa IH]; intros fs Hnd Hfa; [constructor|].
  apply Forall_cons in Hfa as [Hs Hfa]. cbn [snd] in Hs.
  cbn [disk_paths] in Hnd. constructor.
  - cbn [snd]. unfold holds_record.
    destruct Hs as [Hs|[Hd _]]; [|by rewrite Hd].
    pose proof (length_record_of fs s Hs) as Hrec.
    destruct Hs as (Hd & _ & _ & (p & Hp & [c Hc]) & _).
    rewrite Hd, Hp in Hnd |- *. apply NoDup_cons in Hnd as [Hnotin _].
    unfold save_all. cbn [foldl snd]. fold (save_all i fa (save_to i s fs)).
    rewrite save_all_other by done.
    unfold save_to. rewrite Hd, Hp, Hc, lookup_insert_eq.
    eexists. split; [done|]. rewrite <- Hrec. apply read_write_at.
  - unfold save_all. cbn [foldl snd]. apply IH.
    + destruct (f_diskflag s) as [[|]|]; try done.
      destruct (f_path s); try done. by apply NoDup_cons in Hnd as [_ ?].
    + eapply Forall_impl; [exact Hfa|]. intros [n s'] [H|H]; [left|by right].
      eapply disk_ready_files; [|exact H]. intros q. apply save_to_keeps.
Qed.

(** [loaddata] on a sequence opened at the start of a record that holds
    its value reads the value back. *)
Lemma loaddata_body_disk i fs0 fs s idx :
  (disk_ready fs0 s \/ transient s) /\ holds_record i fs s ->
  exists idx' : Z,
    loaddata_body idx (reopened i s, fs) = ((advanced i s, fs), Ok idx').
Proof.
  intros [[Hs|Hs] Hrec].
  - pose proof (length_record_of fs0 s Hs) as Hlenrec.
    destruct Hs as (Hd & [b Hr] & Hlen & (p & Hp & _) & Hv).
    unfold holds_record in Hrec. rewrite Hd, Hp in Hrec.
    destruct Hrec as (c & Hc & Hread).
    unfold loaddata_body, reopened, advanced. rewrite Hd, Hp.
    cbn [set_file f_diskflag f_ramflag f_file getattr].
    rewrite Hd, Hr. cbn [getattr].
    unfold axis_lengths. cbn [set_file f_ndim f_lengths].
    rewrite decide_True by done. fold (lens_of s).
    unfold file_read. cbn [h_closed h_path h_pos]. rewrite Hc.
    fold (record_size (lens_of s)). rewrite Hread, Hlenrec.
    rewrite decide_True by done.
    cbn [set_file f_ndim]. unfold record_of in *.
    destruct (f_ndim s) eqn:En.
    + destruct Hv as (x & Hx & Hwx). rewrite Hx in *.
      assert (Hl : length_tot (lens_of s) = 1%nat).
      { unfold lens_of. by rewrite En. }
      rewrite Hl. cbn [unpack_seq].
      rewrite take_ge by (rewrite length_pack_d; lia).
      rewrite unpack_pack_d by done. cbn [rbind].
      unfold store_loaded. cbn [set_file f_ndim]. rewrite En.
      eexists. do 2 f_equal. unfold set_value, set_file. cbn.
      by rewrite Hx.
    + destruct Hv as (v & Hx & Hsh & Hwf & Hall). rewrite Hx in *.
      assert (Hl : length_tot (lens_of s) = length (data v)).
      { by rewrite length_tot_size, Hwf, Hsh. }
      rewrite Hl.
      pose proof (unpack_pack_seq (data v) [] Hall) as Hun.
      rewrite app_nil_r in Hun. rewrite Hun. cbn [rbind].
      unfold store_loaded. cbn [set_file f_ndim f_value]. rewrite En, Hx.
      unfold np_assign_all. rewrite Hsh.
      assert (Hne : exists l0 ls, lens_of s = l0 :: ls).
      { unfold lens_of. rewrite En. destruct (f_lengths s); [simpl in Hlen; lia|].
        by eexists _, _. }
      destruct Hne as (l0 & ls & Hls). rewrite Hls.
      cbn [np_source shape data]. rewrite decide_True by done.
      eexists. do 2 f_equal. unfold set_value, set_file. cbn.
      rewrite Hx. destruct v as [sv dv]; cbn in *.
      rewrite <- Hls. by subst sv.
  - rewrite reopened_transient, advanced_transient by done.
    destruct Hs as [Hd Hr]. unfold loaddata_body. rewrite Hd, Hr. by eexists.
Qed.

Lemma f_value_advanced i s : f_value (advanced i s) = f_value s.
Proof.
  unfold advanced. destruct (f_diskflag s) as [[|]|]; try done.
  by destruct (f_path s).
Qed.

End DiskRoundTrip.

(** C1, counterexample: a scalar sequence in disk mode holds 1.0 and its
    file, opened by [openfiles(0)], the records 2.0 and 3.0.  [savedata(0)]
    writes 1.0 over the first record; the [loaddata(0)] that follows reads
    the second record, and the actual value becomes 3.0. *)
Lemma savedata_loaddata_disk_reads_next_record :
  exists fa fa1 fs1 fa2,
    FastAccess.openfiles false 0 [("q"%string, q_disk)] q_files
    = ((fa, q_files), Ok tt) /\
    FastAccess.value_of "q" fa = Some (PyFloat one) /\
    FastAccess.savedata 0 fa q_files = ((fa1, fs1), Ok tt) /\
    fs1 !! "q.bin"%string = Some (pack_seq [one; three]) /\
    FastAccess.loaddata 0 fa1 fs1 = ((fa2, fs1), Ok tt) /\
    FastAccess.value_of "q" fa2 = Some (PyFloat three) /\
    three <> one.
Proof.
  do 4 eexists.
  split; [vm_compute; reflexivity|].
  split; [vm_compute; reflexivity|].
  split; [vm_compute; reflexivity|].
  split; [vm_compute; reflexivity|].
  split; [vm_compute; reflexivity|].
  split; [vm_compute; reflexivity|].
  done.
Qed.

Lemma openfiles_seeks_to_record_witness :
  0 <= 4 /\
  Forall (fun p => openable m_files p.2) [("m"%string, m_disk)] /\
  exists fa',
    FastAccess.openfiles true 4 [("m"%string, m_disk)] m_files
    = ((fa', m_files), Ok tt) /\
    Forall2 (fun p p' => p'.1 = p.1 /\ opened_at 4 p.2 p'.2)
      [("m"%string, m_disk)] fa'.
Proof.
  assert (H4 : 0 <= 4) by lia.
  assert (Hm : Forall (fun p => openable m_files p.2) [("m"%string, m_disk)]).
  { constructor; [|constructor]. exists true. split; [reflexivity|].
    intros _. split; [|simpl; lia].
    exists "m.bin"%string. split; [reflexivity|]. vm_compute. eauto. }
  split; [exact H4|]. split; [exact Hm|].
  exact (proj2 (openfiles_seeks_to_record true 4 _ m_files H4 Hm)).
Defined.

(** ** Short series *)
Section ShortSeries.

Lemma clamp_cases (n : nat) (i : Z) :
  (i <= 0 /\ clamp n i = 0%nat) \/
  (0 <= i <= Z.of_nat n /\ Z.of_nat (clamp n i) = i) \/
  (Z.of_nat n <= i /\ clamp n i = n).
Proof. unfold clamp. lia. Qed.

Lemma clip_clamp (n : nat) (idx : Z) :
  (if decide (idx < 0) then 0
   else if decide (idx <= Z.of_nat n) then idx else Z.of_nat n)
  = Z.of_nat (clamp n idx).
Proof. unfold clamp. repeat case_decide; lia. Qed.

Lemma py_clip_clamp (n m : nat) (i : Z) : py_clip n (Z.of_nat (clamp m i)) = Nat.min (clamp m i) n.
Proof. unfold py_clip. rewrite decide_False by lia. lia. Qed.

Lemma tg_index_last (sim tg : Timegrid) :
  0 < stepsize tg -> stepsize sim = stepsize tg ->
  lastdate sim = firstdate sim + Z.of_nat (tg_len sim) * stepsize sim ->
  tg_index tg (lastdate sim) = tg_index tg (firstdate sim) + Z.of_nat (tg_len sim).
Proof.
  intros Hst Heq Hlast. unfold tg_index. rewrite Hlast, Heq.
  replace (firstdate sim + Z.of_nat (tg_len sim) * stepsize tg - firstdate tg)
    with (firstdate sim - firstdate tg + Z.of_nat (tg_len sim) * stepsize tg) by lia.
  apply Z.div_add. lia.
Qed.

Lemma adjust_general (pub : Pub) (tg : Timegrid) (values : ndarray) (w : world)
    (n : nat) (row : list nat) :
  let sim := timegrids_init pub in
  let T := tg_len sim in
  let idx0 := tg_index tg (firstdate sim) in
  let lo := clamp n idx0 in
  let hi := clamp n (idx0 + Z.of_nat T) in
  let pre := clamp T (- idx0) in
  let ov := (hi - lo)%nat in
  let post := (T - pre - ov)%nat in
  let r := size_of row in
  0 < stepsize tg -> stepsize sim = stepsize tg ->
  lastdate sim = firstdate sim + Z.of_nat T * stepsize sim ->
  getshape w = (w, Ok row) ->
  shape values = n :: row ->
  adjust_short_series pub tg values w
  = (w, Ok {| shape := T :: row;
              data := replicate (pre * r) (initvalue pub (w_seq w))
                      ++ take (ov * r) (drop (lo * r) (data values))
                      ++ replicate (post * r) (initvalue pub (w_seq w)) |})
  /\ (pre + ov + post = T)%nat
  /\ ((0 < ov)%nat -> Z.of_nat pre + idx0 = Z.of_nat lo).
Proof.
  intros sim T idx0 lo hi pre ov post r Hst Heq Hlast Hshape Hvals.
  pose proof (clamp_cases n idx0) as H1.
  pose proof (clamp_cases n (idx0 + Z.of_nat T)) as H2.
  pose proof (clamp_cases T (- idx0)) as H3.
  fold lo in H1. fold hi in H2. fold pre in H3.
  assert (Hsum : (pre + ov + post = T)%nat)
    by (unfold post, ov; clearbody lo hi pre T idx0; lia).
  split; [|split; [exact Hsum|]].
  2:{ unfold ov. clearbody lo hi pre T idx0. lia. }
  unfold adjust_short_series, bind, self, gets, seriesshape, bind.
  rewrite Hshape. unfold ret, lift. unfold np_len. rewrite Hvals.
  fold sim. rewrite (tg_index_last sim tg Hst Heq Hlast). fold T idx0.
  rewrite !clip_clamp. fold lo hi.
  assert (Hlo : py_clip n (Z.of_nat lo) = lo)
    by (unfold py_clip; case_decide; clearbody lo hi pre T idx0; lia).
  assert (Hhi : py_clip n (Z.of_nat hi) = hi)
    by (unfold py_clip; case_decide; clearbody lo hi pre T idx0; lia).
  assert (Hl : py_clip T (Z.max (- idx0) 0) = pre)
    by (unfold py_clip; case_decide; clearbody lo hi pre T idx0; lia).
  assert (Hh : py_clip T (Z.max (- idx0) 0 + Z.of_nat hi - Z.of_nat lo)
               = (pre + ov)%nat)
    by (unfold py_clip, ov; case_decide; clearbody lo hi pre T idx0; lia).
  unfold np_getslice. rewrite Hvals, Hlo, Hhi. fold ov r.
  unfold np_setslice. cbn [full shape data]. rewrite Hl, Hh.
  replace (pre + ov - pre)%nat with ov by lia.
  rewrite decide_True by done.
  do 3 f_equal.
  change (size_of (T :: row)) with (T * r)%nat.
  rewrite take_replicate, drop_replicate.
  f_equal; [f_equal; nia|]. do 2 f_equal. nia.
Qed.

End ShortSeries.

(** C3: [adjust_short_series] returns a series of the length of the
    initialisation period that consists of sentinels, the overlapping
    segment of the external values, and sentinels again; the segment
    starts at the step of the period that the first overlapping external
    value belongs to.  The sentinel is [initvalue]: NaN, and 0 (or [INIT])
    under the option [usedefaultvalues].  In particular, for the period of
    five days from 2000-01-10 on, ones on 2000-01-12 .. 2000-01-15 give
    [NaN, NaN, 1, 1, 1], and [0, 0, 1, 1, 1] with default values, and ones
    on 2000-01-10 .. 2000-01-13 give [1, 1, 1, NaN, NaN]. *)
Theorem adjust_short_series_aligns (pub : Pub) (tg : Timegrid) (values : ndarray)
    (w : world) (n : nat) (row : list nat) :
  let sim := timegrids_init pub in
  let T := tg_len sim in
  let idx0 := tg_index tg (firstdate sim) in
  let lo := clamp n idx0 in
  let hi := clamp n (idx0 + Z.of_nat T) in
  let pre := clamp T (- idx0) in
  let ov := (hi - lo)%nat in
  let post := (T - pre - ov)%nat in
  let r := size_of row in
  0 < stepsize tg -> stepsize sim = stepsize tg ->
  lastdate sim = firstdate sim + Z.of_nat T * stepsize sim ->
  getshape w = (w, Ok row) ->
  shape values = n :: row ->
  (adjust_short_series pub tg values w
   = (w, Ok {| shape := T :: row;
               data := replicate (pre * r) (initvalue pub (w_seq w))
                       ++ take (ov * r) (drop (lo * r) (data values))
                       ++ replicate (post * r) (initvalue pub (w_seq w)) |})
   /\ (pre + ov + post = T)%nat
   /\ ((0 < ov)%nat -> Z.of_nat pre + idx0 = Z.of_nat lo)) /\
  test false (daily 12 15)
  = Ok {| shape := [5%nat]; data := [nan; nan; one; one; one] |} /\
  test true (daily 12 15)
  = Ok {| shape := [5%nat]; data := [zero; zero; one; one; one] |} /\
  test false (daily 10 13)
  = Ok {| shape := [5%nat]; data := [one; one; one; nan; nan] |}.
Proof.
  intros sim T idx0 lo hi pre ov post r Hst Heq Hlast Hshape Hvals.
  split; [by apply adjust_general|].
  split; [vm_compute; reflexivity|].
  split; vm_compute; reflexivity.
Qed.

Lemma adjust_short_series_aligns_witness :
  adjust_short_series (pub_jan false) (daily 12 14)
    {| shape := [2%nat; 2%nat]; data := [one; two; two; three] |}
    (world_of flux_2)
  = (world_of flux_2,
     Ok {| shape := [5%nat; 2%nat];
           data := [nan; nan; nan; nan; one; two; two; three; nan; nan] |}).
Proof.
  assert (H1 : 0 < stepsize (daily 12 14)) by (simpl; lia).
  assert (H2 : stepsize (timegrids_init (pub_jan false)) = stepsize (daily 12 14))
    by reflexivity.
  assert (H3 : lastdate (timegrids_init (pub_jan false))
               = firstdate (timegrids_init (pub_jan false))
                 + Z.of_nat (tg_len (timegrids_init (pub_jan false)))
                   * stepsize (timegrids_init (pub_jan false)))
    by (vm_compute; reflexivity).
  assert (H4 : getshape (world_of flux_2) = (world_of flux_2, Ok [2%nat]))
    by reflexivity.
  assert (H5 : shape {| shape := [2%nat; 2%nat]; data := [one; two; two; three] |}
               = [2%nat; 2%nat]) by reflexivity.
  exact (proj1 (proj1 (adjust_short_series_aligns (pub_jan false) (daily 12 14)
                         _ (world_of flux_2) 2 [2%nat] H1 H2 H3 H4 H5))).
Defined.

(** ** Computations that only read *)
Section Reading.

Lemma reads_ret {A} (a : A) : reads (ret a).
Proof. done. Qed.
Lemma reads_raise {A} e : reads (@raise world A e).
Proof. done. Qed.
Lemma reads_lift {A} (r : result A) : reads (lift r).
Proof. done. Qed.
Lemma reads_get : reads (@get world).
Proof. done. Qed.
Lemma reads_gets {A} (f : world -> A) : reads (gets f).
Proof. done. Qed.
Lemma reads_bind {A B} (m : M world A) (k : A -> M world B) :
  reads m -> (forall a, reads (k a)) -> reads (bind m k).
Proof.
  intros Hm Hk w. unfold bind. specialize (Hm w).
  destruct (m w) as [w' [a|e]]; cbn in *; subst; [apply Hk|done].
Qed.

Lemma reads_eq {A} (m : M world A) w : reads m -> m w = (w, (m w).2).
Proof. intros H. specialize (H w). by destruct (m w); cbn in *; subst. Qed.

End Reading.

Create HintDb reads.
#[local] Hint Resolve reads_ret reads_raise reads_lift reads_get reads_gets : reads.

Ltac reads_step :=
  match goal with
  | |- reads (bind _ _) => apply reads_bind; [|intros]
  | |- reads (match ?x with _ => _ end) => destruct x
  | |- reads _ => solve [eauto with reads]
  end.
Ltac reads_tac := intros; repeat reads_step.

Section ReadingMethods.

Lemma reads_self : reads self.
Proof. done. Qed.
Lemma reads_fast : reads fast.
Proof. done. Qed.
Lemma reads_resolve {A} (x : option A) : reads (resolve x).
Proof. destruct x; done. Qed.
Lemma reads_getflag b : reads (getflag b).
Proof. destruct b; done. Qed.
#[local] Hint Resolve reads_self reads_fast reads_resolve reads_getflag : reads.

Lemma reads_getvalue : reads getvalue.
Proof.
  unfold getvalue, Sequence_getvalue, LinkSequence_getvalue, NodeSequence_getvalues.
  reads_tac.
Qed.
#[local] Hint Resolve reads_getvalue : reads.

Lemma reads_getshape : reads getshape.
Proof.
  unfold getshape, Sequence_getshape, LinkSequence_getshape. reads_tac.
Qed.
#[local] Hint Resolve reads_getshape : reads.

Lemma reads_seriesshape pub : reads (seriesshape pub).
Proof. unfold seriesshape. reads_tac. Qed.

Lemma reads_load_file : reads load_file.
Proof. unfold load_file, filetype_ext, filepath_ext. reads_tac. Qed.

Lemma reads_getdiskflag : reads getdiskflag.
Proof. unfold getdiskflag. reads_tac. Qed.
Lemma reads_getramflag : reads getramflag.
Proof. unfold getramflag. reads_tac. Qed.
Lemma reads_filepath_int : reads filepath_int.
Proof. unfold filepath_int. reads_tac. Qed.
#[local] Hint Resolve reads_seriesshape reads_load_file reads_getdiskflag
  reads_getramflag reads_filepath_int : reads.

Lemma reads_adjust_short_series pub tg values :
  reads (adjust_short_series pub tg values).
Proof. unfold adjust_short_series. reads_tac. Qed.

Lemma reads_getseries pub : reads (IOSequence_getseries pub).
Proof.
  unfold IOSequence_getseries, IOSequence_load_int, IOSequence_getarray.
  reads_tac.
Qed.

End ReadingMethods.
#[export] Hint Resolve reads_self reads_fast reads_resolve reads_getflag
  reads_getvalue reads_getshape reads_seriesshape reads_load_file
  reads_getdiskflag reads_getramflag reads_filepath_int
  reads_adjust_short_series reads_getseries : reads.

(** ** Loading external series *)

(** C4: when the external file gives a time grid whose step size differs
    from the simulation's, [load_ext] raises, and what it does is the
    same for both settings of the option [checkseries]: the world stays
    as it is, and the error is the one on the step size as soon as the
    shape of the file's values fits the sequence. *)
Theorem load_ext_stepsize_fatal (pub : Pub) (w : world) (tg : Timegrid)
    (values : ndarray) (b : bool) :
  load_file w = (w, Ok (tg, values)) ->
  stepsize (timegrids_init pub) <> stepsize tg ->
  (exists e, load_ext (with_checkseries b pub) w = (w, Raise e)) /\
  load_ext (with_checkseries b pub) w = load_ext pub w /\
  (getshape w = (w, Ok (tail (shape values))) ->
   load_ext (with_checkseries b pub) w = (w, Raise (RuntimeError StepSize))).
Proof.
  intros Hload Hstep.
  assert (Hrun : forall pub', timegrids_init pub' = timegrids_init pub ->
            load_ext pub' w
            = match (getshape w).2 with
              | Raise e => (w, Raise e)
              | Ok shp => if decide (shp <> tail (shape values))
                          then (w, Raise (RuntimeError ShapeOfFile))
                          else (w, Raise (RuntimeError StepSize))
              end).
  { intros pub' Hpub. unfold load_ext, bind at 1. rewrite Hload.
    unfold bind at 1. rewrite (reads_eq getshape w reads_getshape).
    destruct (getshape w).2 as [shp|e]; [|done]. cbn [snd].
    destruct (decide (shp <> tail (shape values))); [done|].
    unfold bind. rewrite Hpub. by rewrite decide_True. }
  rewrite !Hrun by done. split; [|split; [done|]].
  - destruct (getshape w).2 as [shp|e]; [|by eexists].
    case_decide; by eexists.
  - intros ->. cbn. by rewrite decide_False by (intros H; by apply H).
Qed.

(** ** The flags of the two modes *)

Section Flags.

Lemma keeps_reads {A} (m : M world A) : reads m -> keeps_flags m.
Proof. intros H w. by rewrite H. Qed.

Lemma keeps_bind {A B} (m : M world A) (k : A -> M world B) :
  keeps_flags m -> (forall a, keeps_flags (k a)) -> keeps_flags (bind m k).
Proof.
  intros Hm Hk w. unfold bind. specialize (Hm w).
  destruct (m w) as [w' [a|e]]; cbn in *; [|done].
  destruct (Hk a w') as [-> ->]. done.
Qed.

Lemma keeps_upd_fast f :
  (forall s, FastAccess.f_ramflag (f s) = FastAccess.f_ramflag s /\
             FastAccess.f_diskflag (f s) = FastAccess.f_diskflag s) ->
  keeps_flags (upd_fast f).
Proof. intros Hf w. apply Hf. Qed.

Lemma keeps_with_int f : keeps_flags (modify (with_int f)).
Proof. done. Qed.

Lemma keeps_warn x : keeps_flags (warn x).
Proof. done. Qed.

End Flags.

Create HintDb keeps.
#[export] Hint Resolve keeps_with_int keeps_warn : keeps.
#[export] Hint Extern 1 (keeps_flags (upd_fast _)) =>
  apply keeps_upd_fast; intros []; done : keeps.
#[export] Hint Extern 5 (keeps_flags _) =>
  apply keeps_reads; solve [eauto with reads] : keeps.

Ltac keeps_step :=
  match goal with
  | |- keeps_flags (bind _ _) => apply keeps_bind; [|intros]
  | |- keeps_flags (match ?x with _ => _ end) => destruct x
  | |- keeps_flags _ => solve [eauto with keeps]
  end.
Ltac keeps_tac := intros; repeat keeps_step.

Section FlagsOfMethods.

Lemma keeps_update_fastaccess : keeps_flags update_fastaccess.
Proof. unfold update_fastaccess. keeps_tac. Qed.

Lemma keeps_setarray values : keeps_flags (IOSequence_setarray values).
Proof. unfold IOSequence_setarray. keeps_tac. Qed.

Lemma keeps_save_int values : keeps_flags (IOSequence_save_int values).
Proof. unfold IOSequence_save_int. keeps_tac. Qed.

Lemma keeps_os_remove path : keeps_flags (os_remove path).
Proof. unfold os_remove. keeps_tac. Qed.
#[local] Hint Resolve keeps_update_fastaccess keeps_setarray keeps_save_int
  keeps_os_remove : keeps.

Lemma keeps_delseries : keeps_flags IOSequence_delseries.
Proof. unfold IOSequence_delseries. keeps_tac. Qed.

Lemma keeps_store_series values : keeps_flags (store_series values).
Proof. unfold store_series. keeps_tac. Qed.
#[local] Hint Resolve keeps_delseries keeps_store_series : keeps.

Lemma keeps_zero_int pub : keeps_flags (zero_int pub).
Proof. unfold zero_int. keeps_tac. Qed.

Lemma keeps_load_ext pub : keeps_flags (load_ext pub).
Proof. unfold load_ext. keeps_tac. Qed.

End FlagsOfMethods.
#[export] Hint Resolve keeps_update_fastaccess keeps_setarray keeps_save_int
  keeps_os_remove keeps_delseries keeps_store_series keeps_zero_int
  keeps_load_ext : keeps.

Section ModeExclusivity.

Lemma bind_fst {A B} (m : M world A) (k : A -> M world B) w :
  (bind m k w).1 = match (m w).2 with
                   | Ok a => (k a (m w).1).1
                   | Raise _ => (m w).1
                   end.
Proof. unfold bind. by destruct (m w) as [w' [a|e]]. Qed.

Lemma bind_snd {A B} (m : M world A) (k : A -> M world B) w :
  (bind m k w).2 = match (m w).2 with
                   | Ok a => (k a (m w).1).2
                   | Raise e => Raise e
                   end.
Proof. unfold bind. by destruct (m w) as [w' [a|e]]. Qed.

Lemma deactivate_disk_eq w :
  deactivate_disk w
  = match diskflag_of w with
    | None => (w, Raise (RuntimeError FlagNotSet))
    | Some false => (w, Ok tt)
    | Some true =>
        match IOSequence_delseries w with
        | (w', Ok _) => (with_seq (with_fast (FastAccess.set_diskflag false)) w', Ok tt)
        | (w', Raise e) => (w', Raise e)
        end
    end.
Proof.
  unfold deactivate_disk, getdiskflag, bind at 1 2, fast, gets, diskflag_of.
  by destruct (FastAccess.f_diskflag (o_fast (w_seq w))) as [[|]|].
Qed.

Lemma deactivate_ram_eq w :
  deactivate_ram w
  = match ramflag_of w with
    | None => (w, Raise (RuntimeError FlagNotSet))
    | Some false => (w, Ok tt)
    | Some true =>
        match IOSequence_delseries w with
        | (w', Ok _) => (with_seq (with_fast (FastAccess.set_ramflag false)) w', Ok tt)
        | (w', Raise e) => (w', Raise e)
        end
    end.
Proof.
  unfold deactivate_ram, getramflag, bind at 1 2, fast, gets, ramflag_of.
  by destruct (FastAccess.f_ramflag (o_fast (w_seq w))) as [[|]|].
Qed.

(** After [deactivate_disk] returned, the disk flag is false; after it
    raised, it is what it was.  The RAM flag stays. *)
Lemma deactivate_disk_flags w :
  ramflag_of (deactivate_disk w).1 = ramflag_of w /\
  match (deactivate_disk w).2 with
  | Ok _ => diskflag_of (deactivate_disk w).1 = Some false
  | Raise _ => diskflag_of (deactivate_disk w).1 = diskflag_of w
  end.
Proof.
  rewrite deactivate_disk_eq.
  destruct (diskflag_of w) as [[|]|] eqn:Ed; cbn; try done.
  pose proof (keeps_delseries w) as [Hr Hd].
  destruct (IOSequence_delseries w) as [w' [[]|e]]; cbn in *; [done|].
  by rewrite Hd.
Qed.

Lemma deactivate_ram_flags w :
  diskflag_of (deactivate_ram w).1 = diskflag_of w /\
  match (deactivate_ram w).2 with
  | Ok _ => ramflag_of (deactivate_ram w).1 = Some false
  | Raise _ => ramflag_of (deactivate_ram w).1 = ramflag_of w
  end.
Proof.
  rewrite deactivate_ram_eq.
  destruct (ramflag_of w) as [[|]|] eqn:Ed; cbn; try done.
  pose proof (keeps_delseries w) as [Hr Hd].
  destruct (IOSequence_delseries w) as [w' [[]|e]]; cbn in *; [done|].
  by rewrite Hr.
Qed.

Lemma exclusive_flags w w' :
  exclusive w -> ramflag_of w' = ramflag_of w -> diskflag_of w' = diskflag_of w ->
  exclusive w'.
Proof. unfold exclusive. by intros H -> ->. Qed.

Lemma exclusive_disk_off w : diskflag_of w = Some false -> exclusive w.
Proof. intros H [_ H']. congruence. Qed.

Lemma exclusive_ram_off w : ramflag_of w = Some false -> exclusive w.
Proof. intros H [H' _]. congruence. Qed.

(** What follows [deactivate_disk] in [activate_ram] and [disk2ram]: the
    RAM flag is set, the rest keeps the flags. *)
Lemma ram_on_then {A} (k : M world A) w :
  keeps_flags k -> diskflag_of w = Some false ->
  diskflag_of (bind (setramflag true) (fun _ => k) w).1 = Some false.
Proof.
  intros Hk Hd. unfold bind, setramflag, upd_fast, modify.
  destruct (Hk (with_seq (with_fast (FastAccess.set_ramflag true)) w)) as [_ H].
  rewrite H. exact Hd.
Qed.

Lemma disk_on_then {A} (k : M world A) w :
  keeps_flags k -> ramflag_of w = Some false ->
  ramflag_of (bind (setdiskflag true) (fun _ => k) w).1 = Some false.
Proof.
  intros Hk Hd. unfold bind, setdiskflag, upd_fast, modify.
  destruct (Hk (with_seq (with_fast (FastAccess.set_diskflag true)) w)) as [H _].
  rewrite H. exact Hd.
Qed.

Lemma exclusive_after_deactivate_disk {A} (k : M world A) w :
  keeps_flags k -> exclusive w ->
  exclusive (bind deactivate_disk (fun _ => bind (setramflag true) (fun _ => k)) w).1.
Proof.
  intros Hk Hw. rewrite bind_fst.
  destruct (deactivate_disk_flags w) as [Hr Hd].
  destruct (deactivate_disk w).2.
  - apply exclusive_disk_off. by apply ram_on_then.
  - by apply (exclusive_flags w).
Qed.

Lemma exclusive_after_deactivate_ram {A} (k : M world A) w :
  keeps_flags k -> exclusive w ->
  exclusive (bind deactivate_ram (fun _ => bind (setdiskflag true) (fun _ => k)) w).1.
Proof.
  intros Hk Hw. rewrite bind_fst.
  destruct (deactivate_ram_flags w) as [Hd Hr].
  destruct (deactivate_ram w).2.
  - apply exclusive_ram_off. by apply disk_on_then.
  - by apply (exclusive_flags w).
Qed.

Lemma exclusive_IOSequence_activate_ram pub w :
  exclusive w -> exclusive (IOSequence_activate_ram pub w).1.
Proof.
  intros Hw. unfold IOSequence_activate_ram.
  apply exclusive_after_deactivate_disk; [|done]. keeps_tac.
Qed.

Lemma exclusive_IOSequence_activate_disk pub w :
  exclusive w -> exclusive (IOSequence_activate_disk pub w).1.
Proof.
  intros Hw. unfold IOSequence_activate_disk.
  apply exclusive_after_deactivate_ram; [|done]. keeps_tac.
Qed.

(** The handlers of [Sim] and [Obs] switch the flag off again. *)
Lemma exclusive_try_ram_off (m h : M world unit) caught w :
  keeps_flags h -> exclusive (m w).1 ->
  exclusive (try_except m caught (fun _ => bind (setramflag false) (fun _ => h)) w).1.
Proof.
  intros Hh Hm. unfold try_except.
  destruct (m w) as [w' [[]|e]]; cbn in *; try done.
  destruct (caught e); [|done]. apply exclusive_ram_off.
  unfold bind, setramflag, upd_fast, modify.
  by destruct (Hh (with_seq (with_fast (FastAccess.set_ramflag false)) w')) as [-> _].
Qed.

Lemma exclusive_try_disk_off (m h : M world unit) caught w :
  keeps_flags h -> exclusive (m w).1 ->
  exclusive (try_except m caught (fun _ => bind (setdiskflag false) (fun _ => h)) w).1.
Proof.
  intros Hh Hm. unfold try_except.
  destruct (m w) as [w' [[]|e]]; cbn in *; try done.
  destruct (caught e); [|done]. apply exclusive_disk_off.
  unfold bind, setdiskflag, upd_fast, modify.
  by destruct (Hh (with_seq (with_fast (FastAccess.set_diskflag false)) w')) as [_ ->].
Qed.

Lemma exclusive_run_transition py3 pub t w :
  exclusive w -> exclusive (run_transition py3 pub t w).1.
Proof.
  intros Hw. destruct t; cbn [run_transition].
  - unfold activate_ram, bind at 1, self, gets.
    destruct (o_class (w_seq w)); try done;
      try (by apply exclusive_IOSequence_activate_ram).
    + apply exclusive_try_ram_off; [keeps_tac|].
      by apply exclusive_IOSequence_activate_ram.
    + apply exclusive_try_ram_off; [keeps_tac|].
      by apply exclusive_IOSequence_activate_ram.
  - unfold activate_disk, bind at 1, self, gets.
    destruct (o_class (w_seq w)); try done;
      try (by apply exclusive_IOSequence_activate_disk).
    + apply exclusive_try_disk_off; [keeps_tac|].
      by apply exclusive_IOSequence_activate_disk.
    + apply exclusive_try_disk_off; [keeps_tac|].
      by apply exclusive_IOSequence_activate_disk.
  - destruct (deactivate_ram_flags w) as [Hd Hr].
    destruct (deactivate_ram w).2.
    + by apply exclusive_ram_off.
    + by apply (exclusive_flags w).
  - destruct (deactivate_disk_flags w) as [Hr Hd].
    destruct (deactivate_disk w).2.
    + by apply exclusive_disk_off.
    + by apply (exclusive_flags w).
  - unfold ram2disk. rewrite bind_fst.
    rewrite (reads_getseries pub w).
    destruct (IOSequence_getseries pub w).2; [|done].
    apply exclusive_after_deactivate_ram; [|done]. keeps_tac.
  - unfold disk2ram. rewrite bind_fst.
    rewrite (reads_getseries pub w).
    destruct (IOSequence_getseries pub w).2; [|done].
    apply exclusive_after_deactivate_disk; [|done]. keeps_tac.
Qed.

End ModeExclusivity.

(** C5: the mode-transition operations keep the two flags exclusive: a
    sequence whose flags are not both true never has both flags true,
    whatever operations are called and whether they return or raise;
    [connect] leaves a sequence with such flags; and whenever both flags
    are false, reading [series] raises the [RuntimeError] on missing
    internal data. *)
Theorem mode_flags_exclusive py3 pub (ts : list transition) (w : world) :
  exclusive w ->
  exclusive (run_transitions py3 pub ts w) /\
  (forall o fs ext ws,
     exclusive {| w_seq := connect pub o; w_int := fs; w_ext := ext;
                  w_warnings := ws |}) /\
  (forall w' : world,
     ramflag_of w' = Some false -> diskflag_of w' = Some false ->
     IOSequence_getseries pub w' = (w', Raise (RuntimeError NoInternalData))).
Proof.
  intros Hw. split; [|split].
  2:{ intros o fs ext ws [H1 H2]. unfold ramflag_of, diskflag_of in *.
      cbn in *. by destruct (is_IOSequence (o_class o)). }
  - unfold run_transitions. revert w Hw.
    induction ts as [|t ts IH]; intros w Hw; [done|].
    cbn [foldl]. apply IH. by apply exclusive_run_transition.
  - intros w' Hr Hd.
    unfold IOSequence_getseries, getdiskflag, getramflag, bind, fast, gets.
    unfold diskflag_of, ramflag_of in *. rewrite Hd. cbn. by rewrite Hr.
Qed.

(** ** Moving a series between RAM and disk *)
Section MovingSeries.

Lemma getshape_has_shape (w : world) row :
  has_shape (w_seq w) row -> getshape w = (w, Ok row).
Proof.
  intros [Hio Hrow].
  unfold getshape, Sequence_getshape, getvalue, Sequence_getvalue,
    NodeSequence_getvalues, bind, self, gets. cbn.
  destruct (o_class (w_seq w)) eqn:Ec; try done;
    (destruct (o_NDIM (w_seq w)) eqn:En; [by subst|]);
    destruct Hrow as (v & Hv & <- & _); cbn; rewrite ?Ec, Hv; cbn;
    by rewrite ?En.
Qed.

Lemma bind_ok {S A B} (m : M S A) (k : A -> M S B) s s' a :
  m s = (s', Ok a) -> bind m k s = k a s'.
Proof. intros H. unfold bind. by rewrite H. Qed.

Lemma getseries_ram pub w a :
  ramflag_of w = Some true -> diskflag_of w = Some false ->
  FastAccess.f_array (o_fast (w_seq w)) = Some a ->
  IOSequence_getseries pub w = (w, Ok a).
Proof.
  intros Hr Hd Ha.
  unfold IOSequence_getseries, getdiskflag, getramflag, IOSequence_getarray,
    bind, fast, gets.
  unfold ramflag_of, diskflag_of in *. rewrite Hd. cbn. rewrite Hr. cbn.
  by rewrite Ha.
Qed.

Lemma getseries_disk pub w raw row :
  disk_established pub w raw -> has_shape (w_seq w) row ->
  IOSequence_getseries pub w = (w, Ok (series_of pub row raw)).
Proof.
  intros (Hd & Hr & (p & Hp & Hraw) & row' & Hrow' & Hlen) Hrow.
  assert (row' = row) as ->.
  { pose proof (getshape_has_shape w _ Hrow) as H1.
    pose proof (getshape_has_shape w _ Hrow') as H2. congruence. }
  unfold IOSequence_getseries, getdiskflag, bind at 1 2, fast, gets.
  unfold diskflag_of in Hd. rewrite Hd. cbn [getflag ret].
  unfold IOSequence_load_int, bind at 1 2 3, self, gets, filepath_int, bind at 1,
    self, gets. rewrite Hp. cbn [resolve ret]. unfold get. rewrite Hraw.
  assert (Hdiv : (length raw / 8 = size_of (tg_len (timegrids_init pub) :: row))%nat).
  { rewrite Hlen. rewrite Nat.mul_comm. apply Nat.div_mul. lia. }
  destruct (o_NDIM (w_seq w)) eqn:En.
  - destruct Hrow as [_ Hrow]. rewrite En in Hrow. subst row.
    unfold ret, series_of, fromfile. do 3 f_equal.
    rewrite Hdiv. unfold size_of. simpl. f_equal. lia.
  - unfold seriesshape, bind. rewrite (getshape_has_shape w row Hrow).
    unfold ret, lift, reshape, fromfile. cbn [data].
    rewrite decide_True; [done|]. by rewrite length_unpack_seq, Hdiv.
Qed.

Lemma delseries_ram w :
  diskflag_of w = Some false -> ramflag_of w = Some true ->
  IOSequence_delseries w
  = (with_seq (with_fast (FastAccess.set_array None)) w, Ok tt).
Proof.
  intros Hd Hr.
  unfold IOSequence_delseries, getdiskflag, getramflag, bind, fast, gets.
  unfold ramflag_of, diskflag_of in *. rewrite Hd. cbn. by rewrite Hr.
Qed.

Lemma delseries_disk w p :
  diskflag_of w = Some true -> o_filepath_int (w_seq w) = Some p ->
  is_Some (w_int w !! p) ->
  IOSequence_delseries w = (with_int (fun fs => delete p fs) w, Ok tt).
Proof.
  intros Hd Hp [raw Hraw].
  unfold IOSequence_delseries, getdiskflag, bind at 1 2, fast, gets.
  unfold diskflag_of in *. rewrite Hd. cbn [getflag ret].
  unfold filepath_int, bind, self, gets. rewrite Hp. cbn [resolve ret].
  unfold os_remove, bind, get. by rewrite Hraw.
Qed.

Lemma save_int_run w p values :
  o_filepath_int (w_seq w) = Some p ->
  IOSequence_save_int values w
  = (with_int (fun fs => <[p := tofile values]> fs) w, Ok tt).
Proof.
  intros Hp. unfold IOSequence_save_int, filepath_int, bind, self, gets.
  by rewrite Hp.
Qed.

Lemma update_fastaccess_run w row d p :
  diskflag_of w = Some d -> (d = true -> o_filepath_int (w_seq w) = Some p) ->
  has_shape (w_seq w) row ->
  update_fastaccess w
  = (with_seq (with_fast (refreshed (if d then Some p else None) row
                            (o_NDIM (w_seq w)))) w, Ok tt).
Proof.
  intros Hd Hp Hrow.
  unfold update_fastaccess, bind at 1 2, self, gets, getdiskflag, bind at 1,
    fast, gets.
  unfold diskflag_of in Hd. rewrite Hd. cbn [getflag ret].
  set (path := if d then Some p else None).
  assert (Hpath : (if d then p0 <- filepath_int; ret (Some p0) else ret None)%mon w
                  = (w, Ok path)).
  { unfold path. destruct d; [|done].
    unfold filepath_int, bind, self, gets. by rewrite (Hp eq_refl). }
  rewrite (bind_ok _ _ _ _ _ Hpath).
  unfold bind at 1. unfold upd_fast at 1, modify.
  set (w1 := with_seq (with_fast (FastAccess.set_path path)) w).
  assert (Hrow1 : has_shape (w_seq w1) row) by exact Hrow.
  unfold refreshed.
  destruct (o_NDIM (w_seq w)) eqn:En; [done|].
  rewrite (bind_ok _ _ _ _ _ (getshape_has_shape w1 row Hrow1)).
  destruct Hrow as [_ Hrow]. rewrite En in Hrow.
  destruct Hrow as (v & _ & _ & Hlen).
  rewrite decide_True by lia. done.
Qed.

Lemma length_tofile a : wf_array a -> length (tofile a) = (8 * size_of (shape a))%nat.
Proof. intros Hwf. unfold tofile. by rewrite length_pack_seq, Hwf. Qed.

Lemma has_shape_unique o row row' : has_shape o row -> has_shape o row' -> row = row'.
Proof.
  intros [_ H] [_ H']. destruct (o_NDIM o); [by subst|].
  destruct H as (v & Hv & <- & _), H' as (v' & Hv' & <- & _). congruence.
Qed.

(** [ram2disk] on an established RAM series returns and establishes the
    series on disk, as the bytes of the array. *)
Lemma ram2disk_spec pub w a row :
  ram_established pub w a -> has_shape (w_seq w) row ->
  exists w1, ram2disk pub w = (w1, Ok tt) /\ disk_established pub w1 (tofile a) /\
    has_shape (w_seq w1) row.
Proof.
  intros (Hr & Hd & Ha & [p Hp] & row' & Hrow' & Hsh & Hwf) Hrow.
  assert (row' = row) as -> by (by eapply has_shape_unique).
  unfold ram2disk. rewrite (bind_ok _ _ _ _ _ (getseries_ram pub w a Hr Hd Ha)).
  rewrite (bind_ok deactivate_ram _ w
             (with_seq (with_fast (FastAccess.set_ramflag false))
                (with_seq (with_fast (FastAccess.set_array None)) w)) tt).
  2:{ rewrite deactivate_ram_eq, Hr. by rewrite (delseries_ram w Hd Hr). }
  unfold bind at 1, setdiskflag, upd_fast at 1, modify.
  set (w3 := with_seq (with_fast (FastAccess.set_diskflag true)) _).
  rewrite (bind_ok _ _ _ _ _ (save_int_run w3 p a Hp)).
  set (w4 := with_int _ w3).
  assert (Hrow4 : has_shape (w_seq w4) row) by exact Hrow.
  rewrite (update_fastaccess_run w4 row true p eq_refl (fun _ => Hp) Hrow4).
  assert (Hfinal : has_shape
            (w_seq (with_seq (with_fast (refreshed (Some p) row (o_NDIM (w_seq w4)))) w4))
            row).
  { destruct Hrow as [Hio Hrow]. split; [exact Hio|]. cbn.
    unfold refreshed. destruct (o_NDIM (w_seq w)); [done|]. exact Hrow. }
  eexists. split; [done|]. split; [|exact Hfinal].
  split; [|split; [|split]].
  - unfold diskflag_of, refreshed. cbn. by destruct (o_NDIM (w_seq w)).
  - unfold ramflag_of, refreshed. cbn. by destruct (o_NDIM (w_seq w)).
  - exists p. split; [exact Hp|]. cbn. apply lookup_insert_eq.
  - exists row. split; [exact Hfinal|]. by rewrite length_tofile, Hsh.
Qed.

(** [disk2ram] on a series established on disk returns and establishes
    the series in RAM, as the array read from the file. *)
Lemma disk2ram_spec pub w raw row :
  disk_established pub w raw -> has_shape (w_seq w) row ->
  exists w1, disk2ram pub w = (w1, Ok tt) /\
    ram_established pub w1 (series_of pub row raw) /\
    has_shape (w_seq w1) row.
Proof.
  intros Hw Hrow.
  pose proof (getseries_disk pub w raw row Hw Hrow) as Hser.
  destruct Hw as (Hd & Hr & (p & Hp & Hraw) & row' & Hrow' & Hlen).
  assert (row' = row) as -> by (by eapply has_shape_unique).
  unfold disk2ram. rewrite (bind_ok _ _ _ _ _ Hser).
  rewrite (bind_ok deactivate_disk _ w
             (with_seq (with_fast (FastAccess.set_diskflag false))
                (with_int (fun fs => delete p fs) w)) tt).
  2:{ rewrite deactivate_disk_eq, Hd.
      by rewrite (delseries_disk w p Hd Hp (ltac:(by eexists))). }
  unfold bind at 1, setramflag, upd_fast at 1, modify.
  unfold bind at 1, IOSequence_setarray, upd_fast at 1, modify.
  set (w4 := with_seq (with_fast (FastAccess.set_array _)) _).
  assert (Hrow4 : has_shape (w_seq w4) row) by exact Hrow.
  rewrite (update_fastaccess_run w4 row false p eq_refl (fun H => ltac:(done)) Hrow4).
  assert (Hfinal : has_shape
            (w_seq (with_seq (with_fast (refreshed None row (o_NDIM (w_seq w4)))) w4))
            row).
  { destruct Hrow as [Hio Hrow]. split; [exact Hio|]. cbn.
    unfold refreshed. destruct (o_NDIM (w_seq w)); [done|]. exact Hrow. }
  eexists. split; [done|]. split; [|exact Hfinal].
  split; [|split; [|split; [|split]]].
  - unfold ramflag_of, refreshed. cbn. by destruct (o_NDIM (w_seq w)).
  - unfold diskflag_of, refreshed. cbn. by destruct (o_NDIM (w_seq w)).
  - unfold refreshed. cbn. by destruct (o_NDIM (w_seq w)).
  - cbn. rewrite Hp. by eexists.
  - exists row. split; [exact Hfinal|]. split; [done|].
    unfold wf_array, series_of. cbn [data shape].
    rewrite length_unpack_seq, Hlen. rewrite Nat.mul_comm. apply Nat.div_mul. lia.
Qed.

Lemma series_of_tofile pub a row :
  shape a = tg_len (timegrids_init pub) :: row -> Forall wf (data a) ->
  series_of pub row (tofile a) = a.
Proof.
  intros Hsh Hall. unfold series_of, tofile.
  destruct a as [sa da]; cbn [shape data] in *.
  subst sa. f_equal. rewrite length_pack_seq.
  rewrite (Nat.mul_comm 8 (length da)), Nat.div_mul by lia.
  pose proof (unpack_pack_seq da [] Hall) as H. by rewrite app_nil_r in H.
Qed.

Lemma tofile_series_of pub row raw :
  length raw = (8 * size_of (tg_len (timegrids_init pub) :: row))%nat ->
  tofile (series_of pub row raw) = raw.
Proof.
  intros Hlen. unfold tofile, series_of. cbn [data].
  apply pack_unpack_seq. rewrite Hlen.
  rewrite (Nat.mul_comm 8 (size_of _)), Nat.div_mul by lia. lia.
Qed.

End MovingSeries.

(** C6: on an established in-run series, [ram2disk] followed by [disk2ram]
    returns and leaves [series] exactly the array it was, and [disk2ram]
    followed by [ram2disk] returns and leaves [series], and the bytes of
    the internal file, exactly what they were; for sequences of every
    dimension. *)
Theorem ram2disk_disk2ram_preserve_series (pub : Pub) (w : world) :
  (forall a, ram_established pub w a -> Forall wf (data a) ->
     exists w1 w2,
       IOSequence_getseries pub w = (w, Ok a) /\
       ram2disk pub w = (w1, Ok tt) /\ disk2ram pub w1 = (w2, Ok tt) /\
       IOSequence_getseries pub w2 = (w2, Ok a) /\
       ram_established pub w2 a) /\
  (forall raw, disk_established pub w raw ->
     exists a w1 w2,
       IOSequence_getseries pub w = (w, Ok a) /\
       disk2ram pub w = (w1, Ok tt) /\ ram2disk pub w1 = (w2, Ok tt) /\
       IOSequence_getseries pub w2 = (w2, Ok a) /\
       disk_established pub w2 raw).
Proof.
  split.
  - intros a Hw Hall.
    destruct Hw as (Hr & Hd & Ha & Hp & row & Hrow & Hsh & Hwf).
    assert (Hw : ram_established pub w a).
    { repeat split; try done. by exists row. }
    destruct (ram2disk_spec pub w a row Hw Hrow) as (w1 & Hrun1 & Hw1 & Hrow1).
    destruct (disk2ram_spec pub w1 _ row Hw1 Hrow1) as (w2 & Hrun2 & Hw2 & Hrow2).
    rewrite (series_of_tofile pub a row Hsh Hall) in Hw2.
    exists w1, w2. split; [by apply getseries_ram|]. split; [done|].
    split; [done|]. split; [|done].
    destruct Hw2 as (Hr2 & Hd2 & Ha2 & _). by apply getseries_ram.
  - intros raw Hw.
    assert (exists row, has_shape (w_seq w) row /\
              length raw = (8 * size_of (tg_len (timegrids_init pub) :: row))%nat)
      as (row & Hrow & Hlen).
    { destruct Hw as (_ & _ & _ & row & ? & ?). by exists row. }
    destruct (disk2ram_spec pub w raw row Hw Hrow) as (w1 & Hrun1 & Hw1 & Hrow1).
    destruct (ram2disk_spec pub w1 _ row Hw1 Hrow1) as (w2 & Hrun2 & Hw2 & Hrow2).
    rewrite (tofile_series_of pub row raw Hlen) in Hw2.
    exists (series_of pub row raw), w1, w2.
    split; [by apply getseries_disk|]. split; [done|]. split; [done|].
    split; [by apply getseries_disk|done].
Qed.

(** ** Missing external files *)
Section MissingFile.

Lemma load_ext_unreadable pub w p e :
  is_Some (o_filetype_ext (w_seq w)) -> o_filepath_ext (w_seq w) = Some p ->
  unreadable w p e ->
  load_ext pub w = (w, Raise e).
Proof.
  intros [ft Hft] Hp Hun.
  unfold load_ext, bind at 1, load_file, bind at 1, filetype_ext, bind at 1,
    self, gets.
  rewrite Hft. cbn [resolve ret].
  unfold bind at 1, filepath_ext, bind at 1, self, gets. rewrite Hp.
  cbn [resolve ret]. unfold bind, get.
  destruct Hun as [[Hmiss ->]|Hmal]; [by rewrite Hmiss|by rewrite Hmal].
Qed.

Lemma activate_ram_unreadable pub w p e :
  loads_ext (w_seq w) = true ->
  is_Some (o_filetype_ext (w_seq w)) -> o_filepath_ext (w_seq w) = Some p ->
  unreadable w p e -> diskflag_of w = Some false ->
  IOSequence_activate_ram pub w
  = (with_seq (with_fast (FastAccess.set_ramflag true)) w, Raise e).
Proof.
  intros Hloads Hft Hp Hun Hd. unfold IOSequence_activate_ram.
  rewrite (bind_ok deactivate_disk _ w w tt)
    by (by rewrite deactivate_disk_eq, Hd).
  unfold bind at 1, setramflag, upd_fast at 1, modify.
  set (w1 := with_seq _ w). unfold bind at 1, self, gets.
  change (o_class (w_seq w1)) with (o_class (w_seq w)).
  change (loads_ext (w_seq w1)) with (loads_ext (w_seq w)). rewrite Hloads.
  unfold bind. by rewrite (load_ext_unreadable pub w1 p e Hft Hp Hun).
Qed.

Lemma activate_disk_unreadable pub w p e :
  loads_ext (w_seq w) = true ->
  is_Some (o_filetype_ext (w_seq w)) -> o_filepath_ext (w_seq w) = Some p ->
  unreadable w p e -> ramflag_of w = Some false ->
  IOSequence_activate_disk pub w
  = (with_seq (with_fast (FastAccess.set_diskflag true)) w, Raise e).
Proof.
  intros Hloads Hft Hp Hun Hr. unfold IOSequence_activate_disk.
  rewrite (bind_ok deactivate_ram _ w w tt)
    by (by rewrite deactivate_ram_eq, Hr).
  unfold bind at 1, setdiskflag, upd_fast at 1, modify.
  set (w1 := with_seq _ w). unfold bind at 1, self, gets.
  change (loads_ext (w_seq w1)) with (loads_ext (w_seq w)). rewrite Hloads.
  unfold bind. by rewrite (load_ext_unreadable pub w1 p e Hft Hp Hun).
Qed.

Lemma activate_ram_class py3 pub w :
  activate_ram py3 pub w
  = match o_class (w_seq w) with
    | SimSeq => Sim_activate_ram py3 pub w
    | ObsSeq => Obs_activate_ram py3 pub w
    | InputSeq | FluxSeq | StateSeq => IOSequence_activate_ram pub w
    | _ => (w, Raise AttributeError)
    end.
Proof. unfold activate_ram, bind, self, gets. by destruct (o_class (w_seq w)). Qed.

Lemma activate_disk_class py3 pub w :
  activate_disk py3 pub w
  = match o_class (w_seq w) with
    | SimSeq => Sim_activate_disk py3 pub w
    | ObsSeq => Obs_activate_disk py3 pub w
    | InputSeq | FluxSeq | StateSeq => IOSequence_activate_disk pub w
    | _ => (w, Raise AttributeError)
    end.
Proof. unfold activate_disk, bind, self, gets. by destruct (o_class (w_seq w)). Qed.

End MissingFile.

(** C8, as the code has it: a sequence, neither mode active, is to load
    its series from an external file that cannot be read: the file is
    missing, or reading it raises [e].  For an [Obs] and for a [Sim]
    ([use_ext] set), if the exception is an [IOError], as it is for a
    missing file, [activate_ram] and [activate_disk] return, the flag of
    the mode is false afterwards, and the warning is issued exactly when
    the option [warnmissingobsfile] respectively [warnmissingsimfile] is
    set; if it is another exception, as for a file that cannot be
    interpreted, both methods raise it, and the flag of the mode stays
    set.  For an [InputSequence] both methods raise the exception in
    every case, with the flag of the mode set. *)
Theorem missing_file_policy py3 pub (w : world) (p : string) (e : exn) :
  loads_ext (w_seq w) = true ->
  is_Some (o_filetype_ext (w_seq w)) -> o_filepath_ext (w_seq w) = Some p ->
  unreadable w p e ->
  ramflag_of w = Some false -> diskflag_of w = Some false ->
  (o_class (w_seq w) = ObsSeq -> is_IOError py3 e = true ->
   (exists w', activate_ram py3 pub w = (w', Ok tt) /\
      ramflag_of w' = Some false /\ diskflag_of w' = Some false /\
      w_warnings w' = w_warnings w
        ++ flag_warning (warnmissingobsfile (options pub)) (WarnObsFlag false)) /\
   (exists w', activate_disk py3 pub w = (w', Ok tt) /\
      ramflag_of w' = Some false /\ diskflag_of w' = Some false /\
      w_warnings w' = w_warnings w
        ++ flag_warning (warnmissingobsfile (options pub)) (WarnObsFlag true))) /\
  (o_class (w_seq w) = SimSeq -> is_IOError py3 e = true ->
   (exists w', activate_ram py3 pub w = (w', Ok tt) /\
      ramflag_of w' = Some false /\ diskflag_of w' = Some false /\
      w_warnings w' = w_warnings w
        ++ flag_warning (warnmissingsimfile (options pub)) (WarnSimFlag false)) /\
   (exists w', activate_disk py3 pub w = (w', Ok tt) /\
      ramflag_of w' = Some false /\ diskflag_of w' = Some false /\
      w_warnings w' = w_warnings w
        ++ flag_warning (warnmissingsimfile (options pub)) (WarnSimFlag true))) /\
  (o_class (w_seq w) = InputSeq \/
   ((o_class (w_seq w) = ObsSeq \/ o_class (w_seq w) = SimSeq) /\
    is_IOError py3 e = false) ->
   activate_ram py3 pub w
   = (with_seq (with_fast (FastAccess.set_ramflag true)) w, Raise e) /\
   activate_disk py3 pub w
   = (with_seq (with_fast (FastAccess.set_diskflag true)) w, Raise e)).
Proof.
  intros Hloads Hft Hp Hun Hr Hd.
  pose proof (activate_ram_unreadable pub w p e Hloads Hft Hp Hun Hd) as Hram.
  pose proof (activate_disk_unreadable pub w p e Hloads Hft Hp Hun Hr) as Hdisk.
  unfold ramflag_of, diskflag_of in *.
  split; [|split].
  - intros Hc He. rewrite activate_ram_class, activate_disk_class, Hc. split.
    + unfold Obs_activate_ram, try_except. rewrite Hram, He.
      unfold flag_warning.
      destruct (warnmissingobsfile (options pub)); eexists;
        (split; [reflexivity|]); cbn; rewrite ?app_nil_r; by rewrite Hd.
    + unfold Obs_activate_disk, try_except. rewrite Hdisk, He.
      unfold flag_warning.
      destruct (warnmissingobsfile (options pub)); eexists;
        (split; [reflexivity|]); cbn; rewrite ?app_nil_r; by rewrite Hr.
  - intros Hc He. rewrite activate_ram_class, activate_disk_class, Hc. split.
    + unfold Sim_activate_ram, try_except. rewrite Hram, He.
      unfold flag_warning.
      destruct (warnmissingsimfile (options pub)); eexists;
        (split; [reflexivity|]); cbn; rewrite ?app_nil_r; by rewrite Hd.
    + unfold Sim_activate_disk, try_except. rewrite Hdisk, He.
      unfold flag_warning.
      destruct (warnmissingsimfile (options pub)); eexists;
        (split; [reflexivity|]); cbn; rewrite ?app_nil_r; by rewrite Hr.
  - rewrite activate_ram_class, activate_disk_class.
    intros [Hc|[[Hc|Hc] He]]; rewrite Hc.
    + by rewrite Hram, Hdisk.
    + unfold Obs_activate_ram, Obs_activate_disk, try_except.
      by rewrite Hram, Hdisk, He.
    + unfold Sim_activate_ram, Sim_activate_disk, try_except.
      by rewrite Hram, Hdisk, He.
Qed.

(** C8, counterexample: the external file of an [Obs] is at hand but is
    no series, and reading it raises a [ValueError].  [activate_ram] and
    [activate_disk] raise it, and the flag of the mode, false before, is
    left set; no warning is issued. *)
Lemma obs_malformed_file_raises :
  ramflag_of obs_world_malformed = Some false /\
  diskflag_of obs_world_malformed = Some false /\
  (activate_ram true (pub_jan false) obs_world_malformed).2 = Raise ValueError /\
  ramflag_of (activate_ram true (pub_jan false) obs_world_malformed).1 = Some true /\
  w_warnings (activate_ram true (pub_jan false) obs_world_malformed).1 = [] /\
  (activate_disk true (pub_jan false) obs_world_malformed).2 = Raise ValueError /\
  diskflag_of (activate_disk true (pub_jan false) obs_world_malformed).1 = Some true /\
  w_warnings (activate_disk true (pub_jan false) obs_world_malformed).1 = [].
Proof. repeat split; vm_compute; reflexivity. Qed.

(** C9: reading [value] or [values] of a link sequence and assigning to
    them, directly, by calling the sequence or through an attribute
    assignment on its subgroup, raise [NotImplementedError] and change
    nothing, for every dimension. *)
Theorem link_value_not_implemented (w : world) :
  o_class (w_seq w) = LinkSeq ->
  getvalue w = (w, Raise NotImplementedError) /\
  (forall value, setvalue value w = (w, Raise NotImplementedError)) /\
  (forall args, Sequence_call args w = (w, Raise NotImplementedError)) /\
  (forall value, SubSequences_setattr value w = (w, Raise NotImplementedError)).
Proof.
  intros Hc.
  unfold SubSequences_setattr, try_except, Sequence_call, setvalue, getvalue,
    bind, self, gets.
  by rewrite Hc.
Qed.

(** ** Assigning the empty shape *)
Section EmptyShape.

Lemma setvalue_zero w :
  o_NDIM (w_seq w) = 0%nat -> o_class (w_seq w) <> LinkSeq ->
  (is_NodeSequence (o_class (w_seq w)) = true ->
   exists x, FastAccess.f_value (o_fast (w_seq w)) = PyDouble x) ->
  setvalue (ArgFloat zero) w
  = (with_seq (with_fast (FastAccess.set_value (zero_value (o_class (w_seq w))))) w,
     Ok tt).
Proof.
  intros Hn Hc Hnode.
  unfold setvalue, bind at 1, self, gets, zero_value.
  destruct (o_class (w_seq w)) eqn:Ec; try done.
  1-5: unfold Sequence_setvalue, coerce, bind, self, gets; by rewrite Hn.
  all: destruct (Hnode eq_refl) as [x Hx];
    unfold NodeSequence_setvalues, bind, self, gets; by rewrite Hx.
Qed.

Lemma update_fastaccess_0d w :
  o_NDIM (w_seq w) = 0%nat ->
  update_fastaccess w
  = match diskflag_of w with
    | None => (w, Raise (RuntimeError FlagNotSet))
    | Some false => (with_seq (with_fast (refreshed None [] 0)) w, Ok tt)
    | Some true =>
        match o_filepath_int (w_seq w) with
        | Some p => (with_seq (with_fast (refreshed (Some p) [] 0)) w, Ok tt)
        | None => (w, Raise (RuntimeError PathUnknown))
        end
    end.
Proof.
  intros Hn. unfold update_fastaccess, bind at 1 2, self, gets.
  unfold getdiskflag, bind at 1, fast, gets, diskflag_of.
  destruct (FastAccess.f_diskflag (o_fast (w_seq w))) as [[|]|];
    cbn [getflag ret raise]; [| |done].
  - unfold bind at 1 2, filepath_int, bind at 1, self, gets.
    destruct (o_filepath_int (w_seq w)); cbn [resolve ret raise]; [|done].
    unfold bind, upd_fast, modify. cbn. by rewrite Hn.
  - unfold bind, ret, upd_fast, modify. cbn. by rewrite Hn.
Qed.

(** What [shape = ()] makes of a 0-dimensional sequence that is no link
    sequence: the world after the value was set, with the members
    refreshed by [update_fastaccess] for an IO sequence, as far as that
    method gets. *)
Lemma setshape_0d pub w :
  o_NDIM (w_seq w) = 0%nat -> o_class (w_seq w) <> LinkSeq ->
  (is_NodeSequence (o_class (w_seq w)) = true ->
   exists x, FastAccess.f_value (o_fast (w_seq w)) = PyDouble x) ->
  let w1 := with_seq (with_fast (FastAccess.set_value
                                   (zero_value (o_class (w_seq w))))) w in
  setshape pub [] w
  = if is_IOSequence (o_class (w_seq w)) then update_fastaccess w1
    else (w1, Ok tt).
Proof.
  intros Hn Hc Hnode w1.
  assert (Hseq : Sequence_setshape pub [] w = (w1, Ok tt)).
  { unfold Sequence_setshape, bind, self, gets. rewrite Hn.
    by apply setvalue_zero. }
  assert (Hio : IOSequence_setshape pub [] w = update_fastaccess w1).
  { unfold IOSequence_setshape. by rewrite (bind_ok _ _ _ _ _ Hseq). }
  unfold setshape, bind at 1, self, gets.
  destruct (o_class (w_seq w)) eqn:Ec; cbn [is_IOSequence]; try done.
  unfold StateSequence_setshape, bind at 1. rewrite Hio.
  rewrite (update_fastaccess_0d w1 Hn).
  destruct (diskflag_of w1) as [[|]|]; [| |done].
  - destruct (o_filepath_int (w_seq w1)); [|done].
    unfold bind, self, gets. cbn. by rewrite Hn.
  - unfold bind, self, gets. cbn. by rewrite Hn.
Qed.

(** A node sequence without its cell: the assignment of the value raises
    before anything is stored. *)
Lemma setshape_0d_no_cell pub w e :
  o_NDIM (w_seq w) = 0%nat -> is_NodeSequence (o_class (w_seq w)) = true ->
  NodeSequence_setvalues (ArgFloat zero) w = (w, Raise e) ->
  setshape pub [] w = (w, Raise e).
Proof.
  intros Hn Hc Hset.
  assert (Hval : setvalue (ArgFloat zero) w = (w, Raise e)).
  { unfold setvalue, bind at 1, self, gets.
    by destruct (o_class (w_seq w)). }
  assert (Hseq : Sequence_setshape pub [] w = (w, Raise e)).
  { unfold Sequence_setshape, bind at 1, self, gets. by rewrite Hn. }
  unfold setshape, bind at 1, self, gets.
  destruct (o_class (w_seq w)); try done;
    unfold IOSequence_setshape, bind; by rewrite Hseq.
Qed.

End EmptyShape.

(** C10, as the code has it: assigning [()] to [shape] of a 0-dimensional
    sequence that is no link sequence and, if it is a node sequence,
    holds its cell, puts 0.0 in the place of the value (into the cell of
    the node sequence), whatever the option [usedefaultvalues] and [INIT]
    say, also when the call raises afterwards; the call returns for a
    sequence that is no IO sequence and for an IO sequence whose disk
    flag is set and, if it is active, whose internal file path is
    determinable.  For a node sequence that holds no cell the assignment
    raises and stores nothing: an [AttributeError] where the value is
    missing, a [TypeError] where a float is in the place of the cell.
    For a 0-dimensional link sequence the assignment of any shape
    returns and changes nothing. *)
Theorem setshape_empty_0d (pub : Pub) (w : world) :
  o_NDIM (w_seq w) = 0%nat ->
  (o_class (w_seq w) <> LinkSeq ->
   (is_NodeSequence (o_class (w_seq w)) = true ->
    exists x, FastAccess.f_value (o_fast (w_seq w)) = PyDouble x) ->
   FastAccess.f_value (o_fast (w_seq (setshape pub [] w).1))
   = zero_value (o_class (w_seq w)) /\
   (forall pub', FastAccess.f_value (o_fast (w_seq (setshape pub' [] w).1))
                 = zero_value (o_class (w_seq w))) /\
   ((is_IOSequence (o_class (w_seq w)) = true ->
     exists d, diskflag_of w = Some d /\
       (d = true -> is_Some (o_filepath_int (w_seq w)))) ->
    (setshape pub [] w).2 = Ok tt)) /\
  (is_NodeSequence (o_class (w_seq w)) = true ->
   (FastAccess.f_value (o_fast (w_seq w)) = PyNone ->
    setshape pub [] w = (w, Raise AttributeError)) /\
   (forall x, FastAccess.f_value (o_fast (w_seq w)) = PyFloat x ->
              setshape pub [] w = (w, Raise TypeError))) /\
  (o_class (w_seq w) = LinkSeq ->
   forall shp, setshape pub shp w = (w, Ok tt)).
Proof.
  intros Hn. split; [|split].
  - intros Hc Hnode.
    set (w1 := with_seq (with_fast (FastAccess.set_value
                                      (zero_value (o_class (w_seq w))))) w).
    assert (Hupd : FastAccess.f_value (o_fast (w_seq (update_fastaccess w1).1))
                   = zero_value (o_class (w_seq w))).
    { rewrite (update_fastaccess_0d w1 Hn).
      destruct (diskflag_of w1) as [[|]|]; [| |done].
      - by destruct (o_filepath_int (w_seq w1)).
      - done. }
    assert (Hval : forall pub',
              FastAccess.f_value (o_fast (w_seq (setshape pub' [] w).1))
              = zero_value (o_class (w_seq w))).
    { intros pub'. rewrite (setshape_0d pub' w Hn Hc Hnode). fold w1.
      by destruct (is_IOSequence (o_class (w_seq w))). }
    split; [apply Hval|]. split; [exact Hval|].
    intros Hok. rewrite (setshape_0d pub w Hn Hc Hnode). fold w1.
    destruct (is_IOSequence (o_class (w_seq w))); [|done].
    destruct (Hok eq_refl) as (d & Hd & Hp).
    rewrite (update_fastaccess_0d w1 Hn).
    change (diskflag_of w1) with (diskflag_of w). rewrite Hd.
    destruct d; [|done]. destruct (Hp eq_refl) as [p Hpath].
    change (o_filepath_int (w_seq w1)) with (o_filepath_int (w_seq w)).
    by rewrite Hpath.
  - intros Hnode. split.
    + intros Hv. apply setshape_0d_no_cell; [done..|].
      unfold NodeSequence_setvalues, bind, self, gets. by rewrite Hv.
    + intros x Hv. apply setshape_0d_no_cell; [done..|].
      unfold NodeSequence_setvalues, bind, self, gets. by rewrite Hv.
  - intros Hc shp. unfold setshape, bind, self, gets. rewrite Hc.
    unfold LinkSequence_setshape, bind, self, gets. by rewrite Hn.
Qed.

(** C10, counterexample: a connected 0-dimensional link sequence holds no
    value; after [shape = ()] it is as it was, and holds no 0.0. *)
Lemma setshape_empty_link_noop :
  let w := world_of (connect (pub_jan false) (new_seq LinkSeq 0)) in
  setshape (pub_jan false) [] w = (w, Ok tt) /\
  FastAccess.f_value (o_fast (w_seq w)) = PyNone /\
  FastAccess.f_value (o_fast (w_seq (setshape (pub_jan false) [] w).1))
  <> PyFloat zero.
Proof. repeat split; done. Qed.

(** ** new2old *)
Section New2Old.
Import ByReference.



Lemma broadcast_shape src shp a : broadcast src shp = Ok a -> shape a = shp.
Proof.
  unfold broadcast. case_decide; [|done].
  destruct (compatible _ shp); [|done]. by intros [= <-].
Qed.

Lemma full_of_shape shp value a : full_of shp value = Ok a -> shape a = shp.
Proof.
  unfold full_of. destruct value as [x|xs|b].
  - by intros [= <-].
  - apply broadcast_shape.
  - apply broadcast_shape.
Qed.















End New2Old.


(** ** The theorems at concrete sequences *)

Lemma load_ext_stepsize_fatal_witness :
  (exists e, load_ext (with_checkseries false (pub_jan false)) obs_world_2d
             = (obs_world_2d, Raise e)) /\
  load_ext (with_checkseries false (pub_jan false)) obs_world_2d
  = load_ext (pub_jan false) obs_world_2d /\
  (getshape obs_world_2d = (obs_world_2d, Ok (tail (shape (full [3%nat] one)))) ->
   load_ext (with_checkseries false (pub_jan false)) obs_world_2d
   = (obs_world_2d, Raise (RuntimeError StepSize))).
Proof.
  apply (load_ext_stepsize_fatal (pub_jan false) obs_world_2d
           {| firstdate := jan 10; lastdate := jan 16; stepsize := 2 |}
           (full [3%nat] one) false).
  - vm_compute. reflexivity.
  - simpl. lia.
Defined.

Lemma mode_flags_exclusive_witness :
  exclusive flux_world /\
  exclusive (run_transitions false (pub_jan false)
               [ActivateRam; Ram2Disk; Disk2Ram; ActivateDisk; DeactivateDisk]
               flux_world).
Proof.
  assert (H : exclusive flux_world).
  { intros [H _]. vm_compute in H. discriminate H. }
  split; [exact H|].
  exact (proj1 (mode_flags_exclusive false (pub_jan false)
                  [ActivateRam; Ram2Disk; Disk2Ram; ActivateDisk; DeactivateDisk]
                  flux_world H)).
Defined.

Lemma ram2disk_disk2ram_preserve_series_witness :
  exists w1 w2,
    IOSequence_getseries (pub_jan false) flux_in_ram = (flux_in_ram, Ok flux_series) /\
    ram2disk (pub_jan false) flux_in_ram = (w1, Ok tt) /\
    disk2ram (pub_jan false) w1 = (w2, Ok tt) /\
    IOSequence_getseries (pub_jan false) w2 = (w2, Ok flux_series) /\
    ram_established (pub_jan false) w2 flux_series.
Proof.
  apply (proj1 (ram2disk_disk2ram_preserve_series (pub_jan false) flux_in_ram)).
  - split; [reflexivity|]. split; [reflexivity|]. split; [reflexivity|].
    split; [simpl; eauto|]. exists [2%nat]. split.
    + split; [reflexivity|]. simpl. eexists. split; [reflexivity|].
      split; reflexivity.
    + split; [vm_compute; reflexivity|]. reflexivity.
  - repeat constructor; unfold wf; vm_compute; intuition discriminate.
Defined.


Lemma missing_file_policy_witness :
  (exists w',
     activate_ram false (pub_jan false) obs_world = (w', Ok tt) /\
     ramflag_of w' = Some false /\ diskflag_of w' = Some false /\
     w_warnings w' = w_warnings obs_world
       ++ flag_warning (warnmissingobsfile (options (pub_jan false)))
            (WarnObsFlag false)) /\
  activate_ram false (pub_jan false) obs_world_malformed
  = (with_seq (with_fast (FastAccess.set_ramflag true)) obs_world_malformed,
     Raise ValueError) /\
  activate_disk false (pub_jan false) obs_world_malformed
  = (with_seq (with_fast (FastAccess.set_diskflag true)) obs_world_malformed,
     Raise ValueError).
Proof.
  split.
  - apply (proj1 (missing_file_policy false (pub_jan false) obs_world
                    "obs.npy"%string IOError
                    eq_refl (ex_intro _ "npy"%string eq_refl) eq_refl
                    (or_introl (conj eq_refl eq_refl)) eq_refl eq_refl)
                 eq_refl eq_refl).
  - apply (proj2 (proj2 (missing_file_policy false (pub_jan false)
                           obs_world_malformed "obs.npy"%string ValueError
                           eq_refl (ex_intro _ "npy"%string eq_refl) eq_refl
                           (or_intror eq_refl) eq_refl eq_refl))).
    right. split; [left|]; reflexivity.
Defined.

Lemma link_value_not_implemented_witness :
  getvalue link_world = (link_world, Raise NotImplementedError) /\
  (forall value, setvalue value link_world = (link_world, Raise NotImplementedError)) /\
  (forall args, Sequence_call args link_world
                = (link_world, Raise NotImplementedError)) /\
  (forall value, SubSequences_setattr value link_world
                 = (link_world, Raise NotImplementedError)).
Proof. apply (link_value_not_implemented link_world). reflexivity. Defined.

Lemma setshape_empty_0d_witness :
  (FastAccess.f_value (o_fast (w_seq flux_0d)) = PyFloat one /\
   FastAccess.f_value (o_fast (w_seq (setshape (pub_jan true) [] flux_0d).1))
   = PyFloat zero /\
   (setshape (pub_jan true) [] flux_0d).2 = Ok tt) /\
  (FastAccess.f_value (o_fast (w_seq obs_cell_one)) = PyDouble one /\
   FastAccess.f_value (o_fast (w_seq (setshape (pub_jan true) [] obs_cell_one).1))
   = PyDouble zero /\
   (setshape (pub_jan true) [] obs_cell_one).2 = Ok tt) /\
  setshape (pub_jan true) [] (world_of (new_seq ObsSeq 0))
  = (world_of (new_seq ObsSeq 0), Raise AttributeError).
Proof.
  split; [|split].
  - split; [reflexivity|].
    assert (Hn : o_NDIM (w_seq flux_0d) = 0%nat) by reflexivity.
    assert (Hc : o_class (w_seq flux_0d) <> LinkSeq) by discriminate.
    assert (Hnode : is_NodeSequence (o_class (w_seq flux_0d)) = true ->
              exists x, FastAccess.f_value (o_fast (w_seq flux_0d)) = PyDouble x)
      by (simpl; discriminate).
    destruct (proj1 (setshape_empty_0d (pub_jan true) flux_0d Hn) Hc Hnode)
      as (Hval & _ & Hok).
    split; [exact Hval|]. apply Hok. intros _. exists false.
    split; [reflexivity|discriminate].
  - split; [reflexivity|].
    assert (Hn : o_NDIM (w_seq obs_cell_one) = 0%nat) by reflexivity.
    assert (Hc : o_class (w_seq obs_cell_one) <> LinkSeq) by discriminate.
    assert (Hnode : is_NodeSequence (o_class (w_seq obs_cell_one)) = true ->
              exists x, FastAccess.f_value (o_fast (w_seq obs_cell_one)) = PyDouble x)
      by (intros _; exists one; reflexivity).
    destruct (proj1 (setshape_empty_0d (pub_jan true) obs_cell_one Hn) Hc Hnode)
      as (Hval & _ & Hok).
    split; [exact Hval|]. apply Hok. intros _. exists false.
    split; [reflexivity|discriminate].
  - apply (proj1 (proj2 (setshape_empty_0d (pub_jan true)
                           (world_of (new_seq ObsSeq 0)) eq_refl)));
      reflexivity.
Defined.


(** ** Streaming records through an open file *)
Section Streaming.
Import FastAccess.

Lemma start_of_next i s :
  0 <= i -> start_of (i + 1) s = (start_of i s + record_size (lens_of s))%nat.
Proof.
  intros Hi. unfold start_of. rewrite !seek_position_record. nia.
Qed.

Lemma loaddata_body_streams i fs s idx :
  0 <= i -> streamable i fs s \/ transient s ->
  exists idx' : Z,
    loaddata_body idx (reopened i s, fs) = ((loaded i fs s, fs), Ok idx').
Proof.
  intros Hi [Hs|Hs].
  - destruct Hs as (Hd & [b Hr] & Hlen & (p & c & Hp & Hc & Hfit) & Hv).
    unfold loaddata_body, reopened, loaded. rewrite Hd, Hp, Hc.
    cbn [set_file f_diskflag f_ramflag f_file getattr].
    rewrite Hd, Hr. cbn [getattr].
    unfold axis_lengths. cbn [set_file f_ndim f_lengths].
    rewrite decide_True by done. fold (lens_of s).
    unfold file_read. cbn [h_closed h_path h_pos]. rewrite Hc.
    fold (record_size (lens_of s)). fold (record_at i s c).
    assert (Hraw : length (record_at i s c) = record_size (lens_of s)).
    { unfold record_at. rewrite length_take, length_drop. lia. }
    rewrite Hraw. rewrite decide_True by done.
    cbn [set_file f_ndim]. unfold decoded, reopened. rewrite Hd, Hp.
    rewrite (start_of_next i s Hi).
    destruct (f_ndim s) eqn:En.
    + assert (Hl : length_tot (lens_of s) = 1%nat).
      { unfold lens_of. by rewrite En. }
      rewrite Hl. cbn [unpack_seq rbind]. unfold store_loaded.
      cbn [set_file f_ndim]. rewrite En. by eexists.
    + destruct Hv as (v & Hx & Hsh). cbn [rbind].
      unfold store_loaded. cbn [set_file f_ndim f_value]. rewrite En, Hx.
      unfold np_assign_all. rewrite Hsh.
      assert (Hne : exists l0 ls, lens_of s = l0 :: ls).
      { unfold lens_of. rewrite En. destruct (f_lengths s); [simpl in Hlen; lia|].
        by eexists _, _. }
      destruct Hne as (l0 & ls & Hls). rewrite Hls.
      cbn [np_source shape data]. rewrite decide_True by done.
      by eexists.
  - rewrite reopened_transient by done.
    assert (loaded i fs s = s) as ->.
    { destruct Hs as [Hd _]. unfold loaded. by rewrite Hd. }
    destruct Hs as [Hd Hr]. unfold loaddata_body. rewrite Hd, Hr. by eexists.
Qed.

End Streaming.

(** X1: after [openfiles(i)], [loaddata] reads record [i] of the file of
    every sequence in disk mode into its value and leaves the file where
    [openfiles(i+1)] would put it; the index passed to [loaddata] plays no
    part, so successive calls stream the records in order. *)
Theorem loaddata_streams_records i idx (fa : FastAccess.fastaccess) (fs : files) :
  0 <= i ->
  Forall (fun p => streamable i fs p.2 \/ transient p.2) fa ->
  FastAccess.loaddata idx (on_slots (reopened i) fa) fs
  = ((on_slots (loaded i fs) fa, fs), Ok tt).
Proof.
  intros Hi Hfa. unfold FastAccess.loaddata.
  eapply (for_names_on_slots _ (fun _ => True)
            (fun s => streamable i fs s \/ transient s)); [|exact Hfa|done].
  intros s idx0 _ Hs.
  destruct (loaddata_body_streams i fs s idx0 Hi Hs) as [idx' H]. by exists idx'.
Qed.

Lemma loaddata_streams_records_witness :
  FastAccess.loaddata 7 (on_slots (reopened 1) [("q"%string, q_disk)]) q_files
  = ((on_slots (loaded 1 q_files) [("q"%string, q_disk)], q_files), Ok tt).
Proof.
  apply (loaddata_streams_records 1 7 [("q"%string, q_disk)] q_files); [lia|].
  constructor; [|constructor]. left.
  split; [reflexivity|]. split; [simpl; eauto|]. split; [simpl; lia|].
  split; [|exact I].
  exists "q.bin"%string, (pack_seq [two; three]).
  split; [reflexivity|]. split; [reflexivity|]. vm_compute. lia.
Defined.

(** ** Writing one record *)
Section Saving.
Import FastAccess.

Lemma length_write_at pos raw c :
  length (write_at pos raw c) = Nat.max (length c) (pos + length raw).
Proof.
  unfold write_at.
  rewrite !length_app, length_take, length_app, length_replicate, length_drop. lia.
Qed.

Lemma write_at_outside pos raw c (k : nat) :
  (k < pos \/ pos + length raw <= k)%nat -> (k < length c)%nat ->
  write_at pos raw c !! k = c !! k.
Proof.
  intros Hk Hlt. unfold write_at.
  assert (Hlen : length (take pos (c ++ replicate (pos - length c) x00)) = pos).
  { rewrite length_take, length_app, length_replicate. lia. }
  destruct Hk as [Hk|Hk].
  - rewrite lookup_app_l by lia. rewrite lookup_take_lt by lia.
    by rewrite lookup_app_l by lia.
  - rewrite lookup_app_r by lia. rewrite Hlen.
    rewrite lookup_app_r by lia. rewrite lookup_drop. f_equal. lia.
Qed.

Lemma write_at_gap pos raw c (k : nat) :
  (length c <= k < pos)%nat -> write_at pos raw c !! k = Some x00.
Proof.
  intros Hk. unfold write_at.
  rewrite lookup_app_l
    by (rewrite length_take, length_app, length_replicate; lia).
  rewrite lookup_take_lt by lia. rewrite lookup_app_r by lia.
  apply lookup_replicate. split; [done|lia].
Qed.

Lemma write_at_only_record i fs s c :
  disk_ready fs s ->
  only_record_written i s c (write_at (start_of i s) (record_of s) c).
Proof.
  intros Hs. pose proof (length_record_of fs s Hs) as Hrec.
  split; [|split; [|split]].
  - by rewrite length_write_at, Hrec.
  - unfold record_at. rewrite <- Hrec. apply read_write_at.
  - intros k Hk Hlt. apply write_at_outside; [|done]. by rewrite Hrec.
  - intros k Hk. by apply write_at_gap.
Qed.

Lemma save_all_written i fa :
  forall fs,
  NoDup (disk_paths fa) ->
  Forall (fun p => disk_ready fs p.2 \/ transient p.2) fa ->
  Forall (fun p => forall path c,
            f_diskflag p.2 = Some true -> f_path p.2 = Some path ->
            fs !! path = Some c ->
            save_all i fa fs !! path
            = Some (write_at (start_of i p.2) (record_of p.2) c)) fa.
Proof.
  induction fa as [|[name s] fa IH]; intros fs Hnd Hfa; [constructor|].
  apply Forall_cons in Hfa as [Hs Hfa]. cbn [snd] in Hs.
  cbn [disk_paths] in Hnd. constructor.
  - cbn [snd]. intros path c Hd Hp Hc. rewrite Hd, Hp in Hnd.
    apply NoDup_cons in Hnd as [Hnotin _].
    unfold save_all. cbn [foldl snd]. fold (save_all i fa (save_to i s fs)).
    rewrite save_all_other by done.
    unfold save_to. by rewrite Hd, Hp, Hc, lookup_insert_eq.
  - unfold save_all. cbn [foldl snd]. fold (save_all i fa (save_to i s fs)).
    assert (Hnd' : NoDup (disk_paths fa)).
    { destruct (f_diskflag s) as [[|]|]; try done.
      destruct (f_path s); try done. by apply NoDup_cons in Hnd as [_ ?]. }
    assert (Hfa' : Forall (fun p => disk_ready (save_to i s fs) p.2 \/ transient p.2) fa).
    { eapply Forall_impl; [exact Hfa|]. intros [n s'] [H|H]; [left|by right].
      eapply disk_ready_files; [|exact H]. intros q. apply save_to_keeps. }
    specialize (IH (save_to i s fs) Hnd' Hfa').
    apply Forall_forall. intros [n s'] Hin path c Hd Hp Hc.
    rewrite Forall_forall in IH. apply (IH _ Hin); [done..|].
    cbn [snd] in *. rewrite save_to_other; [done|].
    intros p Hds Hps ->. rewrite Hds, Hps in Hnd.
    apply NoDup_cons in Hnd as [Hnotin _]. apply Hnotin.
    clear -Hin Hd Hp. induction fa as [|[m t] fa IH]; [by apply elem_of_nil in Hin|].
    apply elem_of_cons in Hin as [Heq|Hin].
    + injection Heq as <- <-. cbn [disk_paths]. rewrite Hd, Hp. by left.
    + cbn [disk_paths]. destruct (f_diskflag t) as [[|]|]; try by apply IH.
      destruct (f_path t); [right|]; by apply IH.
Qed.

End Saving.

(** X2: after [openfiles(i)], [savedata] writes the record of the value of
    every sequence in disk mode at record [i] of its own file and nothing
    else: the other bytes of the file and all other files are as before,
    and a file that was too short is filled up with zero bytes. *)
Theorem savedata_writes_one_record i idx (fa : FastAccess.fastaccess) (fs : files) :
  0 <= i -> NoDup (disk_paths fa) ->
  Forall (fun p => disk_ready fs p.2 \/ transient p.2) fa ->
  exists fs',
    FastAccess.savedata idx (on_slots (reopened i) fa) fs
    = ((on_slots (advanced i) fa, fs'), Ok tt) /\
    (forall q, q ∉ disk_paths fa -> fs' !! q = fs !! q) /\
    Forall (fun p => forall path c,
              FastAccess.f_diskflag p.2 = Some true ->
              FastAccess.f_path p.2 = Some path -> fs !! path = Some c ->
              exists c', fs' !! path = Some c' /\
                         only_record_written i p.2 c c') fa.
Proof.
  intros Hi Hnd Hfa. exists (save_all i fa fs).
  split; [by apply savedata_loop_disk|]. split; [intros q; apply save_all_other|].
  pose proof (save_all_written i fa fs Hnd Hfa) as Hw.
  rewrite Forall_forall in Hw, Hfa |- *. intros p Hin path c Hd Hp Hc.
  eexists. split; [by apply (Hw p Hin)|].
  destruct (Hfa p Hin) as [Hs|[Hd' _]]; [|congruence].
  by eapply write_at_only_record.
Qed.

Lemma savedata_writes_one_record_witness :
  exists fs',
    FastAccess.savedata 0 (on_slots (reopened 3) [("q"%string, q_disk)]) q_files
    = ((on_slots (advanced 3) [("q"%string, q_disk)], fs'), Ok tt) /\
    (forall q, q ∉ disk_paths [("q"%string, q_disk)] -> fs' !! q = q_files !! q) /\
    Forall (fun p => forall path c,
              FastAccess.f_diskflag p.2 = Some true ->
              FastAccess.f_path p.2 = Some path -> q_files !! path = Some c ->
              exists c', fs' !! path = Some c' /\
                         only_record_written 3 p.2 c c') [("q"%string, q_disk)].
Proof.
  apply (savedata_writes_one_record 3 0 [("q"%string, q_disk)] q_files); [lia| |].
  - simpl. apply NoDup_singleton.
  - constructor; [|constructor]. left.
    split; [reflexivity|]. split; [simpl; eauto|]. split; [simpl; lia|].
    split.
    + exists "q.bin"%string. split; [reflexivity|]. vm_compute. eauto.
    + exists one. split; [reflexivity|]. unfold wf, one. lia.
Defined.

(** ** Failing reads and opens *)
Section BackendErrors.
Import FastAccess.

Lemma openfiles_body_openable py3 i fs s :
  0 <= i -> openable fs s -> openfiles_body py3 i fs s = Ok (reopened i s).
Proof.
  intros Hi (b & Hd & Hb). unfold openfiles_body, reopened. rewrite Hd.
  cbn [getattr]. destruct b; [|done].
  destruct (Hb eq_refl) as [(p & Hp & [c Hc]) Hlen].
  rewrite Hp. unfold open_rbplus. rewrite Hc.
  unfold axis_lengths. rewrite decide_True by done.
  unfold file_seek. cbn [h_closed].
  rewrite decide_False
    by (pose proof (start_of_nonneg i s Hi); unfold lens_of in *; lia).
  done.
Qed.

End BackendErrors.

(** X3: [loaddata] on a file that ends before the record is complete
    raises [struct.error]; the value of the sequence and the files are
    untouched, and the sequences behind it are not visited. *)
Theorem loaddata_past_end_raises i idx name (s : FastAccess.slot)
    (rest : FastAccess.fastaccess) (fs : files) p c :
  FastAccess.f_diskflag s = Some true -> is_Some (FastAccess.f_ramflag s) ->
  (FastAccess.f_ndim s <= length (FastAccess.f_lengths s))%nat ->
  FastAccess.f_path s = Some p -> fs !! p = Some c ->
  (0 < FastAccess.record_size (lens_of s))%nat ->
  (length c < start_of i s + FastAccess.record_size (lens_of s))%nat ->
  exists s',
    FastAccess.loaddata idx ((name, reopened i s) :: rest) fs
    = (((name, s') :: rest, fs), Raise StructError) /\
    FastAccess.f_value s' = FastAccess.f_value s.
Proof.
  intros Hd [b Hr] Hlen Hp Hc Hpos Hshort.
  unfold FastAccess.loaddata. cbn [FastAccess.for_names].
  unfold FastAccess.loaddata_body, reopened. rewrite Hd, Hp.
  cbn [FastAccess.set_file FastAccess.f_diskflag FastAccess.f_ramflag
       FastAccess.f_file FastAccess.getattr].
  rewrite Hd, Hr. cbn [FastAccess.getattr].
  unfold FastAccess.axis_lengths.
  cbn [FastAccess.set_file FastAccess.f_ndim FastAccess.f_lengths].
  rewrite decide_True by done. fold (lens_of s).
  unfold file_read. cbn [h_closed h_path h_pos]. rewrite Hc.
  fold (FastAccess.record_size (lens_of s)).
  rewrite decide_False.
  - eexists. split; [reflexivity|]. done.
  - rewrite length_take, length_drop. unfold FastAccess.record_size in *. lia.
Qed.

Lemma loaddata_past_end_raises_witness :
  exists s',
    FastAccess.loaddata 2 [("q"%string, reopened 2 q_disk)] q_files
    = (([("q"%string, s')], q_files), Raise StructError) /\
    FastAccess.f_value s' = FastAccess.f_value q_disk.
Proof.
  apply (loaddata_past_end_raises 2 2 "q"%string q_disk [] q_files
           "q.bin"%string (pack_seq [two; three])).
  - reflexivity.
  - simpl. eauto.
  - simpl. lia.
  - reflexivity.
  - reflexivity.
  - vm_compute. lia.
  - vm_compute. lia.
Defined.

(** X4: [openfiles] raises [IOError] at the first sequence in disk mode
    whose file does not exist; the files of the sequences before it stay
    open, the sequences behind it are not visited. *)
Theorem openfiles_missing_file_raises py3 idx (pre : FastAccess.fastaccess) name
    (s : FastAccess.slot) (rest : FastAccess.fastaccess) (fs : files) p :
  0 <= idx -> Forall (fun q => openable fs q.2) pre ->
  FastAccess.f_diskflag s = Some true -> FastAccess.f_path s = Some p ->
  fs !! p = None ->
  FastAccess.openfiles py3 idx (pre ++ (name, s) :: rest) fs
  = ((on_slots (reopened idx) pre ++ (name, s) :: rest, fs), Raise IOError).
Proof.
  intros Hi Hpre Hd Hp Hc. unfold FastAccess.openfiles.
  induction Hpre as [|[n t] pre Ht _ IH].
  - cbn [app on_slots map FastAccess.for_names FastAccess.pure_body].
    unfold FastAccess.openfiles_body. rewrite Hd. cbn [FastAccess.getattr].
    rewrite Hp. unfold open_rbplus. by rewrite Hc.
  - cbn [app on_slots map FastAccess.for_names FastAccess.pure_body fst snd].
    cbn [snd] in Ht. rewrite (openfiles_body_openable py3 idx fs t Hi Ht).
    fold (on_slots (reopened idx) pre). by rewrite IH.
Qed.

Lemma openfiles_missing_file_raises_witness :
  FastAccess.openfiles true 1 ([("q"%string, q_disk)] ++ [("m"%string, m_disk)]) q_files
  = ((on_slots (reopened 1) [("q"%string, q_disk)] ++ [("m"%string, m_disk)], q_files),
     Raise IOError).
Proof.
  apply (openfiles_missing_file_raises true 1 [("q"%string, q_disk)] "m"%string
           m_disk [] q_files "m.bin"%string).
  - lia.
  - constructor; [|constructor]. exists true. split; [reflexivity|].
    intros _. split; [|simpl; lia].
    exists "q.bin"%string. split; [reflexivity|]. vm_compute. eauto.
  - reflexivity.
  - reflexivity.
  - vm_compute. reflexivity.
Defined.

(** ** The index of the step in objects of mixed modes *)
Section MixedModes.
Import FastAccess.

Lemma savedata_body_disk_idx i fs s idx :
  disk_ready fs s ->
  savedata_body idx (reopened i s, fs)
  = ((advanced i s, save_to i s fs), Ok (idx_after_range (f_ndim s) idx)).
Proof.
  intros Hs. pose proof (length_record_of fs s Hs) as Hrec.
  destruct Hs as (Hd & [b Hr] & Hlen & (p & Hp & [c Hc]) & Hv).
  unfold savedata_body, reopened, advanced, save_to. rewrite Hd, Hp, Hc.
  cbn [set_file f_diskflag f_ramflag f_file f_value f_ndim getattr].
  rewrite Hd, Hr. cbn [getattr].
  unfold axis_lengths. cbn [set_file f_ndim f_lengths].
  rewrite decide_True by done. fold (lens_of s).
  assert (Hpack : pack_actual (f_ndim s) (length_tot (lens_of s)) (f_value s)
                  = Ok (record_of s)).
  { unfold record_of. destruct (f_ndim s) eqn:En.
    - by destruct Hv as (x & -> & _).
    - destruct Hv as (v & -> & Hsh & Hwf & _). cbn [pack_actual].
      rewrite decide_True; [done|].
      by rewrite length_tot_size, Hwf, Hsh. }
  rewrite Hpack. unfold file_write. cbn [h_closed h_path h_pos].
  rewrite Hc. unfold write_at. rewrite Hrec. by cbn.
Qed.

Lemma reopened_not_disk i s : f_diskflag s = Some false -> reopened i s = s.
Proof. intros Hd. unfold reopened. by rewrite Hd. Qed.

Lemma save_to_not_disk i s fs : f_diskflag s = Some false -> save_to i s fs = fs.
Proof. intros Hd. unfold save_to. by rewrite Hd. Qed.

Lemma saved_not_disk i s : f_diskflag s = Some false -> saved i s = ram_saved i s.
Proof. intros Hd. unfold saved. by rewrite Hd. Qed.

Lemma ram_or_transient_not_disk i s :
  ram_ready i s \/ transient s -> f_diskflag s = Some false.
Proof. by intros [[Hd _]|[Hd _]]. Qed.

Lemma savedata_loop_mixed i fa :
  forall fs,
  Forall (fun p => (disk_ready fs p.2 /\ f_ndim p.2 = O) \/
                   ram_ready i p.2 \/ transient p.2) fa ->
  savedata i (on_slots (reopened i) fa) fs
  = ((on_slots (saved i) fa, save_all i fa fs), Ok tt).
Proof.
  unfold savedata, save_all.
  induction fa as [|[name s] fa IH]; intros fs Hfa; [done|].
  apply Forall_cons in Hfa as [Hs Hfa]. cbn [snd] in Hs.
  cbn [on_slots map for_names fst snd foldl].
  fold (on_slots (reopened i) fa). fold (on_slots (saved i) fa).
  assert (Hfa' : Forall (fun p => (disk_ready (save_to i s fs) p.2 /\ f_ndim p.2 = O) \/
                                  ram_ready i p.2 \/ transient p.2) fa).
  { eapply Forall_impl; [exact Hfa|]. intros [n s'] [[H Hn]|H]; [left|by right].
    split; [|done]. eapply disk_ready_files; [|exact H]. intros q. apply save_to_keeps. }
  destruct Hs as [[Hs Hn]|Hs].
  - rewrite (savedata_body_disk_idx i fs s i Hs), Hn. cbn [idx_after_range].
    rewrite (IH _ Hfa'). unfold saved. by rewrite (proj1 Hs).
  - pose proof (ram_or_transient_not_disk i s Hs) as Hd.
    rewrite reopened_not_disk by done.
    destruct (savedata_body_ram_or_transient i s fs i eq_refl Hs) as (idx' & -> & ->).
    rewrite save_to_not_disk in * by done.
    rewrite (IH _ Hfa'). by rewrite saved_not_disk.
Qed.

End MixedModes.

(** X5: in an object that mixes the modes, [savedata(i)] sets row [i] of
    the RAM array of every sequence in RAM mode and writes record [i] of
    every sequence in disk mode, when the sequences in disk mode are all
    scalars. *)
Theorem savedata_mixed_scalar_disk i (fa : FastAccess.fastaccess) (fs : files) :
  Forall (fun p => (disk_ready fs p.2 /\ FastAccess.f_ndim p.2 = O) \/
                   ram_ready i p.2 \/ transient p.2) fa ->
  FastAccess.savedata i (on_slots (reopened i) fa) fs
  = ((on_slots (saved i) fa, save_all i fa fs), Ok tt).
Proof. apply savedata_loop_mixed. Qed.

Lemma savedata_mixed_scalar_disk_witness :
  FastAccess.savedata 1
    (on_slots (reopened 1) [("q"%string, q_disk); ("w"%string, w_ram)]) q_files
  = ((on_slots (saved 1) [("q"%string, q_disk); ("w"%string, w_ram)],
      save_all 1 [("q"%string, q_disk); ("w"%string, w_ram)] q_files), Ok tt).
Proof.
  apply (savedata_mixed_scalar_disk 1 [("q"%string, q_disk); ("w"%string, w_ram)]
           q_files).
  constructor; [|constructor; [|constructor]].
  - left. split; [|reflexivity].
    split; [reflexivity|]. split; [simpl; eauto|]. split; [simpl; lia|].
    split.
    + exists "q.bin"%string. split; [reflexivity|]. vm_compute. eauto.
    + exists one. split; [reflexivity|]. unfold wf, one. lia.
  - right. left.
    split; [reflexivity|]. split; [reflexivity|].
    exists (zeros [3%nat; 2%nat]), 3%nat, [2%nat].
    split; [reflexivity|]. split; [reflexivity|]. split; [reflexivity|].
    split; [simpl; lia|]. split; [reflexivity|].
    eexists. split; [reflexivity|]. split; reflexivity.
Defined.

(** X6: the loop over the axes of a sequence in disk mode rebinds the
    index: behind an array-shaped sequence of [k+1] axes in disk mode,
    [savedata(i)] sets row [k] of the RAM array of a sequence in RAM mode,
    whatever [i] is. *)
Theorem savedata_index_rebound i n1 (s1 : FastAccess.slot) n2
    (s2 : FastAccess.slot) (fs : files) (k : nat) :
  disk_ready fs s1 -> FastAccess.f_ndim s1 = S k ->
  ram_ready (Z.of_nat k) s2 ->
  FastAccess.savedata i [(n1, reopened i s1); (n2, s2)] fs
  = (([(n1, advanced i s1); (n2, ram_saved (Z.of_nat k) s2)], save_to i s1 fs),
     Ok tt).
Proof.
  intros Hs1 Hn Hs2. unfold FastAccess.savedata. cbn [FastAccess.for_names].
  rewrite (savedata_body_disk_idx i fs s1 i Hs1), Hn.
  cbn [FastAccess.idx_after_range].
  destruct (savedata_body_ram_or_transient (Z.of_nat k) s2 (save_to i s1 fs)
              (Z.of_nat k) eq_refl (or_introl Hs2)) as (idx' & -> & ->).
  done.
Qed.

Lemma savedata_index_rebound_witness :
  FastAccess.savedata 2 [("m"%string, reopened 2 m_disk); ("w"%string, w_ram)] m_files
  = (([("m"%string, advanced 2 m_disk); ("w"%string, ram_saved 1 w_ram)],
      save_to 2 m_disk m_files), Ok tt).
Proof.
  apply (savedata_index_rebound 2 "m"%string m_disk "w"%string w_ram m_files 1).
  - split; [reflexivity|]. split; [simpl; eauto|]. split; [simpl; lia|].
    split.
    + exists "m.bin"%string. split; [reflexivity|]. vm_compute. eauto.
    + exists (zeros [2%nat; 3%nat]). split; [reflexivity|]. split; [reflexivity|].
      split; [reflexivity|]. repeat constructor; unfold wf, zero; lia.
  - reflexivity.
  - split; [reflexivity|]. split; [reflexivity|].
    exists (zeros [3%nat; 2%nat]), 3%nat, [2%nat].
    split; [reflexivity|]. split; [reflexivity|]. split; [reflexivity|].
    split; [simpl; lia|]. split; [reflexivity|].
    eexists. split; [reflexivity|]. split; reflexivity.
Defined.

(** ** Activating and deactivating the modes *)
Section Activation.

Lemma seriesshape_has_shape pub w row :
  has_shape (w_seq w) row ->
  seriesshape pub w = (w, Ok (tg_len (timegrids_init pub) :: row)).
Proof.
  intros Hrow. unfold seriesshape.
  by rewrite (bind_ok _ _ _ _ _ (getshape_has_shape w row Hrow)).
Qed.

Lemma store_series_ram values w :
  diskflag_of w = Some false -> ramflag_of w = Some true ->
  store_series values w
  = (with_seq (with_fast (FastAccess.set_array (Some values))) w, Ok tt).
Proof.
  intros Hd Hr.
  unfold store_series, getdiskflag, getramflag, IOSequence_setarray, bind, fast, gets.
  unfold ramflag_of, diskflag_of in *. rewrite Hd. cbn. by rewrite Hr.
Qed.

Lemma store_series_disk values w p :
  diskflag_of w = Some true -> o_filepath_int (w_seq w) = Some p ->
  store_series values w
  = (with_int (fun fs => <[p := tofile values]> fs) w, Ok tt).
Proof.
  intros Hd Hp.
  unfold store_series, getdiskflag, bind at 1 2, fast, gets.
  unfold diskflag_of in *. rewrite Hd. cbn [getflag ret].
  by apply save_int_run.
Qed.

Lemma store_series_off values w :
  diskflag_of w = Some false -> ramflag_of w = Some false ->
  store_series values w = (w, Raise (RuntimeError NoInternalData)).
Proof.
  intros Hd Hr.
  unfold store_series, getdiskflag, getramflag, bind, fast, gets.
  unfold ramflag_of, diskflag_of in *. rewrite Hd. cbn. by rewrite Hr.
Qed.

Lemma activate_ram_ok py3 pub w w1 :
  is_IOSequence (o_class (w_seq w)) = true ->
  IOSequence_activate_ram pub w = (w1, Ok tt) ->
  activate_ram py3 pub w = (w1, Ok tt).
Proof.
  intros Hio H. rewrite activate_ram_class.
  destruct (o_class (w_seq w)); try done;
    unfold Sim_activate_ram, Obs_activate_ram, try_except; by rewrite H.
Qed.

Lemma activate_disk_ok py3 pub w w1 :
  is_IOSequence (o_class (w_seq w)) = true ->
  IOSequence_activate_disk pub w = (w1, Ok tt) ->
  activate_disk py3 pub w = (w1, Ok tt).
Proof.
  intros Hio H. rewrite activate_disk_class.
  destruct (o_class (w_seq w)); try done;
    unfold Sim_activate_disk, Obs_activate_disk, try_except; by rewrite H.
Qed.

Lemma has_shape_refreshed o path row f :
  has_shape o row ->
  (forall s, FastAccess.f_value (f s) = FastAccess.f_value s) ->
  has_shape (with_fast (fun s => refreshed path row (o_NDIM o) (f s)) o) row.
Proof.
  intros [Hio Hrow] Hf. split; [exact Hio|]. cbn.
  unfold refreshed. destruct (o_NDIM o); [done|]. cbn. by rewrite Hf.
Qed.

(** The tail of [activate_ram] for a sequence that computes its series,
    once the disk mode is off. *)
Lemma activate_ram_tail pub w row :
  has_shape (w_seq w) row -> computed (w_seq w) -> diskflag_of w = Some false ->
  (setramflag true;;
   o <- self;
   (if loads_ext o then load_ext pub else zero_int pub);;
   update_fastaccess)%mon w
  = (ram_activated pub row w, Ok tt).
Proof.
  intros Hrow Hc Hd.
  unfold bind at 1, setramflag, upd_fast at 1, modify.
  set (w1 := with_seq _ w). unfold bind at 1, self, gets.
  change (loads_ext (w_seq w1)) with (loads_ext (w_seq w)). rewrite Hc.
  assert (Hrow1 : has_shape (w_seq w1) row) by exact Hrow.
  assert (Hz : zero_int pub w1
               = (with_seq (with_fast (FastAccess.set_array (Some (zero_series pub row)))) w1,
                  Ok tt)).
  { unfold zero_int. rewrite (bind_ok _ _ _ _ _ (seriesshape_has_shape pub w1 row Hrow1)).
    by apply store_series_ram. }
  rewrite (bind_ok _ _ _ _ _ Hz).
  set (w2 := with_seq _ w1).
  assert (Hrow2 : has_shape (w_seq w2) row) by exact Hrow.
  by rewrite (update_fastaccess_run w2 row false String.EmptyString Hd
                (fun H => ltac:(done)) Hrow2).
Qed.

Lemma activate_disk_tail pub w row p :
  has_shape (w_seq w) row -> computed (w_seq w) ->
  o_filepath_int (w_seq w) = Some p ->
  (setdiskflag true;;
   o <- self;
   (if loads_ext o then load_ext pub else zero_int pub);;
   update_fastaccess)%mon w
  = (disk_activated pub row p w, Ok tt).
Proof.
  intros Hrow Hc Hp.
  unfold bind at 1, setdiskflag, upd_fast at 1, modify.
  set (w1 := with_seq _ w). unfold bind at 1, self, gets.
  change (loads_ext (w_seq w1)) with (loads_ext (w_seq w)). rewrite Hc.
  assert (Hrow1 : has_shape (w_seq w1) row) by exact Hrow.
  assert (Hz : zero_int pub w1
               = (with_int (fun fs => <[p := tofile (zero_series pub row)]> fs) w1, Ok tt)).
  { unfold zero_int. rewrite (bind_ok _ _ _ _ _ (seriesshape_has_shape pub w1 row Hrow1)).
    by apply store_series_disk. }
  rewrite (bind_ok _ _ _ _ _ Hz).
  set (w2 := with_int _ w1).
  assert (Hrow2 : has_shape (w_seq w2) row) by exact Hrow.
  by rewrite (update_fastaccess_run w2 row true p eq_refl (fun _ => Hp) Hrow2).
Qed.

Lemma pack_seq_zeros n : pack_seq (replicate n zero) = replicate (8 * n) x00.
Proof.
  induction n as [|n IH]; [done|].
  replace (8 * S n)%nat with (8 + 8 * n)%nat by lia.
  rewrite replicate_add. cbn [replicate pack_seq]. by rewrite IH.
Qed.

Lemma wf_zeros shp : wf_array (zeros shp).
Proof. unfold wf_array, zeros, full. cbn. by rewrite length_replicate. Qed.



Lemma refreshed_flags path row ndim s :
  FastAccess.f_ramflag (refreshed path row ndim s) = FastAccess.f_ramflag s /\
  FastAccess.f_diskflag (refreshed path row ndim s) = FastAccess.f_diskflag s /\
  FastAccess.f_array (refreshed path row ndim s) = FastAccess.f_array s /\
  FastAccess.f_value (refreshed path row ndim s) = FastAccess.f_value s /\
  FastAccess.f_ndim (refreshed path row ndim s) = FastAccess.f_ndim s /\
  FastAccess.f_path (refreshed path row ndim s) = path.
Proof. unfold refreshed. by destruct ndim. Qed.

Lemma ram_activated_spec pub w row :
  has_shape (w_seq w) row -> diskflag_of w = Some false ->
  ramflag_of (ram_activated pub row w) = Some true /\
  diskflag_of (ram_activated pub row w) = Some false /\
  IOSequence_getseries pub (ram_activated pub row w)
  = (ram_activated pub row w, Ok (zero_series pub row)) /\
  has_shape (w_seq (ram_activated pub row w)) row /\
  FastAccess.f_value (o_fast (w_seq (ram_activated pub row w)))
  = FastAccess.f_value (o_fast (w_seq w)) /\
  w_int (ram_activated pub row w) = w_int w /\
  w_warnings (ram_activated pub row w) = w_warnings w.
Proof.
  intros Hrow Hd.
  assert (Hram : ramflag_of (ram_activated pub row w) = Some true).
  { unfold ramflag_of, ram_activated. cbn [w_seq with_seq o_fast with_fast].
    by rewrite (proj1 (refreshed_flags _ _ _ _)). }
  assert (Hdisk : diskflag_of (ram_activated pub row w) = Some false).
  { unfold diskflag_of, ram_activated in *. cbn [w_seq with_seq o_fast with_fast].
    by rewrite (proj1 (proj2 (refreshed_flags _ _ _ _))). }
  split; [exact Hram|]. split; [exact Hdisk|]. split; [|split; [|split]].
  - apply getseries_ram; [exact Hram|exact Hdisk|].
    unfold ram_activated. cbn [w_seq with_seq o_fast with_fast].
    by rewrite (proj1 (proj2 (proj2 (refreshed_flags _ _ _ _)))).
  - by apply (has_shape_refreshed (w_seq w) None row
                (fun s => FastAccess.set_array _ (FastAccess.set_ramflag true s))).
  - unfold ram_activated. cbn [w_seq with_seq o_fast with_fast].
    by rewrite (proj1 (proj2 (proj2 (proj2 (refreshed_flags _ _ _ _))))).
  - done.
Qed.

Lemma zero_series_established pub w row p :
  has_shape (w_seq w) row -> diskflag_of w = Some true ->
  ramflag_of w = Some false -> o_filepath_int (w_seq w) = Some p ->
  w_int w !! p = Some (tofile (zero_series pub row)) ->
  disk_established pub w (tofile (zero_series pub row)) /\
  IOSequence_getseries pub w = (w, Ok (zero_series pub row)).
Proof.
  intros Hrow Hd Hr Hp Hfile.
  assert (Hest : disk_established pub w (tofile (zero_series pub row))).
  { split; [exact Hd|]. split; [exact Hr|]. split.
    - exists p. by split.
    - exists row. split; [exact Hrow|].
      by rewrite length_tofile by apply wf_zeros. }
  split; [exact Hest|].
  rewrite (getseries_disk pub w _ row Hest Hrow). do 2 f_equal.
  apply series_of_tofile; [done|].
  apply Forall_forall. intros x Hx. apply elem_of_replicate in Hx as [-> _].
  unfold wf, zero. lia.
Qed.

Lemma disk_activated_spec pub w row p :
  has_shape (w_seq w) row -> ramflag_of w = Some false ->
  o_filepath_int (w_seq w) = Some p ->
  diskflag_of (disk_activated pub row p w) = Some true /\
  ramflag_of (disk_activated pub row p w) = Some false /\
  w_int (disk_activated pub row p w)
  = <[p := replicate (8 * size_of (tg_len (timegrids_init pub) :: row)) x00]> (w_int w) /\
  FastAccess.f_path (o_fast (w_seq (disk_activated pub row p w))) = Some p /\
  IOSequence_getseries pub (disk_activated pub row p w)
  = (disk_activated pub row p w, Ok (zero_series pub row)) /\
  has_shape (w_seq (disk_activated pub row p w)) row.
Proof.
  intros Hrow Hr Hp.
  assert (Hbytes : tofile (zero_series pub row)
                   = replicate (8 * size_of (tg_len (timegrids_init pub) :: row)) x00)
    by apply pack_seq_zeros.
  assert (Hrow1 : has_shape (w_seq (disk_activated pub row p w)) row)
    by (by apply (has_shape_refreshed (w_seq w) (Some p) row
                    (fun s => FastAccess.set_diskflag true s))).
  assert (Hd1 : diskflag_of (disk_activated pub row p w) = Some true).
  { unfold diskflag_of, disk_activated. cbn [w_seq with_seq with_int o_fast with_fast].
    by rewrite (proj1 (proj2 (refreshed_flags _ _ _ _))). }
  assert (Hr1 : ramflag_of (disk_activated pub row p w) = Some false).
  { unfold ramflag_of, disk_activated in *.
    cbn [w_seq with_seq with_int o_fast with_fast].
    by rewrite (proj1 (refreshed_flags _ _ _ _)). }
  split; [exact Hd1|]. split; [exact Hr1|]. split; [|split; [|split]].
  - change (w_int (disk_activated pub row p w))
      with (<[p := tofile (zero_series pub row)]> (w_int w)).
    by rewrite Hbytes.
  - unfold disk_activated. cbn [w_seq with_seq with_int o_fast with_fast].
    apply refreshed_flags.
  - apply (zero_series_established pub _ row p Hrow1 Hd1 Hr1 Hp).
    apply lookup_insert_eq.
  - exact Hrow1.
Qed.

End Activation.

(** X7: [activate_ram] on a sequence that computes its series, the disk
    mode being off, returns with the RAM flag set and the disk flag
    cleared; [series] is then the array of zeros of one block of the shape
    of the values per step of the initialisation period, and neither the
    values, the internal files nor the warnings changed. *)
Theorem activate_ram_zero_series py3 pub (w : world) (row : list nat) :
  has_shape (w_seq w) row -> computed (w_seq w) -> diskflag_of w = Some false ->
  exists w1,
    activate_ram py3 pub w = (w1, Ok tt) /\
    ramflag_of w1 = Some true /\ diskflag_of w1 = Some false /\
    IOSequence_getseries pub w1 = (w1, Ok (zero_series pub row)) /\
    has_shape (w_seq w1) row /\
    FastAccess.f_value (o_fast (w_seq w1)) = FastAccess.f_value (o_fast (w_seq w)) /\
    w_int w1 = w_int w /\ w_warnings w1 = w_warnings w.
Proof.
  intros Hrow Hc Hd. exists (ram_activated pub row w). split.
  - apply activate_ram_ok; [apply Hrow|]. unfold IOSequence_activate_ram.
    rewrite (bind_ok deactivate_disk _ w w tt)
      by (by rewrite deactivate_disk_eq, Hd).
    by apply activate_ram_tail.
  - by apply ram_activated_spec.
Qed.

Lemma activate_ram_zero_series_witness :
  exists w1,
    activate_ram false (pub_jan false) flux_world = (w1, Ok tt) /\
    ramflag_of w1 = Some true /\ diskflag_of w1 = Some false /\
    IOSequence_getseries (pub_jan false) w1
    = (w1, Ok (zero_series (pub_jan false) [2%nat])) /\
    has_shape (w_seq w1) [2%nat] /\
    FastAccess.f_value (o_fast (w_seq w1))
    = FastAccess.f_value (o_fast (w_seq flux_world)) /\
    w_int w1 = w_int flux_world /\ w_warnings w1 = w_warnings flux_world.
Proof.
  apply (activate_ram_zero_series false (pub_jan false) flux_world [2%nat]).
  - split; [reflexivity|]. eexists. split; [reflexivity|]. split; reflexivity.
  - reflexivity.
  - reflexivity.
Defined.

(** X8: [activate_disk] on a sequence that computes its series, the RAM
    mode being off, returns with the disk flag set and the RAM flag
    cleared; the internal file of the sequence then holds eight zero bytes
    for every value of every step of the initialisation period, [series]
    is the array of zeros, and the path of the file is handed to the
    fast-access object. *)
Theorem activate_disk_zero_file py3 pub (w : world) (row : list nat) (p : string) :
  has_shape (w_seq w) row -> computed (w_seq w) -> ramflag_of w = Some false ->
  o_filepath_int (w_seq w) = Some p ->
  exists w1,
    activate_disk py3 pub w = (w1, Ok tt) /\
    diskflag_of w1 = Some true /\ ramflag_of w1 = Some false /\
    w_int w1
    = <[p := replicate (8 * size_of (tg_len (timegrids_init pub) :: row)) x00]> (w_int w) /\
    FastAccess.f_path (o_fast (w_seq w1)) = Some p /\
    IOSequence_getseries pub w1 = (w1, Ok (zero_series pub row)) /\
    has_shape (w_seq w1) row.
Proof.
  intros Hrow Hc Hr Hp. exists (disk_activated pub row p w). split.
  - apply activate_disk_ok; [apply Hrow|]. unfold IOSequence_activate_disk.
    rewrite (bind_ok deactivate_ram _ w w tt)
      by (by rewrite deactivate_ram_eq, Hr).
    by apply activate_disk_tail.
  - by apply disk_activated_spec.
Qed.

Lemma activate_disk_zero_file_witness :
  exists w1,
    activate_disk false (pub_jan false) flux_world = (w1, Ok tt) /\
    diskflag_of w1 = Some true /\ ramflag_of w1 = Some false /\
    w_int w1
    = <["flux.bin"%string :=
          replicate (8 * size_of (tg_len (timegrids_init (pub_jan false)) :: [2%nat])) x00]>
        (w_int flux_world) /\
    FastAccess.f_path (o_fast (w_seq w1)) = Some "flux.bin"%string /\
    IOSequence_getseries (pub_jan false) w1
    = (w1, Ok (zero_series (pub_jan false) [2%nat])) /\
    has_shape (w_seq w1) [2%nat].
Proof.
  apply (activate_disk_zero_file false (pub_jan false) flux_world [2%nat]
           "flux.bin"%string).
  - split; [reflexivity|]. eexists. split; [reflexivity|]. split; reflexivity.
  - reflexivity.
  - reflexivity.
  - reflexivity.
Defined.

(** X9: activating the RAM mode of a sequence that computes its series
    while its series is on disk does not move the series: the internal
    file is deleted and [series] is the array of zeros. *)
Theorem activate_ram_discards_disk_series py3 pub (w : world) (raw : list byte)
    (row : list nat) (p : string) :
  disk_established pub w raw -> has_shape (w_seq w) row -> computed (w_seq w) ->
  o_filepath_int (w_seq w) = Some p ->
  exists w1,
    activate_ram py3 pub w = (w1, Ok tt) /\
    ramflag_of w1 = Some true /\ diskflag_of w1 = Some false /\
    w_int w1 = delete p (w_int w) /\
    IOSequence_getseries pub w1 = (w1, Ok (zero_series pub row)).
Proof.
  intros (Hd & Hr & (p' & Hp' & Hraw) & _) Hrow Hc Hp.
  assert (p' = p) as -> by congruence.
  set (w' := with_seq (with_fast (FastAccess.set_diskflag false))
               (with_int (fun fs => delete p fs) w)).
  assert (Hrow' : has_shape (w_seq w') row) by exact Hrow.
  assert (Hd' : diskflag_of w' = Some false) by reflexivity.
  exists (ram_activated pub row w'). split.
  - apply activate_ram_ok; [apply Hrow|]. unfold IOSequence_activate_ram.
    rewrite (bind_ok deactivate_disk _ w w' tt).
    + by apply activate_ram_tail.
    + rewrite deactivate_disk_eq, Hd.
      by rewrite (delseries_disk w p Hd Hp (ltac:(by eexists))).
  - destruct (ram_activated_spec pub w' row Hrow' Hd')
      as (H1 & H2 & H3 & _ & _ & H4 & _).
    by rewrite H4.
Qed.

Lemma activate_ram_discards_disk_series_witness :
  exists w1,
    activate_ram false (pub_jan false) (disk_activated (pub_jan false) [2%nat]
                                          "flux.bin"%string flux_world)
    = (w1, Ok tt) /\
    ramflag_of w1 = Some true /\ diskflag_of w1 = Some false /\
    w_int w1 = delete "flux.bin"%string
                 (w_int (disk_activated (pub_jan false) [2%nat]
                           "flux.bin"%string flux_world)) /\
    IOSequence_getseries (pub_jan false) w1
    = (w1, Ok (zero_series (pub_jan false) [2%nat])).
Proof.
  apply (activate_ram_discards_disk_series false (pub_jan false) _
           (tofile (zero_series (pub_jan false) [2%nat])) [2%nat] "flux.bin"%string).
  - split; [reflexivity|]. split; [reflexivity|]. split.
    + exists "flux.bin"%string. split; [reflexivity|]. vm_compute. reflexivity.
    + exists [2%nat]. split; [|vm_compute; reflexivity].
      split; [reflexivity|]. eexists. split; [reflexivity|]. split; reflexivity.
  - split; [reflexivity|]. eexists. split; [reflexivity|]. split; reflexivity.
  - reflexivity.
  - reflexivity.
Defined.

(** X10: activating the disk mode of a sequence that computes its series
    while its series is in RAM does not move the series: the RAM array is
    released, and the internal file and [series] hold zeros only. *)
Theorem activate_disk_discards_ram_series py3 pub (w : world) (a : ndarray)
    (row : list nat) (p : string) :
  ram_established pub w a -> has_shape (w_seq w) row -> computed (w_seq w) ->
  o_filepath_int (w_seq w) = Some p ->
  exists w1,
    activate_disk py3 pub w = (w1, Ok tt) /\
    diskflag_of w1 = Some true /\ ramflag_of w1 = Some false /\
    FastAccess.f_array (o_fast (w_seq w1)) = None /\
    w_int w1
    = <[p := replicate (8 * size_of (tg_len (timegrids_init pub) :: row)) x00]> (w_int w) /\
    IOSequence_getseries pub w1 = (w1, Ok (zero_series pub row)).
Proof.
  intros (Hr & Hd & Ha & _) Hrow Hc Hp.
  set (w' := with_seq (with_fast (FastAccess.set_ramflag false))
               (with_seq (with_fast (FastAccess.set_array None)) w)).
  assert (Hrow' : has_shape (w_seq w') row) by exact Hrow.
  assert (Hr' : ramflag_of w' = Some false) by reflexivity.
  assert (Hp' : o_filepath_int (w_seq w') = Some p) by exact Hp.
  exists (disk_activated pub row p w'). split.
  - apply activate_disk_ok; [apply Hrow|]. unfold IOSequence_activate_disk.
    rewrite (bind_ok deactivate_ram _ w w' tt).
    + by apply activate_disk_tail.
    + rewrite deactivate_ram_eq, Hr. by rewrite (delseries_ram w Hd Hr).
  - destruct (disk_activated_spec pub w' row p Hrow' Hr' Hp')
      as (H1 & H2 & H3 & _ & H5 & _).
    split; [exact H1|]. split; [exact H2|]. split; [|by split].
    unfold disk_activated. cbn [w_seq with_seq with_int o_fast with_fast].
    by rewrite (proj1 (proj2 (proj2 (refreshed_flags _ _ _ _)))).
Qed.

Lemma activate_disk_discards_ram_series_witness :
  exists w1,
    activate_disk false (pub_jan false) flux_in_ram = (w1, Ok tt) /\
    diskflag_of w1 = Some true /\ ramflag_of w1 = Some false /\
    FastAccess.f_array (o_fast (w_seq w1)) = None /\
    w_int w1
    = <["flux.bin"%string :=
          replicate (8 * size_of (tg_len (timegrids_init (pub_jan false)) :: [2%nat])) x00]>
        (w_int flux_in_ram) /\
    IOSequence_getseries (pub_jan false) w1
    = (w1, Ok (zero_series (pub_jan false) [2%nat])).
Proof.
  apply (activate_disk_discards_ram_series false (pub_jan false) flux_in_ram
           flux_series [2%nat] "flux.bin"%string).
  - split; [reflexivity|]. split; [reflexivity|]. split; [reflexivity|].
    split; [simpl; eauto|]. exists [2%nat]. split; [|split; reflexivity].
    split; [reflexivity|]. eexists. split; [reflexivity|]. split; reflexivity.
  - split; [reflexivity|]. eexists. split; [reflexivity|]. split; reflexivity.
  - reflexivity.
  - reflexivity.
Defined.

(** ** Deactivating a mode, and the series property *)
Section SeriesProperty.

Lemma getseries_off pub w :
  diskflag_of w = Some false -> ramflag_of w = Some false ->
  IOSequence_getseries pub w = (w, Raise (RuntimeError NoInternalData)).
Proof.
  intros Hd Hr.
  unfold IOSequence_getseries, getdiskflag, getramflag, bind, fast, gets.
  unfold ramflag_of, diskflag_of in *. rewrite Hd. cbn. by rewrite Hr.
Qed.

Lemma delseries_off w :
  diskflag_of w = Some false -> ramflag_of w = Some false ->
  IOSequence_delseries w = (w, Ok tt).
Proof.
  intros Hd Hr.
  unfold IOSequence_delseries, getdiskflag, getramflag, bind, fast, gets.
  unfold ramflag_of, diskflag_of in *. rewrite Hd. cbn. by rewrite Hr.
Qed.

Lemma delseries_missing w p :
  diskflag_of w = Some true -> o_filepath_int (w_seq w) = Some p ->
  w_int w !! p = None ->
  IOSequence_delseries w = (w, Raise OSError).
Proof.
  intros Hd Hp Hraw.
  unfold IOSequence_delseries, getdiskflag, bind at 1 2, fast, gets.
  unfold diskflag_of in *. rewrite Hd. cbn [getflag ret].
  unfold filepath_int, bind, self, gets. rewrite Hp. cbn [resolve ret].
  unfold os_remove, bind, get. by rewrite Hraw.
Qed.

Lemma setseries_run pub values w series series' :
  IOSequence_getseries pub w = (w, Ok series) ->
  np_assign_all series values = Ok series' ->
  IOSequence_setseries pub values w = store_series series' w.
Proof.
  intros Hget Hassign. unfold IOSequence_setseries.
  rewrite (bind_ok _ _ _ _ _ Hget). unfold bind at 1, lift. by rewrite Hassign.
Qed.

Lemma np_assign_all_same (series b : ndarray) :
  shape b = shape series -> shape series <> [] -> wf_array b ->
  np_assign_all series (PyArray b) = Ok b.
Proof.
  intros Hsh Hne Hwf. unfold np_assign_all.
  destruct (shape series) eqn:E; [done|]. cbn [np_source].
  rewrite decide_True by done. destruct b as [sb db]. cbn in *. by subst.
Qed.

End SeriesProperty.

(** X11: [deactivate_disk] on a series on disk deletes the internal file
    and clears the flag, and [deactivate_ram] on a series in RAM releases
    the array and clears the flag; with no mode left, reading [series]
    raises the error on missing internal data. *)
Theorem deactivate_releases_series pub (wd wr : world) (raw : list byte)
    (p : string) (a : ndarray) :
  disk_established pub wd raw -> o_filepath_int (w_seq wd) = Some p ->
  ram_established pub wr a ->
  (exists w1, deactivate_disk wd = (w1, Ok tt) /\
     w_int w1 = delete p (w_int wd) /\
     diskflag_of w1 = Some false /\ ramflag_of w1 = Some false /\
     IOSequence_getseries pub w1 = (w1, Raise (RuntimeError NoInternalData))) /\
  (exists w1, deactivate_ram wr = (w1, Ok tt) /\
     FastAccess.f_array (o_fast (w_seq w1)) = None /\
     w_int w1 = w_int wr /\
     diskflag_of w1 = Some false /\ ramflag_of w1 = Some false /\
     IOSequence_getseries pub w1 = (w1, Raise (RuntimeError NoInternalData))).
Proof.
  intros (Hd & Hr & (p' & Hp' & Hraw) & _) Hp (Hr' & Hd' & Ha & _).
  assert (p' = p) as -> by congruence.
  split.
  - eexists. split.
    + rewrite deactivate_disk_eq, Hd.
      by rewrite (delseries_disk wd p Hd Hp (ltac:(by eexists))).
    + split; [done|]. split; [done|]. split; [exact Hr|].
      by apply getseries_off.
  - eexists. split.
    + rewrite deactivate_ram_eq, Hr'. by rewrite (delseries_ram wr Hd' Hr').
    + split; [done|]. split; [done|]. split; [exact Hd'|]. split; [done|].
      by apply getseries_off.
Qed.

Lemma deactivate_releases_series_witness :
  (exists w1,
     deactivate_disk (disk_activated (pub_jan false) [2%nat] "flux.bin"%string flux_world)
     = (w1, Ok tt) /\
     w_int w1 = delete "flux.bin"%string
                  (w_int (disk_activated (pub_jan false) [2%nat] "flux.bin"%string
                            flux_world)) /\
     diskflag_of w1 = Some false /\ ramflag_of w1 = Some false /\
     IOSequence_getseries (pub_jan false) w1
     = (w1, Raise (RuntimeError NoInternalData))) /\
  (exists w1, deactivate_ram flux_in_ram = (w1, Ok tt) /\
     FastAccess.f_array (o_fast (w_seq w1)) = None /\
     w_int w1 = w_int flux_in_ram /\
     diskflag_of w1 = Some false /\ ramflag_of w1 = Some false /\
     IOSequence_getseries (pub_jan false) w1
     = (w1, Raise (RuntimeError NoInternalData))).
Proof.
  apply (deactivate_releases_series (pub_jan false)
           (disk_activated (pub_jan false) [2%nat] "flux.bin"%string flux_world)
           flux_in_ram (tofile (zero_series (pub_jan false) [2%nat]))
           "flux.bin"%string flux_series).
  - split; [reflexivity|]. split; [reflexivity|]. split.
    + exists "flux.bin"%string. split; [reflexivity|]. vm_compute. reflexivity.
    + exists [2%nat]. split; [|vm_compute; reflexivity].
      split; [reflexivity|]. eexists. split; [reflexivity|]. split; reflexivity.
  - reflexivity.
  - split; [reflexivity|]. split; [reflexivity|]. split; [reflexivity|].
    split; [simpl; eauto|]. exists [2%nat]. split; [|split; reflexivity].
    split; [reflexivity|]. eexists. split; [reflexivity|]. split; reflexivity.
Defined.

(** X12: when the internal file of a sequence in disk mode is gone,
    [deactivate_disk] raises [OSError] and changes nothing, so the disk
    flag stays set; [activate_ram] and [disk2ram] of a model sequence fail
    in the same way, [disk2ram] with the [IOError] of reading the file. *)
Theorem deactivate_disk_needs_file py3 pub (w : world) (p : string) :
  diskflag_of w = Some true -> o_filepath_int (w_seq w) = Some p ->
  w_int w !! p = None ->
  deactivate_disk w = (w, Raise OSError) /\
  (is_IOSequence (o_class (w_seq w)) = true ->
   is_NodeSequence (o_class (w_seq w)) = false ->
   activate_ram py3 pub w = (w, Raise OSError)) /\
  disk2ram pub w = (w, Raise IOError).
Proof.
  intros Hd Hp Hraw.
  assert (Hde : deactivate_disk w = (w, Raise OSError)).
  { rewrite deactivate_disk_eq, Hd. by rewrite (delseries_missing w p Hd Hp Hraw). }
  split; [exact Hde|]. split.
  - intros Hio Hnode. rewrite activate_ram_class.
    assert (H : IOSequence_activate_ram pub w = (w, Raise OSError)).
    { unfold IOSequence_activate_ram, bind at 1. by rewrite Hde. }
    by destruct (o_class (w_seq w)).
  - unfold disk2ram, bind at 1.
    unfold IOSequence_getseries, getdiskflag, bind at 1 2, fast, gets.
    unfold diskflag_of in Hd. rewrite Hd. cbn [getflag ret].
    unfold IOSequence_load_int, bind at 1 2 3, self, gets, filepath_int, bind at 1,
      self, gets. rewrite Hp. cbn [resolve ret]. unfold get. by rewrite Hraw.
Qed.

Lemma deactivate_disk_needs_file_witness :
  deactivate_disk (with_int (fun _ => ∅)
                     (disk_activated (pub_jan false) [2%nat] "flux.bin"%string flux_world))
  = (with_int (fun _ => ∅)
       (disk_activated (pub_jan false) [2%nat] "flux.bin"%string flux_world),
     Raise OSError).
Proof.
  apply (deactivate_disk_needs_file false (pub_jan false)
           (with_int (fun _ => ∅)
              (disk_activated (pub_jan false) [2%nat] "flux.bin"%string flux_world))
           "flux.bin"%string).
  - reflexivity.
  - reflexivity.
  - vm_compute. reflexivity.
Defined.

(** X13: while neither mode is active, reading [series] and assigning to
    it raise the error on missing internal data, and so do [ram2disk] and
    [disk2ram]; [del series] returns without doing anything; none of them
    changes the sequence. *)
Theorem series_needs_active_mode pub (w : world) (values : pyvalue) :
  diskflag_of w = Some false -> ramflag_of w = Some false ->
  IOSequence_getseries pub w = (w, Raise (RuntimeError NoInternalData)) /\
  IOSequence_setseries pub values w = (w, Raise (RuntimeError NoInternalData)) /\
  IOSequence_delseries w = (w, Ok tt) /\
  ram2disk pub w = (w, Raise (RuntimeError NoInternalData)) /\
  disk2ram pub w = (w, Raise (RuntimeError NoInternalData)).
Proof.
  intros Hd Hr. split; [by apply getseries_off|].
  split; [|split; [by apply delseries_off|]].
  - unfold IOSequence_setseries, bind at 1. by rewrite getseries_off.
  - split.
    + unfold ram2disk, bind at 1. by rewrite getseries_off.
    + unfold disk2ram, bind at 1. by rewrite getseries_off.
Qed.

Lemma series_needs_active_mode_witness :
  IOSequence_getseries (pub_jan false) flux_world
  = (flux_world, Raise (RuntimeError NoInternalData)) /\
  IOSequence_setseries (pub_jan false) (PyFloat one) flux_world
  = (flux_world, Raise (RuntimeError NoInternalData)) /\
  IOSequence_delseries flux_world = (flux_world, Ok tt) /\
  ram2disk (pub_jan false) flux_world
  = (flux_world, Raise (RuntimeError NoInternalData)) /\
  disk2ram (pub_jan false) flux_world
  = (flux_world, Raise (RuntimeError NoInternalData)).
Proof.
  apply (series_needs_active_mode (pub_jan false) flux_world (PyFloat one));
    reflexivity.
Defined.

(** X14: assigning an array of the shape of the series to [series] and
    reading [series] again gives the array back, in RAM mode and, for
    values that are 64-bit floats, in disk mode; the flags stay as they
    are. *)
Theorem setseries_getseries_roundtrip pub (w : world) (row : list nat)
    (b : ndarray) :
  has_shape (w_seq w) row ->
  shape b = tg_len (timegrids_init pub) :: row -> wf_array b ->
  ((exists a, ram_established pub w a) \/
   ((exists raw, disk_established pub w raw) /\ Forall wf (data b))) ->
  exists w1,
    IOSequence_setseries pub (PyArray b) w = (w1, Ok tt) /\
    IOSequence_getseries pub w1 = (w1, Ok b) /\
    ramflag_of w1 = ramflag_of w /\ diskflag_of w1 = diskflag_of w /\
    w_seq w1 = with_fast (fun s => if decide (ramflag_of w = Some true)
                                   then FastAccess.set_array (Some b) s else s)
                 (w_seq w).
Proof.
  intros Hrow Hsh Hwf [[a Hw]|[[raw Hw] Hall]].
  - destruct Hw as (Hr & Hd & Ha & _ & row' & Hrow' & Hsha & _).
    assert (row' = row) as -> by (by eapply has_shape_unique).
    pose proof (getseries_ram pub w a Hr Hd Ha) as Hget.
    assert (Hassign : np_assign_all a (PyArray b) = Ok b).
    { apply np_assign_all_same; [congruence| |done]. by rewrite Hsha. }
    rewrite (setseries_run pub _ w a b Hget Hassign).
    rewrite (store_series_ram b w Hd Hr).
    eexists. split; [reflexivity|]. split; [|split; [done|split; [done|]]].
    + by apply getseries_ram.
    + cbn [w_seq with_seq]. unfold with_fast. by rewrite decide_True.
  - pose proof (getseries_disk pub w raw row Hw Hrow) as Hget.
    destruct Hw as (Hd & Hr & (p & Hp & Hraw) & row' & Hrow' & Hlen).
    assert (Hassign : np_assign_all (series_of pub row raw) (PyArray b) = Ok b).
    { apply np_assign_all_same; [done|done|done]. }
    rewrite (setseries_run pub _ w _ b Hget Hassign).
    rewrite (store_series_disk b w p Hd Hp).
    set (w1 := with_int _ w).
    assert (Hest : disk_established pub w1 (tofile b)).
    { split; [exact Hd|]. split; [exact Hr|]. split.
      - exists p. split; [exact Hp|]. cbn. apply lookup_insert_eq.
      - exists row. split; [exact Hrow|]. by rewrite length_tofile, Hsh. }
    exists w1. split; [reflexivity|]. split; [|split; [done|split; [done|]]].
    + rewrite (getseries_disk pub w1 (tofile b) row Hest Hrow).
      by rewrite series_of_tofile.
    + cbn [w_seq with_int w1]. unfold w1, with_fast. cbn [w_seq with_int].
      rewrite decide_False by congruence. by destruct (w_seq w).
Qed.

Lemma setseries_getseries_roundtrip_witness :
  exists w1,
    IOSequence_setseries (pub_jan false) (PyArray flux_series)
      (ram_activated (pub_jan false) [2%nat] flux_world) = (w1, Ok tt) /\
    IOSequence_getseries (pub_jan false) w1 = (w1, Ok flux_series) /\
    ramflag_of w1 = ramflag_of (ram_activated (pub_jan false) [2%nat] flux_world) /\
    diskflag_of w1 = diskflag_of (ram_activated (pub_jan false) [2%nat] flux_world) /\
    w_seq w1
    = with_fast (fun s =>
        if decide (ramflag_of (ram_activated (pub_jan false) [2%nat] flux_world)
                   = Some true)
        then FastAccess.set_array (Some flux_series) s else s)
        (w_seq (ram_activated (pub_jan false) [2%nat] flux_world)).
Proof.
  apply (setseries_getseries_roundtrip (pub_jan false)
           (ram_activated (pub_jan false) [2%nat] flux_world) [2%nat] flux_series).
  - split; [reflexivity|]. eexists. split; [reflexivity|]. split; reflexivity.
  - reflexivity.
  - reflexivity.
  - left. exists (zero_series (pub_jan false) [2%nat]).
    split; [reflexivity|]. split; [reflexivity|]. split; [reflexivity|].
    split; [simpl; eauto|]. exists [2%nat]. split; [|split; reflexivity].
    split; [reflexivity|]. eexists. split; [reflexivity|]. split; reflexivity.
Defined.

(** ** Loading external series *)
Section Loading.

Lemma store_series_raise values w w' e :
  store_series values w = (w', Raise e) -> w' = w.
Proof.
  unfold store_series, getdiskflag, getramflag, IOSequence_save_int,
    IOSequence_setarray, filepath_int, bind, fast, self, gets, upd_fast, modify,
    getflag, resolve, raise, ret.
  destruct (FastAccess.f_diskflag (o_fast (w_seq w))) as [[|]|]; cbn.
  - destruct (o_filepath_int (w_seq w)); cbn; congruence.
  - destruct (FastAccess.f_ramflag (o_fast (w_seq w))) as [[|]|]; cbn; congruence.
  - congruence.
Qed.

Lemma load_ext_raise pub w w' e :
  load_ext pub w = (w', Raise e) -> w' = w.
Proof.
  unfold load_ext, bind at 1. rewrite (reads_eq load_file w reads_load_file).
  destruct (load_file w).2 as [[tg values]|e0]; [|congruence].
  unfold bind at 1. rewrite (reads_eq getshape w reads_getshape).
  destruct (getshape w).2 as [shp|e0]; [|congruence].
  destruct (decide (shp <> tail (shape values))); [unfold raise; congruence|].
  unfold bind.
  destruct (decide (stepsize (timegrids_init pub) <> stepsize tg));
    [unfold raise; congruence|].
  destruct (negb (tg_contains tg (timegrids_init pub))).
  - destruct (checkseries (options pub)); [unfold raise; congruence|].
    rewrite (reads_eq _ w (reads_adjust_short_series pub tg values)).
    destruct (adjust_short_series pub tg values w).2; [|congruence].
    apply store_series_raise.
  - unfold lift. destruct (np_getslice values _ _); [|congruence].
    apply store_series_raise.
Qed.

Lemma covering_slice pub tg values n row :
  let sim := timegrids_init pub in
  let T := tg_len sim in
  let idx0 := tg_index tg (firstdate sim) in
  0 < stepsize tg -> stepsize sim = stepsize tg ->
  lastdate sim = firstdate sim + Z.of_nat T * stepsize sim ->
  tg_contains tg sim = true -> idx0 + Z.of_nat T <= Z.of_nat n ->
  shape values = n :: row ->
  0 <= idx0 /\
  np_getslice values idx0 (tg_index tg (lastdate sim))
  = Ok {| shape := T :: row;
          data := take (T * size_of row)
                    (drop (Z.to_nat idx0 * size_of row) (data values)) |}.
Proof.
  intros sim T idx0 Hst Heq Hlast Hin Hfit Hvals.
  assert (H0 : 0 <= idx0).
  { unfold idx0, tg_index. apply Z.div_pos; [|done].
    unfold tg_contains in Hin. apply andb_prop in Hin as [Hin _].
    apply bool_decide_eq_true in Hin. fold sim in Hin. lia. }
  split; [exact H0|].
  fold sim. rewrite (tg_index_last sim tg Hst Heq Hlast). fold T idx0.
  unfold np_getslice. rewrite Hvals.
  assert (Hlo : py_clip n idx0 = Z.to_nat idx0)
    by (unfold py_clip; case_decide; lia).
  assert (Hhi : py_clip n (idx0 + Z.of_nat T) = (Z.to_nat idx0 + T)%nat)
    by (unfold py_clip; case_decide; lia).
  rewrite Hlo, Hhi.
  by replace (Z.to_nat idx0 + T - Z.to_nat idx0)%nat with T by lia.
Qed.

End Loading.

(** X15: when the external file has the step size of the simulation and
    covers the initialisation period, [load_ext] stores, for either
    setting of the option [checkseries], the rows of the file's values
    that belong to the period, and [adjust_short_series] would give the
    same series; in RAM mode [series] is that slice afterwards. *)
Theorem load_ext_covering_file pub (w : world) (tg : Timegrid) (values : ndarray)
    (n : nat) (row : list nat) (b : bool) :
  let sim := timegrids_init pub in
  let T := tg_len sim in
  let idx0 := tg_index tg (firstdate sim) in
  let slice := {| shape := T :: row;
                  data := take (T * size_of row)
                            (drop (Z.to_nat idx0 * size_of row) (data values)) |} in
  load_file w = (w, Ok (tg, values)) ->
  getshape w = (w, Ok row) -> shape values = n :: row ->
  0 < stepsize tg -> stepsize sim = stepsize tg ->
  lastdate sim = firstdate sim + Z.of_nat T * stepsize sim ->
  tg_contains tg sim = true -> idx0 + Z.of_nat T <= Z.of_nat n ->
  load_ext (with_checkseries b pub) w = store_series slice w /\
  adjust_short_series pub tg values w = (w, Ok slice) /\
  (diskflag_of w = Some false -> ramflag_of w = Some true ->
   exists w1, load_ext pub w = (w1, Ok tt) /\
              IOSequence_getseries pub w1 = (w1, Ok slice)).
Proof.
  intros sim T idx0 slice Hload Hshape Hvals Hst Heq Hlast Hin Hfit.
  destruct (covering_slice pub tg values n row Hst Heq Hlast Hin Hfit Hvals)
    as [H0 Hslice].
  fold sim T idx0 in H0, Hslice. fold slice in Hslice.
  assert (Hrun : forall pub', timegrids_init pub' = timegrids_init pub ->
            load_ext pub' w = store_series slice w).
  { intros pub' Hpub. unfold load_ext.
    rewrite (bind_ok _ _ _ _ _ Hload). rewrite (bind_ok _ _ _ _ _ Hshape).
    rewrite Hvals. cbn [tail].
    rewrite decide_False by (intros H; by apply H).
    rewrite Hpub. fold sim.
    rewrite decide_False by (intros H; by apply H).
    rewrite Hin. cbn [negb]. fold idx0. unfold bind, lift. by rewrite Hslice. }
  split; [by apply Hrun|]. split.
  - destruct (adjust_general pub tg values w n row Hst Heq Hlast Hshape Hvals)
      as (Hadj & _ & _).
    rewrite Hadj. fold sim T idx0. unfold slice. do 3 f_equal.
    pose proof (clamp_cases n idx0) as H1.
    pose proof (clamp_cases n (idx0 + Z.of_nat T)) as H2.
    pose proof (clamp_cases T (- idx0)) as H3.
    assert (Hpre : clamp T (- idx0) = 0%nat) by (clearbody T idx0; lia).
    assert (Hlo : clamp n idx0 = Z.to_nat idx0) by (clearbody T idx0; lia).
    assert (Hhi : clamp n (idx0 + Z.of_nat T) = (Z.to_nat idx0 + T)%nat)
      by (clearbody T idx0; lia).
    rewrite Hpre, Hlo, Hhi.
    replace (Z.to_nat idx0 + T - Z.to_nat idx0)%nat with T by lia.
    replace (T - 0 - T)%nat with 0%nat by lia.
    cbn [Nat.mul replicate app]. by rewrite app_nil_r.
  - intros Hd Hr. rewrite (Hrun pub eq_refl), (store_series_ram slice w Hd Hr).
    eexists. split; [reflexivity|]. by apply getseries_ram.
Qed.

Lemma load_ext_covering_file_witness :
  let pub := pub_jan false in
  let sim := timegrids_init pub in
  let T := tg_len sim in
  let idx0 := tg_index (daily 8 17) (firstdate sim) in
  let slice := {| shape := T :: [2%nat];
                  data := take (T * size_of [2%nat])
                            (drop (Z.to_nat idx0 * size_of [2%nat])
                               (data long_series)) |} in
  load_ext (with_checkseries true pub) flux_with_file
  = store_series slice flux_with_file /\
  adjust_short_series pub (daily 8 17) long_series flux_with_file
  = (flux_with_file, Ok slice) /\
  (diskflag_of flux_with_file = Some false ->
   ramflag_of flux_with_file = Some true ->
   exists w1, load_ext pub flux_with_file = (w1, Ok tt) /\
              IOSequence_getseries pub w1 = (w1, Ok slice)).
Proof.
  apply (load_ext_covering_file (pub_jan false) flux_with_file (daily 8 17)
           long_series 9 [2%nat] true).
  - vm_compute. reflexivity.
  - reflexivity.
  - reflexivity.
  - simpl. lia.
  - reflexivity.
  - vm_compute. reflexivity.
  - vm_compute. reflexivity.
  - vm_compute. discriminate.
Defined.

(** X16: [load_ext] stores the series or changes nothing: when it raises,
    for whatever reason, the sequence, the files and the warnings are as
    they were. *)
Theorem load_ext_failure_changes_nothing pub (w : world) (e : exn) :
  (load_ext pub w).2 = Raise e -> (load_ext pub w).1 = w.
Proof.
  intros H. destruct (load_ext pub w) as [w' r] eqn:E. cbn [fst snd] in *.
  subst r. by apply (load_ext_raise pub w w' e).
Qed.

Lemma load_ext_failure_changes_nothing_witness :
  (load_ext (pub_jan false) input_world).1 = input_world.
Proof.
  apply (load_ext_failure_changes_nothing (pub_jan false) input_world IOError).
  vm_compute. reflexivity.
Defined.

(** X17: an activation of the RAM mode of an input sequence that fails in
    [load_ext] is not undone: [activate_ram] raises the error of
    [load_ext] and leaves the RAM flag set, and with no RAM array at hand
    reading [series] then raises the error on the RAM array. *)
Theorem failed_activation_keeps_flag py3 pub (w : world) (e : exn) :
  o_class (w_seq w) = InputSeq -> diskflag_of w = Some false ->
  FastAccess.f_array (o_fast (w_seq w)) = None ->
  (load_ext pub (with_seq (with_fast (FastAccess.set_ramflag true)) w)).2 = Raise e ->
  exists w1,
    activate_ram py3 pub w = (w1, Raise e) /\
    w1 = with_seq (with_fast (FastAccess.set_ramflag true)) w /\
    ramflag_of w1 = Some true /\
    IOSequence_getseries pub w1 = (w1, Raise (RuntimeError ArrayNotSet)).
Proof.
  intros Hc Hd Ha He.
  set (w1 := with_seq (with_fast (FastAccess.set_ramflag true)) w) in *.
  exists w1. split; [|split; [done|split; [done|]]].
  - rewrite activate_ram_class, Hc. unfold IOSequence_activate_ram.
    rewrite (bind_ok deactivate_disk _ w w tt)
      by (by rewrite deactivate_disk_eq, Hd).
    unfold bind at 1, setramflag, upd_fast at 1, modify. fold w1.
    unfold bind at 1, self, gets.
    assert (Hl : loads_ext (w_seq w1) = true)
      by (unfold loads_ext; cbn; by rewrite Hc).
    rewrite Hl. unfold bind.
    destruct (load_ext pub w1) as [w' r] eqn:E. cbn [snd] in He. subst r.
    by rewrite (load_ext_raise pub w1 w' e E).
  - unfold IOSequence_getseries, getdiskflag, getramflag, IOSequence_getarray,
      bind, fast, gets.
    unfold diskflag_of in Hd. cbn. rewrite Hd. cbn. by rewrite Ha.
Qed.

Lemma failed_activation_keeps_flag_witness :
  exists w1,
    activate_ram true (pub_jan false) input_world = (w1, Raise IOError) /\
    w1 = with_seq (with_fast (FastAccess.set_ramflag true)) input_world /\
    ramflag_of w1 = Some true /\
    IOSequence_getseries (pub_jan false) w1
    = (w1, Raise (RuntimeError ArrayNotSet)).
Proof.
  apply (failed_activation_keeps_flag true (pub_jan false) input_world IOError).
  - reflexivity.
  - reflexivity.
  - reflexivity.
  - vm_compute. reflexivity.
Defined.

(** ** Shapes and values *)
Section ShapesAndValues.

Lemma getvalue_array w n v :
  holds_values (o_class (w_seq w)) = true -> o_NDIM (w_seq w) = S n ->
  FastAccess.f_value (o_fast (w_seq w)) = PyArray v ->
  getvalue w = (w, Ok (PyArray v)).
Proof.
  intros Hc Hn Hv.
  unfold getvalue, Sequence_getvalue, bind, self, gets.
  destruct (o_class (w_seq w)); try done; cbn; by rewrite Hv, Hn.
Qed.

Lemma getshape_of_array w n v :
  holds_values (o_class (w_seq w)) = true -> o_NDIM (w_seq w) = S n ->
  FastAccess.f_value (o_fast (w_seq w)) = PyArray v ->
  getshape w = (w, Ok (shape v)).
Proof.
  intros Hc Hn Hv.
  assert (H : Sequence_getshape w = (w, Ok (shape v))).
  { unfold Sequence_getshape, bind at 1, self, gets. rewrite Hn.
    by rewrite (bind_ok _ _ _ _ _ (getvalue_array w n v Hc Hn Hv)). }
  unfold getshape, bind, self, gets.
  by destruct (o_class (w_seq w)).
Qed.

Lemma Sequence_setshape_run pub shp w n :
  o_NDIM (w_seq w) = S n -> length shp = S n ->
  Sequence_setshape pub shp w
  = (with_seq (with_fast (FastAccess.set_value
                            (PyArray (full shp (initvalue pub (w_seq w)))))) w,
     Ok tt).
Proof.
  intros Hn Hlen. unfold Sequence_setshape, bind, self, gets. rewrite Hn.
  cbn [full shape]. by rewrite decide_True.
Qed.


Lemma IOSequence_setshape_run pub shp w n :
  is_IOSequence (o_class (w_seq w)) = true ->
  o_NDIM (w_seq w) = S n -> length shp = S n -> diskflag_of w = Some false ->
  IOSequence_setshape pub shp w
  = (with_seq (with_fast (fun s =>
       refreshed None shp (S n)
         (FastAccess.set_value (PyArray (full shp (initvalue pub (w_seq w)))) s))) w,
     Ok tt).
Proof.
  intros Hio Hn Hlen Hd. unfold IOSequence_setshape.
  rewrite (bind_ok _ _ _ _ _ (Sequence_setshape_run pub shp w n Hn Hlen)).
  set (w1 := with_seq _ w).
  assert (Hrow1 : has_shape (w_seq w1) shp).
  { split; [exact Hio|]. cbn. rewrite Hn. eexists. by split. }
  rewrite (update_fastaccess_run w1 shp false String.EmptyString Hd
             (fun H => ltac:(done)) Hrow1).
  cbn [w_seq w1 with_seq with_fast o_NDIM]. by rewrite Hn.
Qed.

Lemma full_of_keeps_shape shp value a : full_of shp value = Ok a -> shape a = shp.
Proof. apply full_of_shape. Qed.

(** *** Broadcasting *)

Lemma concat_replicate_mul {A} (m k : nat) (xs : list A) :
  concat (replicate m (concat (replicate k xs))) = concat (replicate (m * k) xs).
Proof.
  induction m as [|m IH]; [done|].
  cbn [replicate concat Nat.mul]. by rewrite IH, replicate_add, concat_app.
Qed.

Lemma concat_chunks_from (r n s : nat) (d : list float64) :
  concat (map (fun k => take r (drop (k * r) d)) (seq s n))
  = take (n * r) (drop (s * r) d).
Proof.
  revert s. induction n as [|n IH]; intros s; [by rewrite take_0|].
  cbn [seq map concat]. rewrite IH.
  replace (S s * r)%nat with (s * r + r)%nat by lia.
  rewrite <- drop_drop. by rewrite take_take_drop.
Qed.

Lemma concat_chunks (r n : nat) (d : list float64) :
  length d = (n * r)%nat -> concat (chunks r n d) = d.
Proof.
  intros Hd. unfold chunks. rewrite concat_chunks_from. cbn [Nat.mul drop].
  rewrite <- Hd. apply firstn_all.
Qed.

Lemma expand_same (ts : list nat) (d : list float64) :
  length d = size_of ts -> expand ts ts d = d.
Proof.
  revert d. induction ts as [|n ts IH]; intros d Hd; [done|].
  cbn [expand]. cbn [size_of foldr] in Hd. fold (size_of ts) in Hd.
  case_decide as Hn.
  - subst n. cbn [replicate concat]. rewrite app_nil_r. apply IH. lia.
  - rewrite <- (concat_chunks (size_of ts) n d) at 2 by exact Hd.
    f_equal. unfold chunks. rewrite map_map. apply map_ext_in.
    intros k Hk%in_seq. apply IH.
    rewrite length_take, length_drop. nia.
Qed.

Lemma strip_ones_replicate (k : nat) (ss : list nat) :
  strip_ones k (replicate k 1%nat ++ ss) = ss.
Proof. induction k as [|k IH]; [by destruct ss|exact IH]. Qed.

Lemma compatible_same (ts : list nat) : compatible ts ts = true.
Proof.
  induction ts as [|n ts IH]; [done|]. cbn [compatible].
  rewrite (bool_decide_true (n = n)) by done. by rewrite orb_true_r, IH.
Qed.

Lemma compatible_row (ts : list nat) (n : nat) :
  compatible (replicate (length ts) 1%nat ++ [n]) (ts ++ [n]) = true.
Proof.
  induction ts as [|m ts IH]; [apply (compatible_same [n])|].
  cbn [length replicate app compatible]. by rewrite IH.
Qed.

Lemma expand_row (ts : list nat) (xs : list float64) :
  expand (replicate (length ts) 1%nat ++ [length xs]) (ts ++ [length xs]) xs
  = concat (replicate (size_of ts) xs).
Proof.
  induction ts as [|m ts IH].
  - cbn [length replicate app size_of foldr concat]. rewrite app_nil_r.
    apply expand_same. cbn. lia.
  - cbn [length replicate app expand]. rewrite decide_True by done.
    rewrite IH. apply concat_replicate_mul.
Qed.

(** An array of the shape asked for, also behind leading axes of length
    one, is taken as it is. *)
Lemma broadcast_stripped (a : ndarray) (k : nat) (shp : list nat) :
  shape a = replicate k 1%nat ++ shp -> length (data a) = size_of shp ->
  broadcast a shp = Ok {| shape := shp; data := data a |}.
Proof.
  intros Hs Hd. unfold broadcast. rewrite Hs.
  rewrite length_app, length_replicate.
  replace (k + length shp - length shp)%nat with k by lia.
  rewrite strip_ones_replicate. rewrite decide_True by lia.
  rewrite Nat.sub_diag. cbn [replicate app].
  by rewrite compatible_same, expand_same.
Qed.

(** A row is repeated along every leading axis. *)
Lemma broadcast_row (xs : list float64) (ts : list nat) :
  broadcast {| shape := [length xs]; data := xs |} (ts ++ [length xs])
  = Ok {| shape := ts ++ [length xs];
          data := concat (replicate (size_of ts) xs) |}.
Proof.
  unfold broadcast. cbn [shape data]. rewrite length_app. cbn [length].
  replace (1 - (length ts + 1))%nat with 0%nat by lia. cbn [strip_ones].
  change (length [length xs]) with 1%nat.
  rewrite decide_True by lia.
  replace (length ts + 1 - 1)%nat with (length ts) by lia.
  by rewrite compatible_row, expand_row.
Qed.

Lemma setvalue_array_run w value n v :
  holds_values (o_class (w_seq w)) = true -> o_NDIM (w_seq w) = S n ->
  FastAccess.f_value (o_fast (w_seq w)) = PyArray v ->
  setvalue value w
  = match full_of (shape v) value with
    | Ok a => (with_seq (with_fast (FastAccess.set_value (PyArray a))) w, Ok tt)
    | Raise e => (w, Raise e)
    end.
Proof.
  intros Hc Hn Hv.
  assert (H : Sequence_setvalue value w
              = match full_of (shape v) value with
                | Ok a => (with_seq (with_fast (FastAccess.set_value (PyArray a))) w,
                           Ok tt)
                | Raise e => (w, Raise e)
                end).
  { unfold Sequence_setvalue, bind at 1, coerce, bind at 1, self, gets.
    rewrite Hn. rewrite (bind_ok _ _ _ _ _ (getshape_of_array w n v Hc Hn Hv)).
    by destruct (full_of (shape v) value). }
  unfold setvalue, bind, self, gets. by destruct (o_class (w_seq w)).
Qed.

Lemma setshape_array_run pub w shp n :
  holds_values (o_class (w_seq w)) = true -> o_NDIM (w_seq w) = S n ->
  (is_IOSequence (o_class (w_seq w)) = true -> diskflag_of w = Some false) ->
  length shp = S n ->
  exists w1,
    setshape pub shp w = (w1, Ok tt) /\
    FastAccess.f_value (o_fast (w_seq w1))
    = PyArray (full shp (initvalue pub (w_seq w))) /\
    (o_class (w_seq w1) = o_class (w_seq w) /\ o_NDIM (w_seq w1) = S n /\
     loads_ext (w_seq w1) = loads_ext (w_seq w) /\
     o_filepath_int (w_seq w1) = o_filepath_int (w_seq w)) /\
    (FastAccess.f_ndim (o_fast (w_seq w1)) = FastAccess.f_ndim (o_fast (w_seq w)) /\
     ramflag_of w1 = ramflag_of w /\ diskflag_of w1 = diskflag_of w) /\
    (is_IOSequence (o_class (w_seq w)) = true ->
     FastAccess.f_length (o_fast (w_seq w1)) = size_of shp /\
     take (S n) (FastAccess.f_lengths (o_fast (w_seq w1))) = shp) /\
    (o_class (w_seq w) = StateSeq ->
     o_old (w_seq w1) = PyArray (full shp (initvalue pub (w_seq w)))).
Proof.
  intros Hc Hn Hflag Hlen.
  set (v := full shp (initvalue pub (w_seq w))).
  set (w2 := with_seq (with_fast (fun s =>
               refreshed None shp (S n) (FastAccess.set_value (PyArray v) s))) w).
  assert (Hio_run : is_IOSequence (o_class (w_seq w)) = true ->
            IOSequence_setshape pub shp w = (w2, Ok tt)).
  { intros Hio. by apply IOSequence_setshape_run; [| | |apply Hflag]. }
  assert (Hlens : FastAccess.f_length (o_fast (w_seq w2)) = size_of shp /\
                  take (S n) (FastAccess.f_lengths (o_fast (w_seq w2))) = shp).
  { unfold w2, refreshed. cbn. rewrite <- Hlen, firstn_all. split; [done|].
    by rewrite take_app_length. }
  assert (Hv2 : FastAccess.f_value (o_fast (w_seq w2)) = PyArray v) by done.
  destruct (is_IOSequence (o_class (w_seq w))) eqn:Hio.
  - assert (Hcases : o_class (w_seq w) = StateSeq \/ o_class (w_seq w) <> StateSeq)
      by (destruct (o_class (w_seq w)); (by left) || (by right)).
    destruct Hcases as [Hst|Hst].
    + exists (with_seq (with_old (PyArray v)) w2).
      split; [|split; [done|split; [done|split; [done|split; by intros _]]]].
      unfold setshape, bind at 1, self, gets. rewrite Hst.
      unfold StateSequence_setshape.
      rewrite (bind_ok _ _ _ _ _ (Hio_run eq_refl)).
      unfold bind at 1, self, gets.
      change (o_NDIM (w_seq w2)) with (o_NDIM (w_seq w)). rewrite Hn.
      by rewrite (bind_ok _ _ _ _ _ (getvalue_array w2 n v Hc Hn Hv2)).
    + exists w2.
      split; [|split; [done|split; [done|split; [done|split; [by intros _|done]]]]].
      unfold setshape, bind at 1, self, gets.
      destruct (o_class (w_seq w)); try done; by apply Hio_run.
  - exists (with_seq (with_fast (FastAccess.set_value (PyArray v))) w).
    split; [|split; [done|split; [done|split; [done|split; [done|]]]]].
    + unfold setshape, bind at 1, self, gets.
      destruct (o_class (w_seq w)); try done;
        by apply (Sequence_setshape_run pub shp w n).
    + intros Hst. by rewrite Hst in Hio.
Qed.

End ShapesAndValues.



(** X19: assigning to the values of an array-shaped sequence never
    changes its shape.  A single number is stored as an array of the
    shape the sequence has, filled with the number; an array of that
    shape, also one behind leading axes of length one, is stored with its
    items as they are; a row as long as the last axis is stored repeated
    along every axis before it.  Whatever is assigned, either an array
    of the shape the sequence has is stored, and the shape read
    afterwards is the one before, or the assignment raises and changes
    nothing. *)
Theorem setvalue_keeps_shape (w : world) (n : nat) (v : ndarray) :
  holds_values (o_class (w_seq w)) = true -> o_NDIM (w_seq w) = S n ->
  FastAccess.f_value (o_fast (w_seq w)) = PyArray v ->
  (forall x,
     setvalue (ArgFloat x) w
     = (with_seq (with_fast (FastAccess.set_value (PyArray (full (shape v) x)))) w,
        Ok tt)) /\
  (forall a k,
     shape a = replicate k 1%nat ++ shape v ->
     length (data a) = size_of (shape v) ->
     setvalue (ArgArray a) w
     = (with_seq (with_fast (FastAccess.set_value
                               (PyArray {| shape := shape v; data := data a |}))) w,
        Ok tt)) /\
  (forall xs ts,
     shape v = ts ++ [length xs] ->
     setvalue (ArgSeq xs) w
     = (with_seq (with_fast (FastAccess.set_value
          (PyArray {| shape := shape v;
                      data := concat (replicate (size_of ts) xs) |}))) w,
        Ok tt)) /\
  (forall value,
     (exists a,
        setvalue value w
        = (with_seq (with_fast (FastAccess.set_value (PyArray a))) w, Ok tt) /\
        shape a = shape v /\
        getshape (setvalue value w).1 = ((setvalue value w).1, Ok (shape v))) \/
     (exists e, setvalue value w = (w, Raise e))).
Proof.
  intros Hc Hn Hv. repeat split.
  - intros x. by rewrite (setvalue_array_run w _ n v Hc Hn Hv).
  - intros a k Hs Hd. rewrite (setvalue_array_run w _ n v Hc Hn Hv).
    cbn [full_of]. by rewrite (broadcast_stripped a k (shape v) Hs Hd).
  - intros xs ts Hs. rewrite (setvalue_array_run w _ n v Hc Hn Hv).
    cbn [full_of]. rewrite Hs. by rewrite broadcast_row.
  - intros value. rewrite (setvalue_array_run w value n v Hc Hn Hv).
    destruct (full_of (shape v) value) as [a|e] eqn:Ef.
    + left. exists a. split; [done|].
      pose proof (full_of_keeps_shape _ _ _ Ef) as Hsh. split; [done|].
      cbn [fst]. rewrite <- Hsh. by apply (getshape_of_array _ n a).
    + right. by exists e.
Qed.

Lemma setvalue_keeps_shape_witness :
  setvalue (ArgFloat two) flux_2x3
  = (with_seq (with_fast (FastAccess.set_value
                            (PyArray (full [2%nat; 3%nat] two)))) flux_2x3,
     Ok tt) /\
  setvalue (ArgArray {| shape := [1%nat; 2%nat; 3%nat];
                        data := [one; two; three; three; two; one] |}) flux_2x3
  = (with_seq (with_fast (FastAccess.set_value
       (PyArray {| shape := [2%nat; 3%nat];
                   data := [one; two; three; three; two; one] |}))) flux_2x3,
     Ok tt) /\
  setvalue (ArgSeq [one; two; three]) flux_2x3
  = (with_seq (with_fast (FastAccess.set_value
       (PyArray {| shape := [2%nat; 3%nat];
                   data := [one; two; three; one; two; three] |}))) flux_2x3,
     Ok tt) /\
  getshape (setvalue (ArgSeq [one; two; three]) flux_2x3).1
  = ((setvalue (ArgSeq [one; two; three]) flux_2x3).1, Ok [2%nat; 3%nat]) /\
  (exists e, setvalue (ArgSeq [one; two]) flux_2x3 = (flux_2x3, Raise e)).
Proof.
  destruct (setvalue_keeps_shape flux_2x3 1 (full [2%nat; 3%nat] nan)
              eq_refl eq_refl eq_refl) as (Hnum & Harr & Hrow & Hany).
  split; [exact (Hnum two)|].
  split; [exact (Harr {| shape := [1%nat; 2%nat; 3%nat];
                         data := [one; two; three; three; two; one] |}
                      1%nat eq_refl eq_refl)|].
  split; [exact (Hrow [one; two; three] [2%nat] eq_refl)|].
  split.
  - destruct (Hany (ArgSeq [one; two; three])) as [(a & _ & _ & Hshape)|(e & He)].
    + exact Hshape.
    + discriminate He.
  - destruct (Hany (ArgSeq [one; two])) as [(a & Hrun & _)|He].
    + discriminate Hrun.
    + exact He.
Defined.

(** ** From the step of a simulation to the series *)
Section Step.
Import FastAccess.

Lemma np_source_in_step o row :
  has_shape o row -> in_step o ->
  np_source row (f_value (o_fast o)) = Ok (value_data (f_value (o_fast o))) /\
  length (value_data (f_value (o_fast o))) = size_of row /\
  Forall wf (value_data (f_value (o_fast o))).
Proof.
  intros [_ Hrow] [_ Hv]. destruct (o_NDIM o).
  - destruct Hv as (x & -> & Hx). subst row. split; [done|]. split; [done|].
    by constructor.
  - destruct Hrow as (v & Hv1 & Hsh & _). destruct Hv as (v' & Hv2 & Hwf & Hall).
    assert (v' = v) as -> by congruence. rewrite Hv1. cbn [np_source value_data].
    rewrite decide_True by done. split; [done|]. split; [|done].
    by rewrite Hwf, Hsh.
Qed.

Lemma zeros_with_block (T r k : nat) (d : list float64) :
  (k < T)%nat ->
  take (k * r) (replicate (T * r) zero) ++ d
  ++ drop ((k + 1) * r) (replicate (T * r) zero)
  = replicate (k * r) zero ++ d ++ replicate ((T - 1 - k) * r) zero.
Proof.
  intros Hk. rewrite take_replicate, drop_replicate.
  f_equal; [f_equal; nia|]. do 2 f_equal. nia.
Qed.

Lemma ram_activated_ready pub w row i :
  has_shape (w_seq w) row -> in_step (w_seq w) -> diskflag_of w = Some false ->
  0 <= i < Z.of_nat (tg_len (timegrids_init pub)) ->
  ram_ready i (o_fast (w_seq (ram_activated pub row w))).
Proof.
  intros Hrow Hstep Hd Hi. unfold ram_activated.
  cbn [w_seq with_seq o_fast with_fast].
  destruct (refreshed_flags None row (o_NDIM (w_seq w))
              (set_array (Some (zero_series pub row))
                 (set_ramflag true (o_fast (w_seq w)))))
    as (Hr1 & Hd1 & Ha1 & Hv1 & Hn1 & _).
  split; [by rewrite Hd1|]. split; [by rewrite Hr1|].
  exists (zero_series pub row), (tg_len (timegrids_init pub)), row.
  split; [by rewrite Ha1|]. split; [done|]. split; [apply wf_zeros|].
  split; [done|]. rewrite Hn1, Hv1. cbn [set_array set_ramflag f_ndim f_value].
  destruct Hrow as [_ Hrow]. destruct Hstep as [Hn Hv]. rewrite Hn.
  destruct (o_NDIM (w_seq w)).
  - subst row. split; [done|]. destruct Hv as (x & -> & _). by eexists.
  - destruct Hrow as (v & Hv1' & Hsh & Hlen). split; [done|].
    destruct Hv as (v' & Hv2 & Hwf & _). assert (v' = v) as -> by congruence.
    by exists v.
Qed.

End Step.

(** X20: after [activate_ram] on a sequence that computes its series, one
    [savedata(i)] of the fast-access object puts the value of the sequence
    into step [i] of [series] and leaves the other steps zero. *)
Theorem ram_step_reaches_series py3 pub (w : world) (row : list nat)
    (name : string) (i : Z) :
  has_shape (w_seq w) row -> computed (w_seq w) -> in_step (w_seq w) ->
  diskflag_of w = Some false ->
  0 <= i < Z.of_nat (tg_len (timegrids_init pub)) ->
  exists w1 w2,
    activate_ram py3 pub w = (w1, Ok tt) /\
    on_fastaccess name (FastAccess.savedata i) w1 = (w2, Ok tt) /\
    IOSequence_getseries pub w2
    = (w2, Ok (series_with_row pub row i
                 (value_data (FastAccess.f_value (o_fast (w_seq w)))))).
Proof.
  intros Hrow Hc Hstep Hd Hi.
  destruct (np_source_in_step _ row Hrow Hstep) as (Hsrc & Hlen & _).
  pose proof (ram_activated_ready pub w row i Hrow Hstep Hd Hi) as Hready.
  destruct (ram_activated_spec pub w row Hrow Hd) as (Hr1 & Hd1 & _ & _ & Hv1 & _).
  set (w1 := ram_activated pub row w) in *.
  set (s1 := o_fast (w_seq w1)) in *.
  assert (Hsaved : ram_saved i s1
                   = FastAccess.set_array
                       (Some (series_with_row pub row i
                                (value_data (FastAccess.f_value (o_fast (w_seq w))))))
                       s1).
  { assert (Hr1' : FastAccess.f_ramflag s1 = Some true) by exact Hr1.
    unfold ram_saved. rewrite Hr1'.
    assert (Ha : FastAccess.f_array s1 = Some (zero_series pub row)).
    { unfold s1, w1, ram_activated. cbn [w_seq with_seq o_fast with_fast].
      by rewrite (proj1 (proj2 (proj2 (refreshed_flags _ _ _ _)))). }
    rewrite Ha.
    rewrite (np_setitem_block (zero_series pub row) (tg_len (timegrids_init pub))
               row i _ (value_data (FastAccess.f_value (o_fast (w_seq w)))));
      [|done|done|by fold s1 in Hv1; rewrite Hv1].
    unfold series_with_row. do 3 f_equal.
    change (data (zero_series pub row))
      with (replicate (tg_len (timegrids_init pub) * size_of row) zero).
    apply zeros_with_block. lia. }
  exists w1. eexists. split; [|split].
  - apply activate_ram_ok; [apply Hrow|]. unfold IOSequence_activate_ram.
    rewrite (bind_ok deactivate_disk _ w w tt)
      by (by rewrite deactivate_disk_eq, Hd).
    by apply activate_ram_tail.
  - unfold on_fastaccess, FastAccess.savedata. cbn [FastAccess.for_names].
    fold s1.
    destruct (savedata_body_ram_or_transient i s1 (w_int w1) i eq_refl
                (or_introl Hready)) as (idx' & -> & ->).
    cbn [FastAccess.slot_of]. rewrite decide_True by done. cbn [default].
    reflexivity.
  - apply getseries_ram.
    + unfold ramflag_of. cbn [w_seq with_seq with_int o_fast with_fast].
      rewrite Hsaved. exact Hr1.
    + unfold diskflag_of. cbn [w_seq with_seq with_int o_fast with_fast].
      rewrite Hsaved. exact Hd1.
    + cbn [w_seq with_seq with_int o_fast with_fast]. by rewrite Hsaved.
Qed.

Lemma ram_step_reaches_series_witness :
  exists w1 w2,
    activate_ram false (pub_jan false) flux_world = (w1, Ok tt) /\
    on_fastaccess "flux"%string (FastAccess.savedata 3) w1 = (w2, Ok tt) /\
    IOSequence_getseries (pub_jan false) w2
    = (w2, Ok (series_with_row (pub_jan false) [2%nat] 3
                 (value_data (FastAccess.f_value (o_fast (w_seq flux_world)))))).
Proof.
  apply (ram_step_reaches_series false (pub_jan false) flux_world [2%nat]
           "flux"%string 3).
  - split; [reflexivity|]. eexists. split; [reflexivity|]. split; reflexivity.
  - reflexivity.
  - split; [reflexivity|]. eexists. split; [reflexivity|]. split; [reflexivity|].
    repeat constructor; unfold wf, nan; lia.
  - reflexivity.
  - vm_compute. split; [discriminate|reflexivity].
Defined.

Section DiskStep.
Import FastAccess.

Lemma pack_seq_app xs ys : pack_seq (xs ++ ys) = pack_seq xs ++ pack_seq ys.
Proof.
  induction xs as [|x xs IH]; [done|].
  cbn [app pack_seq]. by rewrite IH, app_assoc.
Qed.

Lemma take_pack_seq k xs : take (8 * k) (pack_seq xs) = pack_seq (take k xs).
Proof.
  revert xs. induction k as [|k IH]; intros xs.
  - by rewrite Nat.mul_0_r.
  - destruct xs as [|x xs]; [done|].
    replace (8 * S k)%nat with (8 + 8 * k)%nat by lia.
    cbn [pack_seq take].
    rewrite take_app_ge by (rewrite length_pack_d; lia).
    rewrite length_pack_d. replace (8 + 8 * k - 8)%nat with (8 * k)%nat by lia.
    by rewrite IH.
Qed.

Lemma drop_pack_seq k xs : drop (8 * k) (pack_seq xs) = pack_seq (drop k xs).
Proof.
  revert xs. induction k as [|k IH]; intros xs.
  - by rewrite Nat.mul_0_r.
  - destruct xs as [|x xs]; [done|].
    replace (8 * S k)%nat with (8 + 8 * k)%nat by lia.
    cbn [pack_seq drop].
    rewrite drop_app_ge by (rewrite length_pack_d; lia).
    rewrite length_pack_d. replace (8 + 8 * k - 8)%nat with (8 * k)%nat by lia.
    by rewrite IH.
Qed.

Lemma write_at_pack (k : nat) (ys xs : list float64) :
  (k <= length xs)%nat ->
  write_at (8 * k) (pack_seq ys) (pack_seq xs)
  = pack_seq (take k xs ++ ys ++ drop (k + length ys) xs).
Proof.
  intros Hk. unfold write_at.
  rewrite !length_pack_seq.
  replace (8 * k - 8 * length xs)%nat with 0%nat by lia.
  cbn [replicate]. rewrite app_nil_r.
  replace (8 * k + 8 * length ys)%nat with (8 * (k + length ys))%nat by lia.
  by rewrite take_pack_seq, drop_pack_seq, !pack_seq_app.
Qed.

Lemma disk_activated_ready pub w row p :
  has_shape (w_seq w) row -> in_step (w_seq w) -> ramflag_of w = Some false ->
  o_filepath_int (w_seq w) = Some p ->
  let s1 := o_fast (w_seq (disk_activated pub row p w)) in
  disk_ready (w_int (disk_activated pub row p w)) s1 /\
  lens_of s1 = row /\ f_diskflag s1 = Some true /\ f_path s1 = Some p /\
  record_of s1 = pack_seq (value_data (f_value (o_fast (w_seq w)))).
Proof.
  intros Hrow Hstep Hr Hp s1.
  destruct (refreshed_flags (Some p) row (o_NDIM (w_seq w))
              (set_diskflag true (o_fast (w_seq w))))
    as (Hr1 & Hd1 & Ha1 & Hv1 & Hn1 & Hp1).
  assert (Hs1 : s1 = refreshed (Some p) row (o_NDIM (w_seq w))
                       (set_diskflag true (o_fast (w_seq w)))) by reflexivity.
  destruct Hstep as [Hn Hv]. destruct Hrow as [Hio Hrow].
  assert (Hnd : f_ndim s1 = o_NDIM (w_seq w)) by (by rewrite Hs1, Hn1).
  assert (Hval : f_value s1 = f_value (o_fast (w_seq w))) by (by rewrite Hs1, Hv1).
  assert (Hlens : lens_of s1 = row /\ (f_ndim s1 <= length (f_lengths s1))%nat).
  { unfold lens_of. rewrite Hnd. rewrite Hs1. unfold refreshed.
    destruct (o_NDIM (w_seq w)) as [|n] eqn:En.
    - subst row. split; [done|lia].
    - destruct Hrow as (v & _ & _ & Hlen). cbn [set_lengths set_path f_lengths].
      rewrite <- Hlen, firstn_all. rewrite take_app_length.
      split; [done|]. rewrite length_app. lia. }
  destruct Hlens as [Hlens Hle].
  assert (Hrec : record_of s1 = pack_seq (value_data (f_value (o_fast (w_seq w))))).
  { unfold record_of. rewrite Hval. destruct (o_NDIM (w_seq w)).
    - destruct Hv as (x & -> & _). cbn [value_data pack_seq]. by rewrite app_nil_r.
    - by destruct Hv as (v & -> & _). }
  split; [|by rewrite Hs1, Hd1, Hp1].
  split; [by rewrite Hs1, Hd1|]. split; [rewrite Hs1, Hr1; by eexists|].
  split; [exact Hle|]. split.
  - exists p. split; [by rewrite Hs1, Hp1|]. cbn. rewrite lookup_insert_eq. by eexists.
  - rewrite Hnd, Hval, Hlens. destruct (o_NDIM (w_seq w)).
    + destruct Hv as (x & -> & Hx). by exists x.
    + destruct Hrow as (v & Hv1' & Hsh & _). destruct Hv as (v' & Hv2 & Hwf & Hall).
      assert (v' = v) as -> by congruence. by exists v.
Qed.

Lemma start_of_row i s row :
  0 <= i -> lens_of s = row -> start_of i s = (8 * (Z.to_nat i * size_of row))%nat.
Proof.
  intros Hi Hl. unfold start_of. rewrite Hl, seek_position_record, record_size_size.
  lia.
Qed.

End DiskStep.

Section DiskStepSeries.
Import FastAccess.

Lemma wf_series_with_row pub row i d :
  0 <= i < Z.of_nat (tg_len (timegrids_init pub)) -> length d = size_of row ->
  wf_array (series_with_row pub row i d).
Proof.
  intros Hi Hd. unfold wf_array, series_with_row. cbn [data shape].
  rewrite !length_app, !length_replicate, Hd.
  change (size_of (tg_len (timegrids_init pub) :: row))
    with (tg_len (timegrids_init pub) * size_of row)%nat.
  nia.
Qed.

Lemma Forall_wf_series_with_row pub row i d :
  Forall wf d -> Forall wf (data (series_with_row pub row i d)).
Proof.
  intros Hd. unfold series_with_row. cbn [data].
  assert (Hz : forall n, Forall wf (replicate n zero)).
  { intros n. apply Forall_forall. intros x Hx.
    apply elem_of_replicate in Hx as [-> _]. unfold wf, zero. lia. }
  apply Forall_app. split; [apply Hz|]. apply Forall_app. split; [done|apply Hz].
Qed.

Lemma written_zero_file pub row i d :
  0 <= i < Z.of_nat (tg_len (timegrids_init pub)) -> length d = size_of row ->
  write_at (8 * (Z.to_nat i * size_of row)) (pack_seq d)
    (tofile (zero_series pub row))
  = tofile (series_with_row pub row i d).
Proof.
  intros Hi Hd. unfold tofile.
  change (data (zero_series pub row))
    with (replicate (tg_len (timegrids_init pub) * size_of row) zero).
  rewrite write_at_pack by (rewrite length_replicate; nia).
  f_equal. unfold series_with_row. cbn [data]. rewrite Hd.
  replace (Z.to_nat i * size_of row + size_of row)%nat
    with ((Z.to_nat i + 1) * size_of row)%nat by lia.
  apply zeros_with_block. lia.
Qed.

Lemma has_shape_set_file o row h :
  has_shape o row -> has_shape (with_fast (fun _ => set_file h (o_fast o)) o) row.
Proof. intros [Hio Hrow]. split; [exact Hio|]. exact Hrow. Qed.

End DiskStepSeries.

(** X21: after [activate_disk] on a sequence that computes its series,
    [openfiles(i)], [savedata(i)] and [closefiles] of the fast-access
    object put the value of the sequence into step [i] of [series] and
    leave the other steps zero. *)
Theorem disk_step_reaches_series py3 pub (w : world) (row : list nat)
    (name p : string) (i : Z) :
  has_shape (w_seq w) row -> computed (w_seq w) -> in_step (w_seq w) ->
  ramflag_of w = Some false -> o_filepath_int (w_seq w) = Some p ->
  0 <= i < Z.of_nat (tg_len (timegrids_init pub)) ->
  exists w1 w2 w3 w4,
    activate_disk py3 pub w = (w1, Ok tt) /\
    on_fastaccess name (FastAccess.openfiles py3 i) w1 = (w2, Ok tt) /\
    on_fastaccess name (FastAccess.savedata i) w2 = (w3, Ok tt) /\
    on_fastaccess name FastAccess.closefiles w3 = (w4, Ok tt) /\
    IOSequence_getseries pub w4
    = (w4, Ok (series_with_row pub row i
                 (value_data (FastAccess.f_value (o_fast (w_seq w)))))).
Proof.
  intros Hrow Hc Hstep Hr Hp Hi.
  destruct (np_source_in_step _ row Hrow Hstep) as (_ & Hlen & Hall).
  destruct (disk_activated_ready pub w row p Hrow Hstep Hr Hp)
    as (Hready & Hlens & Hd1 & Hp1 & Hrec).
  destruct (disk_activated_spec pub w row p Hrow Hr Hp)
    as (_ & Hr1 & _ & _ & _ & Hrow1).
  set (d := value_data (FastAccess.f_value (o_fast (w_seq w)))) in *.
  set (w1 := disk_activated pub row p w) in *.
  set (s1 := o_fast (w_seq w1)) in *.
  set (fs1 := w_int w1) in *.
  assert (Hi0 : 0 <= i) by lia.
  assert (Hfile : fs1 !! p = Some (tofile (zero_series pub row)))
    by apply lookup_insert_eq.
  assert (Hsave : save_to i s1 fs1
                  = <[p := tofile (series_with_row pub row i d)]> fs1).
  { unfold save_to. rewrite Hd1, Hp1, Hfile.
    by rewrite (start_of_row i s1 row Hi0 Hlens), Hrec, written_zero_file. }
  assert (Hready' : disk_ready (save_to i s1 fs1) s1).
  { eapply disk_ready_files; [|exact Hready]. intros q. apply save_to_keeps. }
  set (h := {| h_path := p;
               h_pos := start_of i s1 + FastAccess.record_size (lens_of s1);
               h_closed := true |}).
  assert (Hclosed : closed i s1 = FastAccess.set_file (Some h) s1)
    by (unfold closed; by rewrite Hd1, Hp1).
  set (w2 := with_int (fun _ => fs1)
               (with_seq (with_fast (fun _ => reopened i s1)) w1)).
  set (w3 := with_int (fun _ => save_to i s1 fs1)
               (with_seq (with_fast (fun _ => advanced i s1)) w2)).
  set (w4 := with_int (fun _ => save_to i s1 fs1)
               (with_seq (with_fast (fun _ => closed i s1)) w3)).
  exists w1, w2, w3, w4. split; [|split; [|split; [|split]]].
  - apply activate_disk_ok; [apply Hrow|]. unfold IOSequence_activate_disk.
    rewrite (bind_ok deactivate_ram _ w w tt)
      by (by rewrite deactivate_ram_eq, Hr).
    by apply activate_disk_tail.
  - unfold on_fastaccess, FastAccess.openfiles. cbn [FastAccess.for_names].
    fold s1 fs1.
    destruct (openfiles_body_first py3 i fs1 s1 Hi0 (or_introl Hready)) as [idx' ->].
    cbn [FastAccess.slot_of]. rewrite decide_True by done. reflexivity.
  - unfold on_fastaccess, FastAccess.savedata. cbn [FastAccess.for_names].
    change (o_fast (w_seq w2)) with (reopened i s1).
    change (w_int w2) with fs1.
    rewrite (savedata_body_disk_idx i fs1 s1 i Hready).
    cbn [FastAccess.slot_of]. rewrite decide_True by done. reflexivity.
  - unfold on_fastaccess, FastAccess.closefiles. cbn [FastAccess.for_names].
    change (o_fast (w_seq w3)) with (advanced i s1).
    change (w_int w3) with (save_to i s1 fs1).
    destruct (closefiles_body_advanced i (save_to i s1 fs1) s1 0 (or_introl Hready'))
      as [idx' ->].
    cbn [FastAccess.slot_of]. rewrite decide_True by done. reflexivity.
  - assert (Hrow4 : has_shape (w_seq w4) row).
    { unfold w4. cbn [w_seq with_int with_seq]. rewrite Hclosed.
      exact (has_shape_set_file (w_seq w1) row (Some h) Hrow1). }
    assert (Hest : disk_established pub w4 (tofile (series_with_row pub row i d))).
    { split; [|split; [|split]].
      - unfold diskflag_of, w4. cbn [w_seq with_int with_seq o_fast with_fast].
        by rewrite Hclosed.
      - unfold ramflag_of, w4. cbn [w_seq with_int with_seq o_fast with_fast].
        by rewrite Hclosed.
      - exists p. split; [exact Hp|].
        unfold w4. cbn [w_int with_int]. rewrite Hsave. apply lookup_insert_eq.
      - exists row. split; [exact Hrow4|].
        by rewrite length_tofile by (by apply wf_series_with_row). }
    rewrite (getseries_disk pub w4 _ row Hest Hrow4).
    rewrite series_of_tofile; [done|done|]. by apply Forall_wf_series_with_row.
Qed.

Lemma disk_step_reaches_series_witness :
  exists w1 w2 w3 w4,
    activate_disk false (pub_jan false) flux_world = (w1, Ok tt) /\
    on_fastaccess "flux"%string (FastAccess.openfiles false 3) w1 = (w2, Ok tt) /\
    on_fastaccess "flux"%string (FastAccess.savedata 3) w2 = (w3, Ok tt) /\
    on_fastaccess "flux"%string FastAccess.closefiles w3 = (w4, Ok tt) /\
    IOSequence_getseries (pub_jan false) w4
    = (w4, Ok (series_with_row (pub_jan false) [2%nat] 3
                 (value_data (FastAccess.f_value (o_fast (w_seq flux_world)))))).
Proof.
  apply (disk_step_reaches_series false (pub_jan false) flux_world [2%nat]
           "flux"%string "flux.bin"%string 3).
  - split; [reflexivity|]. eexists. split; [reflexivity|]. split; reflexivity.
  - reflexivity.
  - split; [reflexivity|]. eexists. split; [reflexivity|]. split; [reflexivity|].
    repeat constructor; unfold wf, nan; lia.
  - reflexivity.
  - reflexivity.
  - vm_compute. split; [discriminate|reflexivity].
Defined.

(** ** From the external file to the value of a step *)
Section InputStep.
Import FastAccess.

Lemma load_file_readable w ft q tg values :
  o_filetype_ext (w_seq w) = Some ft -> o_filepath_ext (w_seq w) = Some q ->
  w_ext w !! q = Some (Readable tg values) ->
  load_file w = (w, Ok (tg, values)).
Proof.
  intros Hft Hq Hfile.
  unfold load_file, bind at 1, filetype_ext, bind at 1, self, gets.
  rewrite Hft. cbn [resolve ret].
  unfold bind at 1, filepath_ext, bind at 1, self, gets. rewrite Hq.
  cbn [resolve ret]. unfold bind, get. by rewrite Hfile.
Qed.

(** [loaddata(i)] on a sequence in RAM mode makes block [i] of the RAM
    array the value. *)
Lemma loaddata_body_ram_block i s fs a T row :
  f_diskflag s = Some false -> f_ramflag s = Some true ->
  f_array s = Some a -> shape a = T :: row -> wf_array a ->
  0 <= i < Z.of_nat T -> length row = f_ndim s ->
  match f_ndim s with
  | O => True
  | S _ => exists v, f_value s = PyArray v /\ shape v = row
  end ->
  exists s',
    loaddata_body i (s, fs) = ((s', fs), Ok i) /\
    value_data (f_value s')
    = take (size_of row) (drop (Z.to_nat i * size_of row) (data a)) /\
    f_ramflag s' = f_ramflag s /\ f_diskflag s' = f_diskflag s /\
    f_ndim s' = f_ndim s /\
    match f_ndim s with
    | O => exists x, f_value s' = PyFloat x
    | S _ => exists v, f_value s' = PyArray v /\ shape v = row
    end.
Proof.
  intros Hd Hr Ha Hsh Hwf Hi Hlen Hv.
  unfold loaddata_body. rewrite Hd, Hr, Ha. cbn [getattr].
  unfold np_getitem. rewrite Hsh. unfold py_index.
  rewrite decide_True by done.
  set (seg := take (size_of row) (drop (Z.to_nat i * size_of row) (data a))).
  destruct (f_ndim s) as [|n] eqn:En.
  - destruct row; [|done].
    assert (Hseg : length seg = 1%nat).
    { unfold seg. rewrite length_take, length_drop, Hwf, Hsh.
      change (size_of [T]) with (T * 1)%nat. change (size_of []) with 1%nat. lia. }
    destruct seg as [|x [|y seg']] eqn:Eseg; try done.
    cbn [rbind]. unfold store_loaded. rewrite En.
    eexists. split; [reflexivity|]. cbn. repeat split; try done. by eexists.
  - destruct row as [|r0 row]; [done|]. destruct Hv as (v & Hx & Hshv).
    cbn [rbind]. unfold store_loaded. rewrite En, Hx.
    unfold np_assign_all. rewrite Hshv. cbn [np_source shape data].
    rewrite decide_True by done.
    eexists. split; [reflexivity|]. cbn. repeat split; try done. by eexists.
Qed.

Lemma block_of_slice (data : list float64) (r k0 k T : nat) :
  (k < T)%nat ->
  take r (drop (k * r) (take (T * r) (drop (k0 * r) data)))
  = take r (drop ((k0 + k) * r) data).
Proof.
  intros Hk. rewrite skipn_firstn_comm, take_take, drop_drop.
  f_equal; [nia|]. f_equal. lia.
Qed.

End InputStep.

(** X22: [activate_ram] on a sequence that loads its series, with an
    external file of the step size of the simulation that covers the
    initialisation period, followed by one [loaddata(i)] of the
    fast-access object, makes the values of the sequence the row of the
    file that belongs to step [i] of the period; the shape stays. *)
Theorem input_step_reads_file py3 pub (w : world) (tg : Timegrid)
    (values : ndarray) (n : nat) (row : list nat) (ft q name : string) (i : Z) :
  let sim := timegrids_init pub in
  let T := tg_len sim in
  let idx0 := tg_index tg (firstdate sim) in
  has_shape (w_seq w) row -> loads_ext (w_seq w) = true -> in_step (w_seq w) ->
  diskflag_of w = Some false ->
  o_filetype_ext (w_seq w) = Some ft -> o_filepath_ext (w_seq w) = Some q ->
  w_ext w !! q = Some (Readable tg values) ->
  shape values = n :: row -> wf_array values ->
  0 < stepsize tg -> stepsize sim = stepsize tg ->
  lastdate sim = firstdate sim + Z.of_nat T * stepsize sim ->
  tg_contains tg sim = true -> idx0 + Z.of_nat T <= Z.of_nat n ->
  0 <= i < Z.of_nat T ->
  exists w1 w2,
    activate_ram py3 pub w = (w1, Ok tt) /\
    on_fastaccess name (FastAccess.loaddata i) w1 = (w2, Ok tt) /\
    value_data (FastAccess.f_value (o_fast (w_seq w2)))
    = take (size_of row)
        (drop ((Z.to_nat idx0 + Z.to_nat i) * size_of row) (data values)) /\
    getshape w2 = (w2, Ok row).
Proof.
  intros sim T idx0 Hrow Hloads Hstep Hd Hft Hq Hfile Hvals Hwf Hst Heq Hlast
    Hin Hfit Hi.
  set (slice := {| shape := T :: row;
                   data := take (T * size_of row)
                             (drop (Z.to_nat idx0 * size_of row) (data values)) |}).
  set (w0 := with_seq (with_fast (FastAccess.set_ramflag true)) w).
  assert (Hrow0 : has_shape (w_seq w0) row) by exact Hrow.
  assert (Hload0 : load_file w0 = (w0, Ok (tg, values)))
    by (by apply (load_file_readable w0 ft q)).
  assert (Hext : load_ext pub w0
                 = (with_seq (with_fast (FastAccess.set_array (Some slice))) w0, Ok tt)).
  { destruct (covering_slice pub tg values n row Hst Heq Hlast Hin Hfit Hvals)
      as [H0 Hslice].
    unfold load_ext.
    rewrite (bind_ok _ _ _ _ _ Hload0).
    rewrite (bind_ok _ _ _ _ _ (getshape_has_shape w0 row Hrow0)).
    rewrite Hvals. cbn [tail].
    rewrite decide_False by (intros H; by apply H). fold sim.
    rewrite decide_False by (intros H; by apply H).
    rewrite Hin. cbn [negb]. unfold bind, lift. fold sim idx0 in Hslice.
    fold idx0. rewrite Hslice. by apply store_series_ram. }
  set (w1' := with_seq (with_fast (FastAccess.set_array (Some slice))) w0) in Hext.
  assert (Hrow1' : has_shape (w_seq w1') row) by exact Hrow.
  set (w1 := with_seq (with_fast (refreshed None row (o_NDIM (w_seq w1')))) w1').
  assert (Hact : activate_ram py3 pub w = (w1, Ok tt)).
  { apply activate_ram_ok; [apply Hrow|]. unfold IOSequence_activate_ram.
    rewrite (bind_ok deactivate_disk _ w w tt)
      by (by rewrite deactivate_disk_eq, Hd).
    unfold bind at 1, setramflag, upd_fast at 1, modify. fold w0.
    unfold bind at 1, self, gets.
    change (loads_ext (w_seq w0)) with (loads_ext (w_seq w)). rewrite Hloads.
    rewrite (bind_ok _ _ _ _ _ Hext).
    by rewrite (update_fastaccess_run w1' row false String.EmptyString Hd
                  (fun H => ltac:(done)) Hrow1'). }
  set (s1 := o_fast (w_seq w1)).
  destruct (refreshed_flags None row (o_NDIM (w_seq w1'))
              (FastAccess.set_array (Some slice)
                 (FastAccess.set_ramflag true (o_fast (w_seq w)))))
    as (Hr1 & Hd1 & Ha1 & Hv1 & Hn1 & _).
  assert (Hs1 : s1 = refreshed None row (o_NDIM (w_seq w1'))
                       (FastAccess.set_array (Some slice)
                          (FastAccess.set_ramflag true (o_fast (w_seq w)))))
    by reflexivity.
  destruct Hstep as [Hn Hv].
  assert (Hwfs : wf_array slice).
  { unfold wf_array, slice. cbn [data shape].
    rewrite length_take, length_drop, Hwf, Hvals.
    change (size_of (n :: row)) with (n * size_of row)%nat.
    change (size_of (T :: row)) with (T * size_of row)%nat.
    assert (0 <= idx0).
    { by destruct (covering_slice pub tg values n row Hst Heq Hlast Hin Hfit Hvals). }
    nia. }
  destruct (loaddata_body_ram_block i s1 (w_int w1) slice T row) as (s' & Hrun & Hdata & Hr' & Hd' & Hn' & Hv').
  - by rewrite Hs1, Hd1.
  - by rewrite Hs1, Hr1.
  - by rewrite Hs1, Ha1.
  - done.
  - exact Hwfs.
  - exact Hi.
  - rewrite Hs1, Hn1. cbn. rewrite Hn. destruct Hrow as [_ Hrow].
    destruct (o_NDIM (w_seq w)); [by subst|]. by destruct Hrow as (v & _ & _ & ?).
  - rewrite Hs1, Hn1, Hv1. cbn. rewrite Hn. destruct Hrow as [_ Hrow].
    destruct (o_NDIM (w_seq w)); [done|].
    destruct Hrow as (v & Hv0 & Hsh & _). by exists v.
  - set (w2 := with_int (fun _ => w_int w1)
                 (with_seq (with_fast (fun s => default s (Some s'))) w1)).
    assert (Hf2 : o_fast (w_seq w2) = s') by reflexivity.
    exists w1, w2. split; [exact Hact|]. split; [|split].
    + unfold on_fastaccess, FastAccess.loaddata. cbn [FastAccess.for_names].
      fold s1. rewrite Hrun.
      cbn [FastAccess.slot_of]. rewrite decide_True by done. reflexivity.
    + rewrite Hf2, Hdata.
      unfold slice. cbn [data]. apply block_of_slice. lia.
    + apply getshape_has_shape. split; [apply Hrow|]. rewrite Hf2.
      change (o_NDIM (w_seq w2)) with (o_NDIM (w_seq w)).
      assert (Hnd : FastAccess.f_ndim s1 = o_NDIM (w_seq w))
        by (by rewrite Hs1, Hn1).
      rewrite Hnd in Hv'. destruct Hrow as [_ Hrow].
      destruct (o_NDIM (w_seq w)); [done|].
      destruct Hv' as (v & Hv2 & Hsh2). exists v.
      split; [done|]. split; [done|]. by destruct Hrow as (? & _ & _ & ?).
Qed.

Lemma input_step_reads_file_witness :
  let pub := pub_jan false in
  let sim := timegrids_init pub in
  let T := tg_len sim in
  let idx0 := tg_index (daily 8 17) (firstdate sim) in
  exists w1 w2,
    activate_ram false pub input_with_file = (w1, Ok tt) /\
    on_fastaccess "input"%string (FastAccess.loaddata 1) w1 = (w2, Ok tt) /\
    value_data (FastAccess.f_value (o_fast (w_seq w2)))
    = take (size_of [2%nat])
        (drop ((Z.to_nat idx0 + Z.to_nat 1) * size_of [2%nat]) (data long_series)) /\
    getshape w2 = (w2, Ok [2%nat]).
Proof.
  apply (input_step_reads_file false (pub_jan false) input_with_file (daily 8 17)
           long_series 9 [2%nat] "npy"%string "input.npy"%string "input"%string 1).
  - split; [reflexivity|]. eexists. split; [reflexivity|]. split; reflexivity.
  - reflexivity.
  - split; [reflexivity|]. eexists. split; [reflexivity|]. split; [reflexivity|].
    repeat constructor; unfold wf, nan; lia.
  - reflexivity.
  - reflexivity.
  - reflexivity.
  - vm_compute. reflexivity.
  - reflexivity.
  - reflexivity.
  - simpl. lia.
  - reflexivity.
  - vm_compute. reflexivity.
  - vm_compute. reflexivity.
  - vm_compute. discriminate.
  - vm_compute. split; [discriminate|reflexivity].
Defined.

(** ** Edges *)
Section Edges.
Import FastAccess.

Lemma savedata_body_closed i idx fs s :
  disk_ready fs s ->
  savedata_body idx (closed i s, fs) = ((closed i s, fs), Raise ValueError).
Proof.
  intros (Hd & [b Hr] & Hlen & (p & Hp & [c Hc]) & Hv).
  unfold savedata_body, closed. rewrite Hd, Hp.
  cbn [set_file f_diskflag f_ramflag f_file f_value f_ndim getattr].
  rewrite Hd, Hr. cbn [getattr].
  unfold axis_lengths. cbn [set_file f_ndim f_lengths].
  rewrite decide_True by done. fold (lens_of s).
  assert (Hpack : pack_actual (f_ndim s) (length_tot (lens_of s)) (f_value s)
                  = Ok (record_of s)).
  { unfold record_of. destruct (f_ndim s) eqn:En.
    - by destruct Hv as (x & -> & _).
    - destruct Hv as (v & -> & Hsh & Hwf & _). cbn [pack_actual].
      rewrite decide_True; [done|].
      by rewrite length_tot_size, Hwf, Hsh. }
  by rewrite Hpack.
Qed.

Lemma loaddata_body_closed i idx fs s :
  disk_ready fs s ->
  loaddata_body idx (closed i s, fs) = ((closed i s, fs), Raise ValueError).
Proof.
  intros (Hd & [b Hr] & Hlen & (p & Hp & [c Hc]) & Hv).
  unfold loaddata_body, closed. rewrite Hd, Hp.
  cbn [set_file f_diskflag f_ramflag f_file f_value f_ndim getattr].
  rewrite Hd, Hr. cbn [getattr].
  unfold axis_lengths. cbn [set_file f_ndim f_lengths].
  by rewrite decide_True by done.
Qed.

Lemma body_unopened fs s idx :
  f_diskflag s = Some true -> is_Some (f_ramflag s) -> f_file s = None ->
  loaddata_body idx (s, fs) = ((s, fs), Raise AttributeError) /\
  savedata_body idx (s, fs) = ((s, fs), Raise AttributeError).
Proof.
  intros Hd [b Hr] Hf. unfold loaddata_body, savedata_body.
  by rewrite Hd, Hr, Hf.
Qed.

End Edges.

(** X23: in disk mode [loaddata] and [savedata] need the file opened by
    [openfiles]: after [closefiles] both raise [ValueError], before the
    first [openfiles] both raise [AttributeError]; neither reads nor
    writes anything, and the sequences behind are not visited. *)
Theorem disk_step_needs_open_file i idx name (s : FastAccess.slot)
    (rest : FastAccess.fastaccess) (fs : files) :
  disk_ready fs s ->
  (FastAccess.loaddata idx ((name, closed i s) :: rest) fs
   = (((name, closed i s) :: rest, fs), Raise ValueError) /\
   FastAccess.savedata idx ((name, closed i s) :: rest) fs
   = (((name, closed i s) :: rest, fs), Raise ValueError)) /\
  (FastAccess.f_file s = None ->
   FastAccess.loaddata idx ((name, s) :: rest) fs
   = (((name, s) :: rest, fs), Raise AttributeError) /\
   FastAccess.savedata idx ((name, s) :: rest) fs
   = (((name, s) :: rest, fs), Raise AttributeError)).
Proof.
  intros Hs. unfold FastAccess.loaddata, FastAccess.savedata.
  cbn [FastAccess.for_names]. split.
  - by rewrite (loaddata_body_closed i idx fs s Hs),
      (savedata_body_closed i idx fs s Hs).
  - intros Hf. destruct Hs as (Hd & Hr & _).
    destruct (body_unopened fs s idx Hd Hr Hf) as [-> ->]. done.
Qed.

Lemma disk_step_needs_open_file_witness :
  (FastAccess.loaddata 0 [("q"%string, closed 0 q_disk)] q_files
   = (([("q"%string, closed 0 q_disk)], q_files), Raise ValueError) /\
   FastAccess.savedata 0 [("q"%string, closed 0 q_disk)] q_files
   = (([("q"%string, closed 0 q_disk)], q_files), Raise ValueError)) /\
  (FastAccess.f_file q_disk = None ->
   FastAccess.loaddata 0 [("q"%string, q_disk)] q_files
   = (([("q"%string, q_disk)], q_files), Raise AttributeError) /\
   FastAccess.savedata 0 [("q"%string, q_disk)] q_files
   = (([("q"%string, q_disk)], q_files), Raise AttributeError)).
Proof.
  apply (disk_step_needs_open_file 0 0 "q"%string q_disk [] q_files).
  split; [reflexivity|]. split; [simpl; eauto|]. split; [simpl; lia|].
  split.
  - exists "q.bin"%string. split; [reflexivity|]. vm_compute. eauto.
  - exists one. split; [reflexivity|]. unfold wf, one. lia.
Defined.

(** X24: when the external file and the initialisation period do not
    overlap, because the file ends before the period starts or starts
    after it ends, [adjust_short_series] returns without an error the
    series in which every value is the sentinel [initvalue]. *)
Theorem adjust_short_series_disjoint (pub : Pub) (tg : Timegrid) (values : ndarray)
    (w : world) (n : nat) (row : list nat) :
  let sim := timegrids_init pub in
  let T := tg_len sim in
  let idx0 := tg_index tg (firstdate sim) in
  0 < stepsize tg -> stepsize sim = stepsize tg ->
  lastdate sim = firstdate sim + Z.of_nat T * stepsize sim ->
  getshape w = (w, Ok row) -> shape values = n :: row ->
  Z.of_nat n <= idx0 \/ idx0 + Z.of_nat T <= 0 ->
  adjust_short_series pub tg values w
  = (w, Ok (full (T :: row) (initvalue pub (w_seq w)))).
Proof.
  intros sim T idx0 Hst Heq Hlast Hshape Hvals Hdis.
  destruct (adjust_general pub tg values w n row Hst Heq Hlast Hshape Hvals)
    as (Hadj & Hsum & _).
  rewrite Hadj. fold sim T idx0. fold sim T idx0 in Hsum.
  pose proof (clamp_cases n idx0) as H1.
  pose proof (clamp_cases n (idx0 + Z.of_nat T)) as H2.
  assert (Hov : (clamp n (idx0 + Z.of_nat T) - clamp n idx0 = 0)%nat)
    by (clearbody T idx0; lia).
  rewrite Hov in Hsum |- *. cbn [Nat.mul]. rewrite take_0. cbn [app].
  unfold full. do 3 f_equal.
  change (size_of (T :: row)) with (T * size_of row)%nat.
  rewrite <- replicate_add. f_equal. clearbody T idx0. nia.
Qed.

Lemma adjust_short_series_disjoint_witness :
  adjust_short_series (pub_jan false) (daily 20 22)
    {| shape := [2%nat; 2%nat]; data := [one; two; two; three] |}
    (world_of flux_2)
  = (world_of flux_2,
     Ok (full (tg_len (timegrids_init (pub_jan false)) :: [2%nat])
           (initvalue (pub_jan false) (w_seq (world_of flux_2))))).
Proof.
  apply (adjust_short_series_disjoint (pub_jan false) (daily 20 22)
           {| shape := [2%nat; 2%nat]; data := [one; two; two; three] |}
           (world_of flux_2) 2 [2%nat]).
  - simpl. lia.
  - reflexivity.
  - vm_compute. reflexivity.
  - reflexivity.
  - reflexivity.
  - right. vm_compute. discriminate.
Defined.

(** X25: before a shape is assigned to an array-shaped sequence of a
    model, reading its values or its shape and assigning values raise the
    error on undefined values and change nothing; an activation of the
    RAM mode of such a sequence that computes its series raises the same
    error and leaves the RAM flag set. *)
Theorem unshaped_sequence_refuses py3 pub (w : world) (value : pyarg) (n : nat) :
  holds_values (o_class (w_seq w)) = true -> o_NDIM (w_seq w) = S n ->
  FastAccess.f_value (o_fast (w_seq w)) = PyNone ->
  getvalue w = (w, Raise (RuntimeError NoValue)) /\
  getshape w = (w, Raise (RuntimeError NoValue)) /\
  setvalue value w = (w, Raise (RuntimeError NoValue)) /\
  (is_IOSequence (o_class (w_seq w)) = true -> computed (w_seq w) ->
   diskflag_of w = Some false ->
   activate_ram py3 pub w
   = (with_seq (with_fast (FastAccess.set_ramflag true)) w,
      Raise (RuntimeError NoValue))).
Proof.
  intros Hc Hn Hv.
  assert (Hget : forall w', w_seq w' = w_seq w \/
                   w_seq w' = with_fast (FastAccess.set_ramflag true) (w_seq w) ->
            getshape w' = (w', Raise (RuntimeError NoValue)) /\
            getvalue w' = (w', Raise (RuntimeError NoValue))).
  { intros w' Hw'.
    assert (Hc' : o_class (w_seq w') = o_class (w_seq w))
      by (destruct Hw' as [-> | ->]; done).
    assert (Hn' : o_NDIM (w_seq w') = S n)
      by (destruct Hw' as [-> | ->]; done).
    assert (Hv' : FastAccess.f_value (o_fast (w_seq w')) = PyNone)
      by (destruct Hw' as [-> | ->]; done).
    assert (H1 : getvalue w' = (w', Raise (RuntimeError NoValue))).
    { unfold getvalue, Sequence_getvalue, bind, self, gets. rewrite Hc'.
      destruct (o_class (w_seq w)); try done; cbn; by rewrite Hv'. }
    split; [|exact H1].
    assert (H2 : Sequence_getshape w' = (w', Raise (RuntimeError NoValue))).
    { unfold Sequence_getshape, bind at 1, self, gets. rewrite Hn'.
      unfold bind. by rewrite H1. }
    unfold getshape, bind, self, gets. rewrite Hc'.
    by destruct (o_class (w_seq w)). }
  destruct (Hget w (or_introl eq_refl)) as [Hshape Hvalue].
  split; [exact Hvalue|]. split; [exact Hshape|]. split.
  - assert (H : Sequence_setvalue value w = (w, Raise (RuntimeError NoValue))).
    { unfold Sequence_setvalue, bind at 1, coerce, bind at 1, self, gets.
      rewrite Hn. unfold bind. by rewrite Hshape. }
    unfold setvalue, bind, self, gets. by destruct (o_class (w_seq w)).
  - intros Hio Hcomp Hd.
    set (w1 := with_seq (with_fast (FastAccess.set_ramflag true)) w).
    destruct (Hget w1 (or_intror eq_refl)) as [Hshape1 _].
    assert (H : IOSequence_activate_ram pub w = (w1, Raise (RuntimeError NoValue))).
    { unfold IOSequence_activate_ram.
      rewrite (bind_ok deactivate_disk _ w w tt)
        by (by rewrite deactivate_disk_eq, Hd).
      unfold bind at 1, setramflag, upd_fast at 1, modify. fold w1.
      unfold bind at 1, self, gets.
      change (loads_ext (w_seq w1)) with (loads_ext (w_seq w)). rewrite Hcomp.
      unfold bind at 1, zero_int, bind at 1, seriesshape, bind at 1.
      by rewrite Hshape1. }
    rewrite activate_ram_class.
    destruct (o_class (w_seq w)); try done.
Qed.

Lemma unshaped_sequence_refuses_witness :
  let w := world_of (connect (pub_jan false) (new_seq FluxSeq 1)) in
  getvalue w = (w, Raise (RuntimeError NoValue)) /\
  getshape w = (w, Raise (RuntimeError NoValue)) /\
  setvalue (ArgFloat one) w = (w, Raise (RuntimeError NoValue)) /\
  (is_IOSequence (o_class (w_seq w)) = true -> computed (w_seq w) ->
   diskflag_of w = Some false ->
   activate_ram false (pub_jan false) w
   = (with_seq (with_fast (FastAccess.set_ramflag true)) w,
      Raise (RuntimeError NoValue))).
Proof.
  apply (unshaped_sequence_refuses false (pub_jan false)
           (world_of (connect (pub_jan false) (new_seq FluxSeq 1)))
           (ArgFloat one) 0); reflexivity.
Defined.

(** ** From the constructor to a sequence ready for a simulation *)
Section Ready.

Lemma wf_initvalue pub o :
  (forall v, o_INIT o = Some v -> wf v) -> wf (initvalue pub o).
Proof.
  intros Hinit. unfold initvalue. destruct (usedefaultvalues (options pub)).
  - destruct (o_INIT o) as [v|] eqn:E; [by apply Hinit|]. unfold wf, zero. lia.
  - unfold wf, nan. lia.
Qed.

Lemma wf_full shp x : wf_array (full shp x).
Proof. unfold wf_array, full. cbn. by rewrite length_replicate. Qed.

Lemma Forall_wf_full shp x : wf x -> Forall wf (data (full shp x)).
Proof.
  intros Hx. unfold full. cbn [data]. apply Forall_forall. intros y Hy.
  by apply elem_of_replicate in Hy as [-> _].
Qed.

End Ready.

(** X26: a connected IO sequence of a model that is given a shape with as
    many axes as it has dimensions is ready for a simulation: it has that
    shape, its members in the fast-access object fit the class, its values
    are 64-bit floats, and neither mode is active. *)
Theorem connect_then_shape_ready pub (o : seqobj) (shp : list nat) (w : world) :
  w_seq w = connect pub o ->
  is_IOSequence (o_class o) = true -> holds_values (o_class o) = true ->
  length shp = o_NDIM o -> (forall v, o_INIT o = Some v -> wf v) ->
  exists w1,
    setshape pub shp w = (w1, Ok tt) /\
    has_shape (w_seq w1) shp /\ in_step (w_seq w1) /\
    diskflag_of w1 = Some false /\ ramflag_of w1 = Some false /\
    loads_ext (w_seq w1) = loads_ext o /\
    o_filepath_int (w_seq w1) = o_filepath_int o.
Proof.
  intros Hw Hio Hc Hlen Hinit.
  assert (Hclass : o_class (w_seq w) = o_class o) by (by rewrite Hw).
  assert (Hnd : o_NDIM (w_seq w) = o_NDIM o) by (by rewrite Hw).
  assert (Hd : diskflag_of w = Some false)
    by (unfold diskflag_of; rewrite Hw; cbn; by rewrite Hio).
  assert (Hr : ramflag_of w = Some false)
    by (unfold ramflag_of; rewrite Hw; cbn; by rewrite Hio).
  assert (Hfn : FastAccess.f_ndim (o_fast (w_seq w)) = o_NDIM o) by (by rewrite Hw).
  assert (Hle : loads_ext (w_seq w) = loads_ext o) by (by rewrite Hw).
  assert (Hpi : o_filepath_int (w_seq w) = o_filepath_int o) by (by rewrite Hw).
  assert (Hwi : wf (initvalue pub (w_seq w))).
  { apply wf_initvalue. intros v Hv. apply Hinit. by rewrite Hw in Hv. }
  destruct (o_NDIM o) as [|n] eqn:En.
  - destruct shp; [|done].
    assert (Hnolink : o_class (w_seq w) <> LinkSeq)
      by (rewrite Hclass; by destruct (o_class o)).
    assert (Hnonode : is_NodeSequence (o_class (w_seq w)) = true ->
              exists x, FastAccess.f_value (o_fast (w_seq w)) = PyDouble x)
      by (rewrite Hclass; by destruct (o_class o)).
    pose proof (setshape_0d pub w Hnd Hnolink Hnonode) as Hrun.
    cbn zeta in Hrun. rewrite Hclass, Hio in Hrun.
    rewrite (update_fastaccess_0d
               (with_seq (with_fast (FastAccess.set_value (zero_value (o_class o)))) w)
               Hnd) in Hrun.
    change (diskflag_of (with_seq (with_fast (FastAccess.set_value
              (zero_value (o_class o)))) w)) with (diskflag_of w) in Hrun.
    rewrite Hd in Hrun.
    eexists. split; [exact Hrun|].
    assert (Hz : zero_value (o_class o) = PyFloat zero)
      by (unfold zero_value; by destruct (o_class o)).
    split; [|split; [|split; [|split; [|split]]]]; try done.
    + split; [cbn; by rewrite Hclass|]. cbn. by rewrite Hnd.
    + split; [cbn; by rewrite Hfn, Hnd|]. cbn. rewrite Hnd, Hz.
      exists zero. split; [done|]. unfold wf, zero. lia.
  - assert (Hc' : holds_values (o_class (w_seq w)) = true) by (by rewrite Hclass).
    destruct (setshape_array_run pub w shp n Hc' Hnd (fun _ => Hd) Hlen)
      as (w1 & Hrun & Hv1 & (Hc1 & Hn1 & Hl1 & Hp1) & (Hf1 & Hr1 & Hd1) & _).
    exists w1. split; [exact Hrun|].
    split; [|split; [|split; [|split; [|split]]]]; try congruence.
    + split; [by rewrite Hc1, Hclass|]. rewrite Hn1.
      eexists. split; [exact Hv1|]. split; [done|]. exact Hlen.
    + split; [by rewrite Hf1, Hfn, Hn1|]. rewrite Hn1.
      eexists. split; [exact Hv1|]. split; [apply wf_full|].
      by apply Forall_wf_full.
Qed.

Lemma connect_then_shape_ready_witness :
  exists w1,
    setshape (pub_jan false) [3%nat; 4%nat]
      (world_of (connect (pub_jan false) (new_seq StateSeq 2))) = (w1, Ok tt) /\
    has_shape (w_seq w1) [3%nat; 4%nat] /\ in_step (w_seq w1) /\
    diskflag_of w1 = Some false /\ ramflag_of w1 = Some false /\
    loads_ext (w_seq w1) = loads_ext (new_seq StateSeq 2) /\
    o_filepath_int (w_seq w1) = o_filepath_int (new_seq StateSeq 2).
Proof.
  apply (connect_then_shape_ready (pub_jan false) (new_seq StateSeq 2)
           [3%nat; 4%nat]
           (world_of (connect (pub_jan false) (new_seq StateSeq 2)))).
  - reflexivity.
  - reflexivity.
  - reflexivity.
  - reflexivity.
  - intros v Hv. discriminate Hv.
Defined.

(** X27: moving a series into the mode it is in already leaves it as it
    is: [disk2ram] on a series in RAM keeps the RAM array, and [ram2disk]
    on a series on disk keeps the bytes of the internal file. *)
Theorem move_to_active_mode_keeps_series pub (wr wd : world) (a : ndarray)
    (raw : list byte) :
  ram_established pub wr a -> disk_established pub wd raw ->
  (exists w1, disk2ram pub wr = (w1, Ok tt) /\
     ram_established pub w1 a /\ w_int w1 = w_int wr) /\
  (exists w1, ram2disk pub wd = (w1, Ok tt) /\
     disk_established pub w1 raw /\ w_int w1 = w_int wd).
Proof.
  intros (Hr & Hd & Ha & [p Hp] & row & Hrow & Hsh & Hwf)
    (Hd' & Hr' & (p' & Hp' & Hraw) & row' & Hrow' & Hlen).
  split.
  - unfold disk2ram.
    rewrite (bind_ok _ _ _ _ _ (getseries_ram pub wr a Hr Hd Ha)).
    rewrite (bind_ok deactivate_disk _ wr wr tt)
      by (by rewrite deactivate_disk_eq, Hd).
    unfold bind at 1, setramflag, upd_fast at 1, modify.
    unfold bind at 1, IOSequence_setarray, upd_fast at 1, modify.
    set (w4 := with_seq (with_fast (FastAccess.set_array _)) _).
    assert (Hrow4 : has_shape (w_seq w4) row) by exact Hrow.
    rewrite (update_fastaccess_run w4 row false p Hd (fun H => ltac:(done)) Hrow4).
    eexists. split; [reflexivity|]. split; [|done].
    destruct (refreshed_flags None row (o_NDIM (w_seq w4)) (o_fast (w_seq w4)))
      as (Hr1 & Hd1 & Ha1 & _).
    split; [|split; [|split; [|split]]].
    + unfold ramflag_of. cbn [w_seq with_seq o_fast with_fast]. by rewrite Hr1.
    + unfold diskflag_of. cbn [w_seq with_seq o_fast with_fast]. by rewrite Hd1.
    + cbn [w_seq with_seq o_fast with_fast]. by rewrite Ha1.
    + cbn. rewrite Hp. by eexists.
    + exists row. split; [|done].
      by apply (has_shape_refreshed (w_seq w4) None row (fun s => s)).
  - pose proof (getseries_disk pub wd raw row'
                  (conj Hd' (conj Hr' (conj (ex_intro _ p' (conj Hp' Hraw))
                     (ex_intro _ row' (conj Hrow' Hlen))))) Hrow') as Hget.
    unfold ram2disk. rewrite (bind_ok _ _ _ _ _ Hget).
    rewrite (bind_ok deactivate_ram _ wd wd tt)
      by (by rewrite deactivate_ram_eq, Hr').
    unfold bind at 1, setdiskflag, upd_fast at 1, modify.
    set (w3 := with_seq (with_fast (FastAccess.set_diskflag true)) wd).
    rewrite (bind_ok _ _ _ _ _ (save_int_run w3 p' (series_of pub row' raw) Hp')).
    rewrite (tofile_series_of pub row' raw Hlen).
    set (w4 := with_int _ w3).
    assert (Hrow4 : has_shape (w_seq w4) row') by exact Hrow'.
    rewrite (update_fastaccess_run w4 row' true p' eq_refl (fun _ => Hp') Hrow4).
    assert (Hint : w_int w4 = w_int wd).
    { unfold w4. cbn [w_int with_int w3 with_seq]. by apply insert_id. }
    eexists. split; [reflexivity|]. split; [|exact Hint].
    destruct (refreshed_flags (Some p') row' (o_NDIM (w_seq w4)) (o_fast (w_seq w4)))
      as (Hr1 & Hd1 & _).
    split; [|split; [|split]].
    + unfold diskflag_of. cbn [w_seq with_seq o_fast with_fast]. by rewrite Hd1.
    + unfold ramflag_of. cbn [w_seq with_seq o_fast with_fast]. by rewrite Hr1.
    + exists p'. split; [exact Hp'|]. cbn [w_int with_seq]. by rewrite Hint.
    + exists row'. split; [|done].
      by apply (has_shape_refreshed (w_seq w4) (Some p') row' (fun s => s)).
Qed.

Lemma move_to_active_mode_keeps_series_witness :
  (exists w1, disk2ram (pub_jan false) flux_in_ram = (w1, Ok tt) /\
     ram_established (pub_jan false) w1 flux_series /\
     w_int w1 = w_int flux_in_ram) /\
  (exists w1,
     ram2disk (pub_jan false)
       (disk_activated (pub_jan false) [2%nat] "flux.bin"%string flux_world)
     = (w1, Ok tt) /\
     disk_established (pub_jan false) w1
       (tofile (zero_series (pub_jan false) [2%nat])) /\
     w_int w1
     = w_int (disk_activated (pub_jan false) [2%nat] "flux.bin"%string flux_world)).
Proof.
  apply (move_to_active_mode_keeps_series (pub_jan false) flux_in_ram
           (disk_activated (pub_jan false) [2%nat] "flux.bin"%string flux_world)
           flux_series (tofile (zero_series (pub_jan false) [2%nat]))).
  - split; [reflexivity|]. split; [reflexivity|]. split; [reflexivity|].
    split; [simpl; eauto|]. exists [2%nat]. split; [|split; reflexivity].
    split; [reflexivity|]. eexists. split; [reflexivity|]. split; reflexivity.
  - split; [reflexivity|]. split; [reflexivity|]. split.
    + exists "flux.bin"%string. split; [reflexivity|]. vm_compute. reflexivity.
    + exists [2%nat]. split; [|vm_compute; reflexivity].
      split; [reflexivity|]. eexists. split; [reflexivity|]. split; reflexivity.
Defined.

(** ** The memories of the ARMA model *)
Section ArmaMemories.
Import Arma.

Lemma py_index_nat (n k : nat) : (k < n)%nat -> py_index n (Z.of_nat k) = Ok k.
Proof.
  intros Hk. unfold py_index. rewrite decide_True by lia. f_equal. lia.
Qed.

Lemma getitem1_lookup {A} (xs : list A) (k : nat) x :
  xs !! k = Some x -> getitem1 xs (Z.of_nat k) = Ok x.
Proof.
  intros Hx. unfold getitem1.
  rewrite py_index_nat by (by eapply lookup_lt_Some). by rewrite Hx.
Qed.

Lemma setitem2_lookup (m : matrix) (i j : nat) row x :
  m !! i = Some row -> (j < length row)%nat ->
  setitem2 m (Z.of_nat i) (Z.of_nat j) x = Ok (<[i := <[j := x]> row]> m).
Proof.
  intros Hrow Hj. unfold setitem2.
  rewrite py_index_nat by (by eapply lookup_lt_Some). rewrite Hrow.
  by rewrite py_index_nat.
Qed.

Lemma py_range_down_succ (k : nat) :
  py_range_down (Z.of_nat (S k) - 1) = Z.of_nat k :: py_range_down (Z.of_nat k - 1).
Proof.
  unfold py_range_down, py_range.
  replace (Z.to_nat (Z.of_nat (S k) - 1 + 1)) with (S k) by lia.
  replace (Z.to_nat (Z.of_nat k - 1 + 1)) with k by lia.
  rewrite seq_S, map_app, rev_app_distr. done.
Qed.

(** The loop that moves the memory of one process one step into the
    past. *)
Lemma shift_memory_run (idx k : nat) :
  forall (m : matrix) row,
  m !! idx = Some row -> (k = 0%nat \/ k + 1 <= length row)%nat ->
  shift_memory (Z.of_nat k + 1) (Z.of_nat idx) m
  = (<[idx := take 1 row ++ take k row ++ drop (k + 1) row]> m, Ok tt).
Proof.
  unfold shift_memory.
  replace (Z.of_nat k + 1 - 2) with (Z.of_nat k - 1) by lia.
  induction k as [|k IH]; intros m row Hrow Hk.
  - change (py_range_down (Z.of_nat 0 - 1)) with (@nil Z). cbn [for_range].
    rewrite take_0, app_nil_l, take_drop. by rewrite list_insert_id.
  - destruct Hk as [|Hk]; [done|].
    rewrite py_range_down_succ. cbn [for_range].
    assert (Hx : exists x, row !! k = Some x)
      by (apply lookup_lt_is_Some; lia).
    destruct Hx as [x Hx].
    unfold bind at 1, update at 1, getitem2.
    rewrite (getitem1_lookup m idx row Hrow). cbn [rbind].
    rewrite (getitem1_lookup row k x Hx). cbn [rbind].
    replace (Z.of_nat k + 1) with (Z.of_nat (k + 1)) by lia.
    rewrite (setitem2_lookup m idx (k + 1) row x Hrow) by lia.
    set (row' := <[(k + 1)%nat := x]> row).
    assert (Hidx : (idx < length m)%nat) by (by eapply lookup_lt_Some).
    rewrite (IH (<[idx := row']> m) row').
    + rewrite list_insert_insert_eq. do 2 f_equal.
      unfold row'.
      rewrite take_insert_ge by lia. rewrite take_insert_ge by lia.
      rewrite drop_insert_ge by lia.
      replace (k + 1 - (k + 1))%nat with 0%nat by lia.
      assert (Hy : exists y, row !! (k + 1)%nat = Some y)
        by (apply lookup_lt_is_Some; lia).
      destruct Hy as [y Hy].
      rewrite (drop_S row y (k + 1) Hy). cbn [insert list_insert].
      rewrite (take_S_r row k x Hx), <- app_assoc. cbn [app].
      by replace (S k + 1)%nat with (S (k + 1)) by lia.
    + by rewrite list_lookup_insert_eq.
    + right. unfold row'. rewrite length_insert. lia.
Qed.


(** A loop over the rows whose body replaces the row of its index. *)
Lemma for_rows (body : Z -> M matrix unit)
    (g : nat -> list float64 -> list float64)
    (P : nat -> list float64 -> Prop) :
  (forall idx (m : matrix) row, m !! idx = Some row -> P idx row ->
     body (Z.of_nat idx) m = (<[idx := g idx row]> m, Ok tt)) ->
  forall n i (m : matrix),
    (i + n = length m)%nat ->
    (forall j row, (i <= j)%nat -> m !! j = Some row -> P j row) ->
    for_range (map Z.of_nat (seq i n)) body m
    = (take i m ++ imap (fun j row => g (i + j)%nat row) (drop i m), Ok tt).
Proof.
  intros Hbody. induction n as [|n IH]; intros i m Hlen HP.
  - cbn [seq map for_range]. unfold ret.
    rewrite take_ge, drop_ge by lia. cbn. by rewrite app_nil_r.
  - cbn [seq map for_range].
    assert (Hrow : exists row, m !! i = Some row)
      by (apply lookup_lt_is_Some; lia).
    destruct Hrow as [row Hrow].
    unfold bind at 1. rewrite (Hbody i m row Hrow (HP i row (le_n _) Hrow)).
    rewrite (IH (S i) (<[i := g i row]> m)).
    + f_equal. rewrite take_insert_lt by lia. rewrite drop_insert_lt by lia.
      rewrite (take_S_r m i row Hrow).
      rewrite insert_app_r_alt by (rewrite length_take; lia).
      rewrite length_take. replace (i - i `min` length m)%nat with 0%nat by lia.
      cbn [insert list_insert]. rewrite <- app_assoc. f_equal.
      rewrite (drop_S m row i Hrow). cbn [imap app].
      rewrite Nat.add_0_r. f_equal. apply imap_ext. intros j x _. cbn.
      f_equal. lia.
    + rewrite length_insert. lia.
    + intros j row' Hj Hrow'. apply HP; [lia|].
      by rewrite list_lookup_insert_ne in Hrow' by lia.
Qed.

Lemma py_range_seq (n : nat) : py_range (Z.of_nat n) = map Z.of_nat (seq 0 n).
Proof. unfold py_range. by rewrite Nat2Z.id. Qed.

Lemma length_moved orders i row o :
  orders !! i = Some o -> 0 <= o <= Z.of_nat (length row) ->
  length (moved orders i row) = length row.
Proof.
  intros Ho Hor. unfold moved. rewrite Ho.
  rewrite !length_app, !length_take, length_drop. lia.
Qed.

Lemma move_memories (orders : list Z) (m : matrix) :
  (forall i row, m !! i = Some row ->
     exists o, orders !! i = Some o /\ 0 <= o <= Z.of_nat (length row)) ->
  for_range (py_range (Z.of_nat (length m))) (fun idx =>
    order <- lift (getitem1 orders idx); shift_memory order idx)%mon m
  = (imap (moved orders) m, Ok tt).
Proof.
  intros Hm. rewrite py_range_seq.
  rewrite (for_rows _ (moved orders)
             (fun i row => exists o, orders !! i = Some o /\
                                     0 <= o <= Z.of_nat (length row))).
  - done.
  - intros idx m0 row Hrow (o & Ho & Hor).
    unfold bind, lift. rewrite (getitem1_lookup orders idx o Ho).
    unfold moved. rewrite Ho. set (k := Z.to_nat (o - 1)).
    destruct (decide (o = 0)) as [->|Hne].
    + replace 0 with (Z.of_nat 0 + 1 - 1) at 1 by lia.
      change (Z.of_nat 0 + 1 - 1) with 0.
      assert (H0 : shift_memory 0 (Z.of_nat idx) m0 = (m0, Ok tt)) by done.
      rewrite H0. f_equal. change k with 0%nat.
      rewrite take_0, app_nil_l, take_drop. by rewrite list_insert_id.
    + assert (Hs : shift_memory o (Z.of_nat idx) m0
                   = shift_memory (Z.of_nat k + 1) (Z.of_nat idx) m0)
        by (f_equal; lia).
      rewrite Hs. apply shift_memory_run; [done|]. right. lia.
  - done.
  - intros j row _ Hrow. by apply Hm.
Qed.

End ArmaMemories.

(** X28: [calc_login_v1] moves the memory of every MA process one step
    into the past and takes the new inflow portion in: the row of a
    process of order [o] then holds the portion first and its [o - 1]
    latest values behind it; what lies behind the order is untouched.
    The portion is written also for a process of order 0. *)
Theorem calc_login_takes_in (der : Arma.derived) (flu : Arma.fluxes)
    (login : list (list float64)) :
  Arma.nmb der = Z.of_nat (length login) ->
  (forall i row, login !! i = Some row ->
     exists o q, Arma.ma_order der !! i = Some o /\ Arma.qpin flu !! i = Some q /\
                 0 <= o <= Z.of_nat (length row) /\ (0 < length row)%nat) ->
  exists login',
    Arma.calc_login_v1 der flu login = (login', Ok tt) /\
    length login' = length login /\
    forall i row o q,
      login !! i = Some row -> Arma.ma_order der !! i = Some o ->
      Arma.qpin flu !! i = Some q ->
      login' !! i = Some (Arma.taken_in q o row).
Proof.
  intros Hnmb Hrows.
  set (g2 := fun i (row : list float64) =>
               match Arma.qpin flu !! i with
               | Some q => <[0%nat := q]> row
               | None => row
               end).
  exists (imap g2 (imap (Arma.moved (Arma.ma_order der)) login)).
  split; [|split].
  - unfold Arma.calc_login_v1. rewrite Hnmb.
    rewrite (bind_ok _ _ _ _ _ (move_memories (Arma.ma_order der) login
               (fun i row Hrow =>
                  match Hrows i row Hrow with
                  | ex_intro _ o (ex_intro _ q (conj Ho (conj _ (conj Hor _)))) =>
                      ex_intro _ o (conj Ho Hor)
                  end))).
    replace (length login) with (length (imap (Arma.moved (Arma.ma_order der)) login))
      by apply length_imap.
    rewrite py_range_seq.
    rewrite (for_rows _ g2
               (fun i row => exists q, Arma.qpin flu !! i = Some q /\
                                       (0 < length row)%nat)).
    + done.
    + intros idx m0 row Hrow (q & Hq & Hpos).
      unfold Arma.update. rewrite (getitem1_lookup (Arma.qpin flu) idx q Hq).
      cbn [rbind]. change 0 with (Z.of_nat 0).
      rewrite (setitem2_lookup m0 idx 0 row q Hrow Hpos).
      unfold g2. by rewrite Hq.
    + done.
    + intros j row' _ Hrow'.
      apply list_lookup_imap_Some in Hrow' as (row & Hrow & ->).
      destruct (Hrows j row Hrow) as (o & q & Ho & Hq & Hor & Hpos).
      exists q. split; [done|]. by rewrite (length_moved _ _ _ o).
  - by rewrite !length_imap.
  - intros i row o q Hrow Ho Hq.
    rewrite !list_lookup_imap, Hrow. cbn. f_equal.
    unfold g2, Arma.moved. rewrite Hq, Ho.
    destruct (Hrows i row Hrow) as (o' & q' & Ho' & _ & Hor & Hpos).
    assert (o' = o) as -> by congruence.
    destruct row as [|x row]; [simpl in Hpos; lia|].
    unfold Arma.taken_in. cbn [take app insert list_insert].
    rewrite take_0, app_nil_l. do 3 f_equal. lia.
Qed.

Lemma calc_login_takes_in_witness :
  exists login',
    Arma.calc_login_v1
      {| Arma.nmb := 2; Arma.ma_order := [2; 3]; Arma.ar_order := [] |}
      {| Arma.qpin := [one; two]; Arma.qpout := [] |}
      [[two; three; nan]; [zero; one; two]] = (login', Ok tt) /\
    length login' = length [[two; three; nan]; [zero; one; two]] /\
    forall i row o q,
      [[two; three; nan]; [zero; one; two]] !! i = Some row ->
      [2; 3] !! i = Some o -> [one; two] !! i = Some q ->
      login' !! i = Some (Arma.taken_in q o row).
Proof.
  apply (calc_login_takes_in
           {| Arma.nmb := 2; Arma.ma_order := [2; 3]; Arma.ar_order := [] |}
           {| Arma.qpin := [one; two]; Arma.qpout := [] |}
           [[two; three; nan]; [zero; one; two]]).
  - reflexivity.
  - intros [|[|i]] row Hrow; simpl in Hrow; [| |discriminate Hrow].
    + injection Hrow as <-. exists 2, one.
      split; [reflexivity|]. split; [reflexivity|]. split; simpl; lia.
    + injection Hrow as <-. exists 3, two.
      split; [reflexivity|]. split; [reflexivity|]. split; simpl; lia.
Defined.

(** X29: [calc_logout_v1] moves the memory of every AR process one step
    into the past and takes the new outflow portion in, as
    [calc_login_v1] does for the MA processes, except that the row of a
    process of order 0 is left as it is. *)
Theorem calc_logout_takes_in (der : Arma.derived) (flu : Arma.fluxes)
    (logout : list (list float64)) :
  Arma.nmb der = Z.of_nat (length logout) ->
  (forall i row, logout !! i = Some row ->
     exists o, Arma.ar_order der !! i = Some o /\
               0 <= o <= Z.of_nat (length row) /\
               (o > 0 -> exists q, Arma.qpout flu !! i = Some q)) ->
  exists logout',
    Arma.calc_logout_v1 der flu logout = (logout', Ok tt) /\
    length logout' = length logout /\
    forall i row o,
      logout !! i = Some row -> Arma.ar_order der !! i = Some o ->
      (o = 0 -> logout' !! i = Some row) /\
      (forall q, o > 0 -> Arma.qpout flu !! i = Some q ->
                 logout' !! i = Some (Arma.taken_in q o row)).
Proof.
  intros Hnmb Hrows.
  set (g2 := fun i (row : list float64) =>
               match Arma.ar_order der !! i, Arma.qpout flu !! i with
               | Some o, Some q => if decide (o > 0) then <[0%nat := q]> row else row
               | _, _ => row
               end).
  exists (imap g2 (imap (Arma.moved (Arma.ar_order der)) logout)).
  split; [|split].
  - unfold Arma.calc_logout_v1. rewrite Hnmb.
    rewrite (bind_ok _ _ _ _ _ (move_memories (Arma.ar_order der) logout
               (fun i row Hrow =>
                  match Hrows i row Hrow with
                  | ex_intro _ o (conj Ho (conj Hor _)) =>
                      ex_intro _ o (conj Ho Hor)
                  end))).
    replace (length logout)
      with (length (imap (Arma.moved (Arma.ar_order der)) logout))
      by apply length_imap.
    rewrite py_range_seq.
    rewrite (for_rows _ g2
               (fun i row => exists o, Arma.ar_order der !! i = Some o /\
                  (o > 0 -> (exists q, Arma.qpout flu !! i = Some q) /\
                            (0 < length row)%nat))).
    + done.
    + intros idx m0 row Hrow (o & Ho & Hpos).
      unfold bind, lift. rewrite (getitem1_lookup (Arma.ar_order der) idx o Ho).
      unfold g2. rewrite Ho. destruct (decide (o > 0)) as [Hgt|Hle].
      * destruct (Hpos Hgt) as [[q Hq] Hlen]. rewrite Hq.
        unfold Arma.update. rewrite (getitem1_lookup (Arma.qpout flu) idx q Hq).
        cbn [rbind]. change 0 with (Z.of_nat 0).
        by rewrite (setitem2_lookup m0 idx 0 row q Hrow Hlen).
      * unfold ret. f_equal. assert (Hid : <[idx := row]> m0 = m0)
          by (by apply list_insert_id).
        by destruct (Arma.qpout flu !! idx); rewrite Hid.
    + done.
    + intros j row' _ Hrow'.
      apply list_lookup_imap_Some in Hrow' as (row & Hrow & ->).
      destruct (Hrows j row Hrow) as (o & Ho & Hor & Hq).
      exists o. split; [done|]. intros Hgt. split; [by apply Hq|].
      rewrite (length_moved _ _ _ o) by done. lia.
  - by rewrite !length_imap.
  - intros i row o Hrow Ho.
    destruct (Hrows i row Hrow) as (o' & Ho' & Hor & Hq').
    assert (o' = o) as -> by congruence.
    split.
    + intros ->. rewrite !list_lookup_imap, Hrow. cbn. f_equal.
      unfold g2, Arma.moved. rewrite Ho. cbn [Z.sub Z.to_nat].
      assert (Hsame : take 1 row ++ take (Z.to_nat (0 - 1)) row
                      ++ drop (Z.to_nat (0 - 1) + 1) row = row).
      { change (Z.to_nat (0 - 1)) with 0%nat.
        by rewrite take_0, app_nil_l, take_drop. }
      destruct (Arma.qpout flu !! i); [rewrite decide_False by lia|]; exact Hsame.
    + intros q Hgt Hq. rewrite !list_lookup_imap, Hrow. cbn. f_equal.
      unfold g2, Arma.moved. rewrite Hq, Ho. rewrite decide_True by done.
      destruct row as [|x row]; [simpl in Hor; lia|].
      unfold Arma.taken_in. cbn [take app insert list_insert].
      rewrite take_0, app_nil_l. do 3 f_equal. lia.
Qed.

Lemma calc_logout_takes_in_witness :
  exists logout',
    Arma.calc_logout_v1
      {| Arma.nmb := 2; Arma.ma_order := []; Arma.ar_order := [0; 2] |}
      {| Arma.qpin := []; Arma.qpout := [one; two] |}
      [[nan; nan]; [zero; one]] = (logout', Ok tt) /\
    length logout' = length [[nan; nan]; [zero; one]] /\
    forall i row o,
      [[nan; nan]; [zero; one]] !! i = Some row -> [0; 2] !! i = Some o ->
      (o = 0 -> logout' !! i = Some row) /\
      (forall q, o > 0 -> [one; two] !! i = Some q ->
                 logout' !! i = Some (Arma.taken_in q o row)).
Proof.
  apply (calc_logout_takes_in
           {| Arma.nmb := 2; Arma.ma_order := []; Arma.ar_order := [0; 2] |}
           {| Arma.qpin := []; Arma.qpout := [one; two] |}
           [[nan; nan]; [zero; one]]).
  - reflexivity.
  - intros [|[|i]] row Hrow; simpl in Hrow; [| |discriminate Hrow].
    + injection Hrow as <-. exists 0.
      split; [reflexivity|]. split; [simpl; lia|]. intros H. lia.
    + injection Hrow as <-. exists 2.
      split; [reflexivity|]. split; [simpl; lia|]. intros _. by exists two.
Defined.

(** ** Saving, assigning other values, loading again *)
Section RoundTrip.
Import FastAccess.

Lemma as_float_cases s :
  as_float s = s \/
  exists x, f_value s = PyDouble x /\ as_float s = set_value (PyFloat x) s.
Proof.
  unfold as_float. destruct s as [v nd len lens rf df pa fi ar]. cbn.
  destruct v as [|x|a|[x|shp]]; cbn; try (by left).
  right. by exists x.
Qed.

Lemma cell_free_array v a : cell_free v = PyArray a -> v = PyArray a.
Proof. by destruct v as [|x|b|[x|shp]]. Qed.

Lemma cell_free_float v x :
  cell_free v = PyFloat x -> v = PyFloat x \/ v = PyDouble x.
Proof. destruct v as [|y|b|[y|shp]]; intros [= <-]; (by left) || (by right). Qed.

Lemma live_flag i fs s :
  live i fs s ->
  (f_diskflag s = Some true /\ disk_ready fs (as_float s)) \/
  (f_diskflag s = Some false /\ (ram_ready i (as_float s) \/ transient s)).
Proof.
  intros [Hs|[Hs|Hs]].
  - right. split; [exact (proj1 Hs)|by left].
  - left. split; [exact (proj1 Hs)|done].
  - right. split; [exact (proj1 Hs)|by right].
Qed.

Lemma disk_facts fs s :
  disk_ready fs (as_float s) ->
  is_Some (f_ramflag s) /\ (f_ndim s <= length (f_lengths s))%nat /\
  exists p, f_path s = Some p /\ is_Some (fs !! p).
Proof. intros (_ & Hr & Hlen & Hp & _). exact (conj Hr (conj Hlen Hp)). Qed.

Lemma live_files i fs fs' s :
  (forall q, is_Some (fs !! q) -> is_Some (fs' !! q)) ->
  live i fs s -> live i fs' s.
Proof.
  intros Hsub [Hs|[Hs|Hs]]; [by left| |by right; right].
  right; left. by eapply disk_ready_files.
Qed.

(** *** The bodies on a live sequence *)

Lemma f_diskflag_ram_saved i s : f_diskflag (ram_saved i s) = f_diskflag s.
Proof.
  unfold ram_saved. destruct (f_ramflag s) as [[|]|]; try done.
  destruct (f_array s); [|done]. by destruct (np_setitem _ _ _).
Qed.

Lemma openfiles_body_at py3 i fs s h p :
  0 <= i -> f_diskflag s = Some true ->
  (f_ndim s <= length (f_lengths s))%nat ->
  f_path s = Some p -> is_Some (fs !! p) ->
  openfiles_body py3 i fs (set_file h s) = Ok (reopened i s).
Proof.
  intros Hi Hd Hlen Hp [c Hc].
  unfold openfiles_body, reopened; cbn [set_file f_diskflag f_path].
  rewrite Hd; cbn [getattr].
  rewrite Hp. unfold open_rbplus. rewrite Hc.
  unfold axis_lengths. cbn [set_file f_ndim f_lengths].
  rewrite decide_True by done.
  unfold file_seek. cbn [h_closed].
  rewrite decide_False
    by (pose proof (start_of_nonneg i s Hi); unfold lens_of in *; lia).
  done.
Qed.

Lemma openfiles_body_not_disk py3 i fs s :
  f_diskflag s = Some false -> openfiles_body py3 i fs s = Ok s.
Proof. intros Hd. unfold openfiles_body. by rewrite Hd. Qed.

Lemma open_first py3 i fs s :
  0 <= i -> live i fs s ->
  pure_body (openfiles_body py3 i) i (s, fs) = ((reopened i s, fs), Ok i).
Proof.
  intros Hi Hs. unfold pure_body.
  destruct (live_flag i fs s Hs) as [[Hd Hr]|[Hd _]].
  - destruct (disk_facts fs s Hr) as (_ & Hlen & p & Hp & Hc).
    rewrite <- (set_file_same s) at 1.
    by rewrite (openfiles_body_at py3 i fs s _ p Hi Hd Hlen Hp Hc).
  - by rewrite openfiles_body_not_disk, reopened_not_disk.
Qed.

Lemma open_again py3 i fs0 fs s :
  0 <= i -> live i fs0 s ->
  (forall q, is_Some (fs0 !! q) -> is_Some (fs !! q)) ->
  pure_body (openfiles_body py3 i) i (shut i s, fs) = ((again i s, fs), Ok i).
Proof.
  intros Hi Hs Hsub. unfold pure_body, shut, again.
  destruct (live_flag i fs0 s Hs) as [[Hd Hr]|[Hd _]]; rewrite Hd.
  - destruct (disk_facts fs0 s Hr) as (_ & Hlen & p & Hp & Hc).
    assert (exists h, closed i s = set_file h s) as [h ->].
    { unfold closed. rewrite Hd, Hp. by eexists. }
    by rewrite (openfiles_body_at py3 i fs s _ p Hi Hd Hlen Hp (Hsub _ Hc)).
  - rewrite openfiles_body_not_disk; [done|].
    by rewrite f_diskflag_ram_saved.
Qed.

Lemma close_saved i fs0 fs s idx :
  live i fs0 s ->
  pure_body (fun _ => closefiles_body) idx (saved i s, fs)
  = ((shut i s, fs), Ok idx).
Proof.
  intros Hs. unfold pure_body, saved, shut.
  destruct (live_flag i fs0 s Hs) as [[Hd Hr]|[Hd _]]; rewrite Hd.
  - destruct (disk_facts fs0 s Hr) as (_ & _ & p & Hp & _).
    unfold advanced, closed, closefiles_body. rewrite Hd, Hp.
    cbn [set_file f_diskflag f_file getattr]. by rewrite Hd.
  - unfold closefiles_body. by rewrite f_diskflag_ram_saved, Hd.
Qed.

(** The index that the body of [savedata] and of [loaddata] hands on. *)
Lemma save_body_live i fs s idx :
  live i fs s ->
  (f_diskflag s = Some false -> f_ramflag s = Some true -> idx = i) ->
  savedata_body idx (reopened i s, fs)
  = ((saved i s, save_to i (as_float s) fs),
     Ok (match f_diskflag s with
         | Some true => idx_after_range (f_ndim s) idx
         | _ => idx
         end)).
Proof.
  intros Hs Hidx.
  destruct (live_flag i fs s Hs) as [[Hd Hr]|[Hd Hr]]; rewrite Hd.
  - unfold saved. rewrite Hd.
    destruct (as_float_cases s) as [Hsame|(x & Hx & Hsame)]; rewrite Hsame in *.
    + by apply savedata_body_disk_idx.
    + destruct (disk_facts fs s) as ([b Hb] & Hlen & p & Hp & [c Hc]);
        [by rewrite Hsame|].
      destruct Hr as (_ & _ & _ & _ & Hv).
      cbn [set_value f_ndim f_value] in Hv.
      destruct (f_ndim s) eqn:En.
      2:{ by destruct Hv as (v & Hv & _). }
      unfold savedata_body, reopened, advanced, save_to.
      cbn [set_value f_diskflag f_path]. rewrite Hd, Hp, Hc.
      cbn [set_file f_diskflag f_ramflag f_file f_value f_ndim getattr].
      rewrite Hd, Hb. cbn [getattr].
      unfold axis_lengths. cbn [set_file f_ndim f_lengths].
      rewrite decide_True by (rewrite En; lia). rewrite En, Hx. cbn [pack_actual].
      unfold file_write. cbn [h_closed h_path h_pos]. rewrite Hc.
      unfold write_at, record_of, start_of, lens_of, record_size.
      cbn [set_value f_value f_ndim f_lengths]. rewrite En.
      cbn [take length_tot fold_left idx_after_range].
      by rewrite length_pack_d.
  - rewrite reopened_not_disk, saved_not_disk by done.
    unfold save_to. cbn [as_float set_value f_diskflag]. rewrite Hd.
    destruct Hr as [Hr|Hr].
    + rewrite (Hidx Hd (proj1 (proj2 Hr))).
      destruct (as_float_cases s) as [Hsame|(x & Hx & Hsame)]; rewrite Hsame in *.
      * by destruct (savedata_body_ram_or_transient i s fs i eq_refl (or_introl Hr))
          as (idx' & -> & ->).
      * destruct Hr as (_ & Hram & a & T & row & Ha & Hsh & Hwf & Hi & Hlen & Hv).
        cbn [set_value f_ndim f_value f_ramflag f_array] in *.
        unfold savedata_body, ram_saved. rewrite Hd, Hram, Ha, Hx. cbn [getattr].
        by rewrite (np_setitem_block a T row i _ (replicate (size_of row) x)).
    + rewrite ram_saved_transient by done.
      destruct Hr as [_ Hr]. unfold savedata_body. by rewrite Hd, Hr.
Qed.

(** *** What the files hold after saving *)

Lemma save_all_keeps i fa fs q :
  is_Some (fs !! q) -> is_Some (save_all i fa fs !! q).
Proof.
  unfold save_all. revert fs.
  induction fa as [|[n s] fa IH]; intros fs Hq; [done|].
  cbn [foldl snd]. apply IH. by apply save_to_keeps.
Qed.

Lemma disk_paths_as_float fa : disk_paths (on_slots as_float fa) = disk_paths fa.
Proof.
  induction fa as [|[n s] fa IH]; [done|].
  cbn [on_slots map disk_paths fst snd]. fold (on_slots as_float fa).
  by rewrite IH.
Qed.

Lemma save_all_no_disk i fa fs :
  Forall (fun p => f_diskflag p.2 = Some false) fa ->
  save_all i (on_slots as_float fa) fs = fs.
Proof.
  unfold save_all. induction 1 as [|[n s] fa Hd _ IH]; [done|].
  cbn [on_slots map foldl fst snd]. fold (on_slots as_float fa).
  by rewrite save_to_not_disk.
Qed.

Lemma save_all_holds_live i fa :
  forall fs,
  NoDup (disk_paths fa) ->
  Forall (fun p => live i fs p.2) fa ->
  Forall (fun p => holds_record i (save_all i (on_slots as_float fa) fs)
                     (as_float p.2)) fa.
Proof.
  induction fa as [|[name s] fa IH]; intros fs Hnd Hfa; [constructor|].
  apply Forall_cons in Hfa as [Hs Hfa]. cbn [snd] in Hs.
  cbn [disk_paths] in Hnd. cbn [on_slots map fst snd].
  fold (on_slots as_float fa).
  unfold save_all. cbn [foldl snd].
  fold (save_all i (on_slots as_float fa) (save_to i (as_float s) fs)).
  constructor.
  - cbn [snd]. unfold holds_record.
    change (f_diskflag (as_float s)) with (f_diskflag s).
    change (f_path (as_float s)) with (f_path s).
    destruct (live_flag i fs s Hs) as [[Hd Hr]|[Hd _]]; [|by rewrite Hd].
    pose proof (length_record_of fs _ Hr) as Hrec.
    destruct (disk_facts fs s Hr) as (_ & _ & p & Hp & [c Hc]).
    rewrite Hd, Hp in Hnd |- *. apply NoDup_cons in Hnd as [Hnotin _].
    rewrite save_all_other by (by rewrite disk_paths_as_float).
    unfold save_to.
    change (f_diskflag (as_float s)) with (f_diskflag s).
    change (f_path (as_float s)) with (f_path s).
    rewrite Hd, Hp, Hc, lookup_insert_eq.
    eexists. split; [done|]. rewrite <- Hrec. apply read_write_at.
  - apply IH.
    + destruct (f_diskflag s) as [[|]|]; try done.
      destruct (f_path s); try done. by apply NoDup_cons in Hnd as [_ ?].
    + eapply Forall_impl; [exact Hfa|]. intros [n s'] H.
      eapply live_files; [|exact H]. intros q. apply save_to_keeps.
Qed.

(** *** Loading into a sequence whose value was replaced *)

Lemma reopened_set_value i v s :
  reopened i (set_value v s) = set_value v (reopened i s).
Proof.
  unfold reopened. cbn [set_value f_diskflag f_path].
  destruct (f_diskflag s) as [[|]|]; try done. by destruct (f_path s).
Qed.

Lemma loaddata_body_streams_idx i fs s idx :
  0 <= i -> streamable i fs s ->
  loaddata_body idx (reopened i s, fs)
  = ((loaded i fs s, fs), Ok (idx_after_range (f_ndim s) idx)).
Proof.
  intros Hi (Hd & [b Hr] & Hlen & (p & c & Hp & Hc & Hfit) & Hv).
  unfold loaddata_body, reopened, loaded. rewrite Hd, Hp, Hc.
  cbn [set_file f_diskflag f_ramflag f_file getattr].
  rewrite Hd, Hr. cbn [getattr].
  unfold axis_lengths. cbn [set_file f_ndim f_lengths].
  rewrite decide_True by done. fold (lens_of s).
  unfold file_read. cbn [h_closed h_path h_pos]. rewrite Hc.
  fold (record_size (lens_of s)). fold (record_at i s c).
  assert (Hraw : length (record_at i s c) = record_size (lens_of s)).
  { unfold record_at. rewrite length_take, length_drop. lia. }
  rewrite Hraw. rewrite decide_True by done.
  cbn [set_file f_ndim]. unfold decoded, reopened. rewrite Hd, Hp.
  rewrite (start_of_next i s Hi).
  destruct (f_ndim s) eqn:En.
  - assert (Hl : length_tot (lens_of s) = 1%nat).
    { unfold lens_of. by rewrite En. }
    rewrite Hl. cbn [unpack_seq rbind]. unfold store_loaded.
    cbn [set_file f_ndim]. by rewrite En.
  - destruct Hv as (v & Hx & Hsh). cbn [rbind].
    unfold store_loaded. cbn [set_file f_ndim f_value]. rewrite En, Hx.
    unfold np_assign_all. rewrite Hsh.
    assert (Hne : exists l0 ls, lens_of s = l0 :: ls).
    { unfold lens_of. rewrite En. destruct (f_lengths s); [simpl in Hlen; lia|].
      by eexists _, _. }
    destruct Hne as (l0 & ls & Hls). rewrite Hls.
    cbn [np_source shape data]. by rewrite decide_True.
Qed.

Lemma load_body_live i fs fs2 s v idx :
  0 <= i -> live i fs s -> holds_record i fs2 (as_float s) ->
  same_kind (f_value s) v ->
  (f_diskflag s = Some false -> f_ramflag s = Some true -> idx = i) ->
  exists s',
    loaddata_body idx (set_value v (again i s), fs2)
    = ((s', fs2),
       Ok (match f_diskflag s with
           | Some true => idx_after_range (f_ndim s) idx
           | _ => idx
           end)) /\
    (transient s -> f_value s' = v) /\
    (~ transient s -> f_value s' = cell_free (f_value s)).
Proof.
  intros Hi Hs Hrec Hkind Hidx. unfold again.
  destruct (live_flag i fs s Hs) as [[Hd Hr]|[Hd [Hr|Hr]]]; rewrite Hd.
  - (* disk mode *)
    pose proof (length_record_of fs _ Hr) as Hlr.
    destruct (disk_facts fs s Hr) as (Hb & Hlen & p & Hp & _).
    destruct Hr as (_ & _ & _ & _ & Hv).
    change (f_ndim (as_float s)) with (f_ndim s) in Hv.
    change (f_value (as_float s)) with (cell_free (f_value s)) in Hv.
    change (lens_of (as_float s)) with (lens_of s) in Hv, Hlr.
    unfold holds_record in Hrec.
    change (f_diskflag (as_float s)) with (f_diskflag s) in Hrec.
    change (f_path (as_float s)) with (f_path s) in Hrec.
    rewrite Hd, Hp in Hrec. destruct Hrec as (c & Hc & Hread).
    change (lens_of (as_float s)) with (lens_of s) in Hread.
    change (start_of i (as_float s)) with (start_of i s) in Hread.
    assert (Hfit : (start_of i s + record_size (lens_of s) <= length c)%nat).
    { pose proof (f_equal length Hread) as Hl.
      rewrite length_take, length_drop, Hlr in Hl.
      destruct (decide (record_size (lens_of s) = 0%nat)) as [H0|H0]; [|lia].
      unfold start_of. rewrite seek_position_record, H0. simpl. lia. }
    assert (Hstream : streamable i fs2 (set_value v s)).
    { split; [exact Hd|]. split; [exact Hb|]. split; [exact Hlen|].
      split; [by exists p, c|].
      cbn [set_value f_ndim f_value]. destruct (f_ndim s); [done|].
      destruct Hv as (a & Ha & Hsh & _). apply cell_free_array in Ha.
      rewrite Ha in Hkind. destruct Hkind as (a' & -> & Hsh').
      exists a'. split; [done|]. by rewrite Hsh'. }
    rewrite <- reopened_set_value.
    rewrite (loaddata_body_streams_idx i fs2 _ idx Hi Hstream).
    eexists. split; [reflexivity|]. split.
    { intros [Ht _]. by rewrite Hd in Ht. }
    intros _. unfold loaded. cbn [set_value f_diskflag f_path].
    rewrite Hd, Hp, Hc. cbn [set_value f_value].
    unfold record_at.
    change (lens_of (set_value v s)) with (lens_of s).
    change (start_of i (set_value v s)) with (start_of i s).
    rewrite Hread. unfold decoded, record_of.
    cbn [set_value f_ndim]. cbn [as_float set_value f_value].
    change (lens_of (set_value v s)) with (lens_of s).
    destruct (f_ndim s) eqn:En.
    + destruct Hv as (x & Hx & Hwx). rewrite Hx.
      rewrite take_ge by (rewrite length_pack_d; lia).
      by rewrite unpack_pack_d.
    + destruct Hv as (a & Ha & Hsh & Hwf & Hall). rewrite Ha.
      assert (Hl : length_tot (lens_of s) = length (data a)).
      { by rewrite length_tot_size, Hwf, Hsh. }
      rewrite Hl.
      pose proof (unpack_pack_seq (data a) [] Hall) as Hun.
      rewrite app_nil_r in Hun. rewrite Hun, <- Hsh. by destruct a.
  - (* RAM mode *)
    destruct Hr as (_ & Hram & a & T & row & Ha & Hsh & Hwf & Hi' & Hlen & Hv).
    change (f_ramflag (as_float s)) with (f_ramflag s) in Hram.
    change (f_array (as_float s)) with (f_array s) in Ha.
    change (f_ndim (as_float s)) with (f_ndim s) in Hlen, Hv.
    change (f_value (as_float s)) with (cell_free (f_value s)) in Hv.
    rewrite (Hidx Hd Hram).
    assert (Hsrc : exists d, np_source row (f_value s) = Ok d /\
              length d = size_of row /\
              match f_ndim s with
              | O => exists x, cell_free (f_value s) = PyFloat x /\ d = [x]
              | S _ => exists av, cell_free (f_value s) = PyArray av /\
                         shape av = row /\ d = data av
              end).
    { destruct (f_ndim s) eqn:En.
      - destruct row; [|done]. destruct Hv as [x Hx].
        exists [x]. split; [|split; [done|by exists x]].
        by destruct (cell_free_float _ _ Hx) as [->| ->].
      - destruct Hv as (av & Hx & Hshv & Hwv).
        exists (data av). pose proof (cell_free_array _ _ Hx) as ->.
        split; [|split; [by rewrite Hwv, Hshv|by exists av]].
        cbn [np_source]. by rewrite decide_True. }
    destruct Hsrc as (d & Hsrc & Hd_len & Hd_val).
    set (a1 := {| shape := T :: row;
                  data := take (Z.to_nat i * size_of row) (data a) ++ d
                          ++ drop ((Z.to_nat i + 1) * size_of row) (data a) |}).
    assert (Hsaved : ram_saved i s = set_array (Some a1) s).
    { unfold ram_saved. rewrite Hram, Ha.
      by rewrite (np_setitem_block a T row i _ d). }
    rewrite Hsaved.
    assert (Hda : length (data a) = (T * size_of row)%nat).
    { unfold wf_array in Hwf. by rewrite Hwf, Hsh. }
    assert (Hwf1 : wf_array a1).
    { unfold wf_array, a1. cbn [shape data].
      change (size_of (T :: row)) with (T * size_of row)%nat.
      rewrite !length_app, length_take, length_drop, Hd_len, Hda. nia. }
    destruct (loaddata_body_ram_block i (set_value v (set_array (Some a1) s))
                fs2 a1 T row) as (s' & Hrun & Hdata & _ & _ & _ & Hres);
      try done.
    { cbn [set_value set_array f_ndim f_value].
      destruct (f_ndim s); [done|].
      destruct Hd_val as (av & Hx & Hshv & _). apply cell_free_array in Hx.
      rewrite Hx in Hkind. destruct Hkind as (a' & -> & Hsh').
      exists a'. split; [done|]. by rewrite Hsh', Hshv. }
    exists s'. split; [exact Hrun|]. split.
    { intros [_ Ht]. by rewrite Hram in Ht. }
    intros _.
    assert (Hblock : take (size_of row) (drop (Z.to_nat i * size_of row) (data a1))
                     = d).
    { unfold a1. cbn [data]. apply (block_of_updated _ _ _ _ T); [done|lia|done]. }
    rewrite Hblock in Hdata.
    cbn [set_value set_array f_ndim] in Hres.
    destruct (f_ndim s) eqn:En.
    + destruct Hres as [x' Hx']. destruct Hd_val as (x & Hx & ->).
      rewrite Hx' in Hdata |- *. cbn in Hdata. rewrite Hx. congruence.
    + destruct Hres as (v' & Hv' & Hshv'). destruct Hd_val as (av & Hx & Hshv & ->).
      rewrite Hv' in Hdata |- *. cbn in Hdata. rewrite Hx.
      destruct v', av; cbn in *. by subst.
  - (* transient *)
    rewrite ram_saved_transient by done. destruct Hr as [_ Hr].
    exists (set_value v s). split; [|split; [done|]].
    + unfold loaddata_body. cbn [set_value f_diskflag f_ramflag].
      by rewrite Hd, Hr.
    + intros Hn. destruct Hn. by split.
Qed.

(** *** The loops *)

Lemma save_loop i fa :
  forall fs idx,
  Forall (fun p => live i fs p.2) fa ->
  (idx = i /\
   Forall (fun p => f_diskflag p.2 = Some true -> f_ndim p.2 = 0%nat) fa) \/
  Forall (fun p => f_diskflag p.2 = Some false -> f_ramflag p.2 = Some false) fa ->
  savedata idx (on_slots (reopened i) fa) fs
  = ((on_slots (saved i) fa, save_all i (on_slots as_float fa) fs), Ok tt).
Proof.
  unfold savedata, save_all.
  induction fa as [|[name s] fa IH]; intros fs idx Hfa Hix; [done|].
  apply Forall_cons in Hfa as [Hs Hfa]. cbn [snd] in Hs.
  cbn [on_slots map for_names fst snd foldl].
  fold (on_slots (reopened i) fa). fold (on_slots (saved i) fa).
  fold (on_slots as_float fa).
  rewrite (save_body_live i fs s idx Hs).
  2:{ intros Hd Hram. destruct Hix as [[-> _]|Hix]; [done|].
      apply Forall_cons in Hix as [Hix _]. cbn [snd] in Hix.
      by rewrite (Hix Hd) in Hram. }
  rewrite IH; [done| |].
  - eapply Forall_impl; [exact Hfa|]. intros [n s'] H.
    eapply live_files; [|exact H]. intros q. apply save_to_keeps.
  - destruct Hix as [[-> Hix]|Hix].
    + left. apply Forall_cons in Hix as [Hk0 Hix]. split; [|done].
      cbn [snd] in Hk0. destruct (f_diskflag s) as [[|]|]; try done.
      by rewrite Hk0.
    + right. by apply Forall_cons in Hix as [_ Hix].
Qed.

Lemma load_loop i fs fs2 :
  0 <= i ->
  forall fa vs idx,
  Forall2 (fun p v => same_kind (f_value p.2) v) fa vs ->
  Forall (fun p => live i fs p.2) fa ->
  Forall (fun p => holds_record i fs2 (as_float p.2)) fa ->
  (idx = i /\
   Forall (fun p => f_diskflag p.2 = Some true -> f_ndim p.2 = 0%nat) fa) \/
  Forall (fun p => f_diskflag p.2 = Some false -> f_ramflag p.2 = Some false) fa ->
  exists fb,
    loaddata idx (overwritten vs (on_slots (again i) fa)) fs2
    = ((fb, fs2), Ok tt) /\
    restored fa vs fb.
Proof.
  intros Hi fa vs idx Hvs. revert idx.
  induction Hvs as [|[name s] v fa vs Hk _ IH]; intros idx Hfa Hrec Hix.
  - exists []. split; [done|constructor].
  - apply Forall_cons in Hfa as [Hs Hfa].
    apply Forall_cons in Hrec as [Hr Hrec]. cbn [snd] in *.
    destruct (load_body_live i fs fs2 s v idx Hi Hs Hr Hk) as (s' & Hrun & Ht & Hn).
    { intros Hd Hram. destruct Hix as [[-> _]|Hix]; [done|].
      apply Forall_cons in Hix as [Hix _]. cbn [snd] in Hix.
      by rewrite (Hix Hd) in Hram. }
    destruct (IH (match f_diskflag s with
                  | Some true => idx_after_range (f_ndim s) idx
                  | _ => idx
                  end) Hfa Hrec) as (fb & Hloop & Hres).
    { destruct Hix as [[-> Hix]|Hix].
      - left. apply Forall_cons in Hix as [Hk0 Hix]. split; [|done].
        cbn [snd] in Hk0. destruct (f_diskflag s) as [[|]|]; try done.
        by rewrite Hk0.
      - right. by apply Forall_cons in Hix as [_ Hix]. }
    exists ((name, s') :: fb). split.
    + unfold loaddata, overwritten in *.
      cbn [on_slots map zip_with for_names fst snd].
      rewrite Hrun. fold (on_slots (again i) fa). by rewrite Hloop.
    + unfold restored. cbn [zip_with]. by constructor.
Qed.

Lemma on_slots_not_disk (g : slot -> slot) fa :
  (forall s, f_diskflag s = Some false -> g s = s) ->
  Forall (fun p => f_diskflag p.2 = Some false) fa -> on_slots g fa = fa.
Proof.
  intros Hg. induction 1 as [|[n s] fa Hd _ IH]; [done|].
  cbn [on_slots map fst snd]. fold (on_slots g fa). by rewrite IH, Hg.
Qed.

Lemma saved_again_not_disk i fa :
  Forall (fun p => f_diskflag p.2 = Some false) fa ->
  on_slots (saved i) fa = on_slots (again i) fa.
Proof.
  induction 1 as [|[n s] fa Hd _ IH]; [done|].
  cbn [on_slots map fst snd]. fold (on_slots (saved i) fa).
  fold (on_slots (again i) fa). rewrite IH. unfold saved, again.
  cbn [snd] in Hd. by rewrite Hd.
Qed.

End RoundTrip.

(** C1, as the code has it.  The sequences of an object are in RAM mode,
    in disk mode or transient; the value of a scalar one is a float or
    the cell of a node.  After [savedata(i)] other values take the place
    of the values.

    If no sequence is in disk mode, the [loaddata(i)] that follows
    returns, and every sequence in RAM mode holds the value that was
    saved, bit for bit, a float where it was a cell.

    In disk mode both methods work at the position of the open file and
    move it one record on, so the values written by [savedata(i)] are
    read back by a [loaddata(i)] that follows after the files were put
    back to the start of record [i] ([closefiles()], then
    [openfiles(i)]): then every sequence with an active mode holds the
    value that was saved, bit for bit, provided that no two sequences
    share a file and that the sequences in disk mode are scalars or no
    sequence is in RAM mode.  A transient sequence keeps the value that
    took the place of its own. *)
Theorem savedata_loaddata_roundtrip py3 i (fa : FastAccess.fastaccess) (fs : files)
    (vs : list pyvalue) :
  0 <= i ->
  Forall (fun p => live i fs p.2) fa ->
  Forall2 (fun p v => same_kind (FastAccess.f_value p.2) v) fa vs ->
  (Forall (fun p => FastAccess.f_diskflag p.2 = Some false) fa ->
   exists fa1 fa2,
     FastAccess.savedata i fa fs = ((fa1, fs), Ok tt) /\
     FastAccess.loaddata i (overwritten vs fa1) fs = ((fa2, fs), Ok tt) /\
     restored fa vs fa2) /\
  (NoDup (disk_paths fa) -> index_kept fa ->
   exists fa1 fa2 fs2 fa3 fa4 fa5,
     FastAccess.openfiles py3 i fa fs = ((fa1, fs), Ok tt) /\
     FastAccess.savedata i fa1 fs = ((fa2, fs2), Ok tt) /\
     FastAccess.closefiles fa2 fs2 = ((fa3, fs2), Ok tt) /\
     FastAccess.openfiles py3 i fa3 fs2 = ((fa4, fs2), Ok tt) /\
     FastAccess.loaddata i (overwritten vs fa4) fs2 = ((fa5, fs2), Ok tt) /\
     restored fa vs fa5).
Proof.
  intros Hi Hfa Hvs. split.
  - intros Hnd.
    assert (Hix : (i = i /\
              Forall (fun p => FastAccess.f_diskflag p.2 = Some true ->
                               FastAccess.f_ndim p.2 = 0%nat) fa) \/
              Forall (fun p => FastAccess.f_diskflag p.2 = Some false ->
                               FastAccess.f_ramflag p.2 = Some false) fa).
    { left. split; [done|]. eapply Forall_impl; [exact Hnd|].
      intros [n s] Hd Ht. cbn [snd] in *. congruence. }
    destruct (load_loop i fs fs Hi fa vs i Hvs Hfa) as (fb & Hload & Hres);
      [|exact Hix|].
    { eapply Forall_impl; [exact Hnd|]. intros [n s] Hd. unfold holds_record.
      cbn [snd] in *.
      change (FastAccess.f_diskflag (as_float s)) with (FastAccess.f_diskflag s).
      by rewrite Hd. }
    exists (on_slots (saved i) fa), fb. split; [|split; [|done]].
    + rewrite <- (on_slots_not_disk (reopened i) fa) at 1;
        [|intros s; apply reopened_not_disk|exact Hnd].
      rewrite (save_loop i fa fs i Hfa Hix). by rewrite save_all_no_disk.
    + by rewrite saved_again_not_disk.
  - intros Hnodup Hkept.
    set (fs2 := save_all i (on_slots as_float fa) fs).
    assert (Hsub : forall q, is_Some (fs !! q) -> is_Some (fs2 !! q))
      by (intros q; apply save_all_keeps).
    assert (Hix : (i = i /\
              Forall (fun p => FastAccess.f_diskflag p.2 = Some true ->
                               FastAccess.f_ndim p.2 = 0%nat) fa) \/
              Forall (fun p => FastAccess.f_diskflag p.2 = Some false ->
                               FastAccess.f_ramflag p.2 = Some false) fa).
    { destruct Hkept as [H|H]; [left; by split|by right]. }
    destruct (load_loop i fs fs2 Hi fa vs i Hvs Hfa
                (save_all_holds_live i fa fs Hnodup Hfa) Hix)
      as (fb & Hload & Hres).
    exists (on_slots (reopened i) fa), (on_slots (saved i) fa), fs2,
      (on_slots (shut i) fa), (on_slots (again i) fa), fb.
    split; [|split; [|split; [|split; [|split]]]];
      [ | | | |exact Hload|exact Hres].
    + unfold FastAccess.openfiles. rewrite <- (on_slots_id fa) at 1.
      eapply (for_names_on_slots _ (fun idx => idx = i)
                (fun s => live i fs s)); [|exact Hfa|done].
      intros s idx -> Hs. exists i. split; [done|]. by apply open_first.
    + by apply save_loop.
    + unfold FastAccess.closefiles.
      eapply (for_names_on_slots _ (fun _ => True)
                (fun s => live i fs s)); [|exact Hfa|done].
      intros s idx _ Hs. exists idx. split; [done|]. by apply (close_saved i fs).
    + unfold FastAccess.openfiles.
      eapply (for_names_on_slots _ (fun idx => idx = i)
                (fun s => live i fs s)); [|exact Hfa|done].
      intros s idx -> Hs. exists i. split; [done|]. by apply (open_again py3 i fs).
Qed.

Lemma savedata_loaddata_roundtrip_witness :
  (exists fa1 fa2,
     FastAccess.savedata 1 [("sim"%string, sim_ram); ("w"%string, w_ram)] ∅
     = ((fa1, ∅), Ok tt) /\
     FastAccess.loaddata 1
       (overwritten [PyDouble two; PyArray (zeros [2%nat])] fa1) ∅
     = ((fa2, ∅), Ok tt) /\
     restored [("sim"%string, sim_ram); ("w"%string, w_ram)]
       [PyDouble two; PyArray (zeros [2%nat])] fa2) /\
  (exists fa1 fa2 fs2 fa3 fa4 fa5,
     FastAccess.openfiles false 1
       [("sim"%string, sim_ram); ("w"%string, w_ram); ("q"%string, q_disk)] q_files
     = ((fa1, q_files), Ok tt) /\
     FastAccess.savedata 1 fa1 q_files = ((fa2, fs2), Ok tt) /\
     FastAccess.closefiles fa2 fs2 = ((fa3, fs2), Ok tt) /\
     FastAccess.openfiles false 1 fa3 fs2 = ((fa4, fs2), Ok tt) /\
     FastAccess.loaddata 1
       (overwritten [PyDouble two; PyArray (zeros [2%nat]); PyFloat three] fa4) fs2
     = ((fa5, fs2), Ok tt) /\
     restored [("sim"%string, sim_ram); ("w"%string, w_ram); ("q"%string, q_disk)]
       [PyDouble two; PyArray (zeros [2%nat]); PyFloat three] fa5).
Proof.
  assert (H1 : 0 <= 1) by lia.
  assert (Hsim : forall fs, live 1 fs sim_ram).
  { intros fs. left. split; [reflexivity|]. split; [reflexivity|].
    exists (zeros [3%nat]), 3%nat, [].
    split; [reflexivity|]. split; [reflexivity|]. split; [reflexivity|].
    split; [simpl; lia|]. split; [reflexivity|].
    exists one. reflexivity. }
  assert (Hw : forall fs, live 1 fs w_ram).
  { intros fs. left. split; [reflexivity|]. split; [reflexivity|].
    exists (zeros [3%nat; 2%nat]), 3%nat, [2%nat].
    split; [reflexivity|]. split; [reflexivity|]. split; [reflexivity|].
    split; [simpl; lia|]. split; [reflexivity|].
    eexists. split; [reflexivity|]. split; reflexivity. }
  assert (Hq : live 1 q_files q_disk).
  { right; left.
    split; [reflexivity|]. split; [simpl; eauto|]. split; [simpl; lia|].
    split.
    - exists "q.bin"%string. split; [reflexivity|]. vm_compute. eauto.
    - exists one. split; [reflexivity|]. unfold wf, one. lia. }
  assert (Hk2 : Forall2 (fun p v => same_kind (FastAccess.f_value p.2) v)
                  [("sim"%string, sim_ram); ("w"%string, w_ram)]
                  [PyDouble two; PyArray (zeros [2%nat])]).
  { constructor; [exact I|]. constructor; [|constructor].
    exists (zeros [2%nat]). split; reflexivity. }
  assert (Hk3 : Forall2 (fun p v => same_kind (FastAccess.f_value p.2) v)
                  [("sim"%string, sim_ram); ("w"%string, w_ram);
                   ("q"%string, q_disk)]
                  [PyDouble two; PyArray (zeros [2%nat]); PyFloat three]).
  { constructor; [exact I|]. constructor.
    - exists (zeros [2%nat]). split; reflexivity.
    - constructor; [exact I|constructor]. }
  assert (Hl2 : Forall (fun p => live 1 ∅ p.2)
                  [("sim"%string, sim_ram); ("w"%string, w_ram)]).
  { apply List.Forall_cons; [apply Hsim|].
    apply List.Forall_cons; [apply Hw|apply List.Forall_nil]. }
  assert (Hl3 : Forall (fun p => live 1 q_files p.2)
                  [("sim"%string, sim_ram); ("w"%string, w_ram);
                   ("q"%string, q_disk)]).
  { apply List.Forall_cons; [apply Hsim|].
    apply List.Forall_cons; [apply Hw|].
    apply List.Forall_cons; [exact Hq|apply List.Forall_nil]. }
  split.
  - apply (proj1 (savedata_loaddata_roundtrip false 1
                    [("sim"%string, sim_ram); ("w"%string, w_ram)] ∅
                    [PyDouble two; PyArray (zeros [2%nat])] H1
                    Hl2 Hk2)).
    constructor; [reflexivity|]. constructor; [reflexivity|constructor].
  - apply (proj2 (savedata_loaddata_roundtrip false 1
                    [("sim"%string, sim_ram); ("w"%string, w_ram);
                     ("q"%string, q_disk)] q_files
                    [PyDouble two; PyArray (zeros [2%nat]); PyFloat three] H1
                    Hl3 Hk3)).
    + simpl. apply NoDup_singleton.
    + left. constructor; [discriminate|]. constructor; [discriminate|].
      constructor; [reflexivity|constructor].
Defined.

(** The round trip of the object in RAM mode, computed: 2.0 is put into
    the cell and zeros into the array after [savedata(1)]; [loaddata(1)]
    brings back the 1.0 of the cell, as a float, and the array. *)
Lemma roundtrip_ram_computed :
  exists fa1 fa2,
    FastAccess.savedata 1 [("sim"%string, sim_ram); ("w"%string, w_ram)] ∅
    = ((fa1, ∅), Ok tt) /\
    FastAccess.value_of "sim"
      (overwritten [PyDouble two; PyArray (zeros [2%nat])] fa1)
    = Some (PyDouble two) /\
    FastAccess.loaddata 1
      (overwritten [PyDouble two; PyArray (zeros [2%nat])] fa1) ∅
    = ((fa2, ∅), Ok tt) /\
    FastAccess.value_of "sim" fa2 = Some (PyFloat one) /\
    FastAccess.value_of "w" fa2
    = Some (PyArray {| shape := [2%nat]; data := [one; two] |}).
Proof.
  do 2 eexists.
  split; [vm_compute; reflexivity|].
  split; [vm_compute; reflexivity|].
  split; [vm_compute; reflexivity|].
  split; vm_compute; reflexivity.
Qed.
